(* ===== verification/_CoqProject ===== *)
-Q . S2P
Prelude.v
PyString.v
PyList.v
NdArray.v
Dtype.v
Contract.v
BinaryIO.v
Properties.v
BinDat.v
MCSH5.v
SpikeGLX.v
RoundTrip.v
