(* ===== verification/Prelude.v ===== *)
(** * A verification development of spikeextractors' recording adapters

    The repository (src/spikeextractors/extractors/) holds three recording
    adapters that expose one read contract (channel ids, frame count,
    sampling rate, get_traces over a channel selection and a frame range)
    over three on-disk formats:

    - [BinDatRecordingExtractor] (bindatrecordingextractor.py): a flat
      binary file mapped through [read_binary] with caller-supplied shape,
      dtype, orientation and offset; get_traces slices frames, selects rows,
      re-centres unsigned dtypes and multiplies by an optional gain;
      write_recording delegates to [write_to_binary_dat_format].
    - [MCSH5RecordingExtractor] (mcsh5recordingextractor.py): an HDF5
      container opened by [openMCSH5File], which validates the channel-id
      table, the unit and the uniformity of the time steps, and derives
      the sampling rate; get_traces converts the whole ChannelData matrix
      to volts at each call and then selects rows and frames.
    - [SpikeGLXRecordingExtractor] (spikeglxrecordingextractor.py): a
      SpikeGLX .bin file with its .meta text file; the constructor checks
      the meta file, parses it with [_parse_spikeglx_metafile], restricts
      the store to the AP channels and attaches per-channel gains.

    The adapters share no state; they interact with the base class
    (channel property storage) and with the helpers of extraction_tools
    and readSGLX, which are not under src/ and are modelled from the
    spec where the adapters depend on them (marked spec_modelled in the
    manifest).

    ** Files of the development (in dependency order)

    - [Prelude] (this file): Python's exceptions as the inductive
      [PyError], the error monad [PyResult] ([Ok]/[Err]) with its
      notations [let* x := m in k] and [m ;; k] in [py_scope], the hint
      databases [pyres] and [pylen], the tactics [py_inv] and [len], and
      the generic lemmas on the monad and on comprehensions ([py_mapM])
      shared by all components.
    - [PyString]: the str operations the code calls ([startswith],
      [find], [in], slicing, [split], [strip], [int()], [float()] and
      [str()] of an int), with [int(str(z)) == z] and the split/join
      round trip.
    - [PyList]: [list.index] ([py_index], [index_of]), membership,
      [range], slicing with Python's index normalisation ([py_slice]),
      numpy integer-array indexing ([py_item], [py_take], with the
      IndexError of an out-of-range index), and the translation of ids
      to row positions shared by the adapters' get_traces.
    - [NdArray]: 2-D numpy arrays as lists of rows, the shape invariant
      [is_matrix], [a[:, s:e]], [a[idx, :]], [a.T], [tofile]/[memmap]
      layout ([flatten], [reshape]) and elementwise maps, with the
      shape of a slice for any bounds and the preservation of an
      elementwise property by every layout operation.
    - [Dtype]: integer dtypes (signedness, width, byte order), numpy's
      parse of dtype names, and the two's-complement byte codec with
      decode-after-encode = wrap-around of [astype]; every item decoded
      from bytes lies in the dtype's range ([in_dtype]), the bound
      [le_value bs < 256^len] doing the work.
    - [Contract]: the read interface as the class [Recording] and the
      spec's read contract (section 4.1) as the laws of the class
      [ReadContract]: full read shape, frame ranges, channel lists in
      requested order, unknown ids raise; and the type of a read
      ([traces_type_law]): 1-D for an int id, 2-D with one row per
      requested channel otherwise, with the frame count of Python's
      slice ([slice_len]); and the class-level attributes every adapter
      class declares, as the record [ExtractorInfo] with its GUI
      parameters [GuiParam].
    - [BinaryIO] (spec_modelled: extraction_tools is not under src/):
      [read_binary] and [write_to_binary_dat_format]; the writer is
      proved against [ReadContract] only: chunked and one-shot writing
      give the same bytes, and [read_binary] reads back what was written.
    - [Properties] (spec_modelled: the base class): the per-channel
      property store as a [gmap], [set_channel_property] and its
      invariant.
    - [BinDat]: bindatrecordingextractor.py.  State [BinDat] = the
      attributes of [__init__]; the class attributes [bd_info];
      [bd_init], [bd_get_traces], [bd_write_recording]; the instance
      [BinDatRec].  Theorems: the constructor's invariant and shape
      (C6), the refinement of the read contract (C1), the unsigned
      re-centring by [2^(N-1) + 1] (C3, an off-by-one), the 'u2'
      spelling escaping it (C7), the geometry keyed by row index (C8)
      and its locations with the default ids (C37), gain (C9), the
      wrong-length error (C10), [time_axis] and [chunksize] passed to
      the writer (C4), the type of every read (C33), and the range
      [-2^(N-1) - 1, 2^(N-1) - 2] of re-centred 'uintN' traces (C34).
    - [MCSH5]: mcsh5recordingextractor.py.  The file as a [gmap] from
      group path to [McsStream]; [openMCSH5File] with its checks in code
      order; the class attributes [mcs_info] (with [installed] the
      import flag [HAVE_MCSH5]); [mcs_init], [mcs_get_traces] (with
      [channel_indices] an option that is unassigned on the no-ids
      branch), [mcs_write_recording]; the instance [McsRec].  Theorems:
      success and sampling rate [1e6 / Tick] (C11), the channel-list and
      unknown-id laws (C12, C13), the error of get_traces() and the
      failure of the full-read law (C14), each validation error (C15,
      C16, C18, C19), the step check's dependence on the minimum only
      (C17), the 1-D int read (C20), the installation and write errors
      against the class attributes (C21), and the type of every read
      (C35).
    - [SpikeGLX]: spikeglxrecordingextractor.py.  The environment is
      the working directory and the files by path; pathlib's [stem],
      [parent] and [/]; readSGLX's [readMeta], [makeMemMapRaw] and
      [SampRate] (spec_modelled) and its gain formulas as section
      variables; [parse_spikeglx_metafile], the class attributes
      [sg_info], [sg_init] as its stages ([sg_ftype_of],
      [sg_metafile_of], [sg_restrict], [sg_locations], [sg_gains]),
      [sg_get_traces], [sg_write_recording]; the instances [SpikeGLXRec]
      and [SpikeGLX_contract].  Theorems: the read contract with the raw
      store as full read, in requested order (C22); the meta file looked
      up in the working directory (C23); nidq files failing on
      [None < int] (C24); the AP restriction and the invariant (C25,
      C26); the gains stored, not applied (C27); the error paths
      (C28-C30); the shank-map parse round trip (C31); the writer read
      back by [read_binary] (C32); the default locations and the GUI's
      pitch defaults (C36); the type of every read (C38).
    - [RoundTrip]: the [ReadContract] instance of BinDat, and
      write_recording followed by the BinDat constructor: exact for
      signed dtypes (C2), shifted for unsigned ones (C5).

    ** Modelling choices

    Python ints are [Z], lengths and indices [nat]; bytes are [Z] in
    [0, 256).  Physical (floating point) values are exact rationals [Q]:
    the model states what the code computes in exact arithmetic, and
    float rounding (float32 in BinDat, float64 time steps in MCSH5) is
    not modelled; numpy's [nan] of [0/0] is modelled where it decides a
    branch ([within_ppm]).  Rational results are stated up to [Qeq]
    ([==]).  Files are maps from path to content ([FileSys], [H5Sys], [SgEnv]);
    missing files raise [FileNotFoundError].  Recursion is structural
    everywhere; the only fuel is [str()] of an int ([digits_of_N]),
    given [1 + log2 n] steps, one more than the number of decimal digits
    needs.  So every operation is a total function, and termination
    needs no theorem; the code has no loop that waits or reacts (no
    liveness property to state): each operation is one call that
    returns or raises.  The witnesses evaluate the definitions on small
    concrete files by [vm_compute].

    ** Not modelled

    The gain formulas of readSGLX ([GainCorrectIM], [GainCorrectNI]:
    parameters of [sg_init], nothing is assumed of them); the imports
    (the one with an effect, [import h5py], is the flag [have_mcsh5]);
    verbose printing and [__del__] of the MCS adapter (output and the
    release of the h5py handle, which the model of a file as a value
    does not have); float dtypes, hence the float32 default of
    the writers; non-finite sampling rates in [SampRate]; [np.int] being
    removed in numpy 1.24 (the model assumes a numpy where it is
    [int]); text files not ending in a newline. *)

From stdpp Require Export base list strings sets gmap.
From Stdlib Require Export ZArith QArith Lia.

Declare Scope py_scope.
Delimit Scope py_scope with py.
Open Scope Z_scope.

(** ** Python exceptions *)

(** The exception classes the modelled code raises, with the message the
    code attaches to them where it attaches one. [NameError] also stands
    for its subclass [UnboundLocalError]. *)
Inductive PyError :=
| AssertionError (msg : string)
| ValueError (msg : string)
| IndexError (msg : string)
| TypeError (msg : string)
| KeyError (key : string)
| NameError (name : string)
| ZeroDivisionError
| NotImplementedError
| Exception (msg : string)
| FileNotFoundError (path : string).

#[export] Instance PyError_eq_dec : EqDecision PyError.
Proof. solve_decision. Defined.

(** A computation that returns a value or raises. *)
Inductive PyResult (A : Type) :=
| Ok (a : A)
| Err (e : PyError).
Arguments Ok {A} a.
Arguments Err {A} e.

Definition py_bind {A B} (m : PyResult A) (k : A -> PyResult B) : PyResult B :=
  match m with
  | Ok a => k a
  | Err e => Err e
  end.

Definition py_map {A B} (f : A -> B) (m : PyResult A) : PyResult B :=
  py_bind m (fun a => Ok (f a)).

(** [assert cond, msg]. *)
Definition py_assert (b : bool) (e : PyError) : PyResult unit :=
  if b then Ok tt else Err e.

(** An [Option] that must be present, raising [e] when it is not. *)
Definition py_some {A} (o : option A) (e : PyError) : PyResult A :=
  match o with
  | Some a => Ok a
  | None => Err e
  end.

Notation "'let*' x ':=' m 'in' k" := (py_bind m (fun x => k))
  (at level 10, x name, m at level 100, k at level 200) : py_scope.
Notation "'let*' ' p ':=' m 'in' k" := (py_bind m (fun p => k))
  (at level 10, p pattern, m at level 100, k at level 200) : py_scope.
Notation "m ;; k" := (py_bind m (fun _ => k))
  (at level 100, right associativity) : py_scope.

Open Scope py_scope.

Definition is_ok {A} (m : PyResult A) : bool :=
  match m with Ok _ => true | Err _ => false end.

(** A list comprehension whose element expression may raise: Python
    evaluates it left to right and the first exception escapes. *)
Fixpoint py_mapM {A B} (f : A -> PyResult B) (l : list A) : PyResult (list B) :=
  match l with
  | [] => Ok []
  | x :: xs => let* y := f x in let* ys := py_mapM f xs in Ok (y :: ys)
  end.

(** A [for] loop that updates an accumulator and may raise. *)
Fixpoint py_foldM {A B} (f : B -> A -> PyResult B) (b : B) (l : list A) : PyResult B :=
  match l with
  | [] => Ok b
  | x :: xs => let* b' := f b x in py_foldM f b' xs
  end.

(** ** Automation *)

Create HintDb pyres discriminated.
Create HintDb pylen discriminated.
Create Rewrite HintDb pyres.
Create Rewrite HintDb pylen.

(** ** Generic lemmas on the monad *)

Lemma py_bind_ok {A B} (a : A) (k : A -> PyResult B) : py_bind (Ok a) k = k a.
Proof. reflexivity. Qed.

Lemma py_bind_err {A B} (e : PyError) (k : A -> PyResult B) :
  py_bind (Err e) k = Err e.
Proof. reflexivity. Qed.

Lemma py_bind_ok_inv {A B} (m : PyResult A) (k : A -> PyResult B) b :
  py_bind m k = Ok b -> exists a, m = Ok a /\ k a = Ok b.
Proof. destruct m; simpl; [eauto | discriminate]. Qed.

Lemma py_bind_err_inv {A B} (m : PyResult A) (k : A -> PyResult B) e :
  py_bind m k = Err e -> m = Err e \/ exists a, m = Ok a /\ k a = Err e.
Proof. destruct m; simpl; [eauto | intros [= ->]; auto]. Qed.

Lemma py_assert_ok b e : py_assert b e = Ok tt <-> b = true.
Proof. destruct b; simpl; split; congruence. Qed.

Lemma py_some_ok {A} (o : option A) e a : py_some o e = Ok a <-> o = Some a.
Proof. destruct o; simpl; split; congruence. Qed.

Lemma py_mapM_ok_length {A B} (f : A -> PyResult B) l ys :
  py_mapM f l = Ok ys -> length ys = length l.
Proof.
  revert ys; induction l as [|x l IH]; simpl; intros ys H; [by injection H as <-|].
  destruct (f x); simpl in H; [|discriminate].
  destruct (py_mapM f l); simpl in H; [|discriminate].
  injection H as <-. simpl. f_equal. by apply IH.
Qed.

(** [py_mapM] succeeds exactly when each element does, and then it is
    [map] of the element results. *)
Lemma py_mapM_ok_iff {A B} (f : A -> PyResult B) l ys :
  py_mapM f l = Ok ys <-> Forall2 (fun x y => f x = Ok y) l ys.
Proof.
  revert ys; induction l as [|x l IH]; intros ys; simpl.
  - split; [intros [= <-]; constructor | intros H; inversion H; done].
  - split.
    + destruct (f x) eqn:Hf; simpl; [|discriminate].
      destruct (py_mapM f l) eqn:Hl; simpl; [|discriminate].
      intros [= <-]. constructor; [done|]. by apply IH.
    + intros H; inversion H as [|? y ? ys' Hf Hrest]; subst.
      rewrite Hf; simpl. by rewrite (proj2 (IH ys') Hrest).
Qed.

Lemma py_mapM_err_exists {A B} (f : A -> PyResult B) l e :
  py_mapM f l = Err e -> exists x, In x l /\ f x = Err e.
Proof.
  induction l as [|x l IH]; simpl; [discriminate|].
  destruct (f x) eqn:Hf; simpl; [|intros [= ->]; eauto].
  destruct (py_mapM f l); simpl; [discriminate|].
  intros [= ->]. destruct IH as (y & Hy & Hfy); eauto.
Qed.

Lemma py_mapM_ok_map {A B} (f : A -> B) l :
  py_mapM (fun x => Ok (f x)) l = Ok (map f l).
Proof. induction l as [|x l IH]; simpl; [done|]. by rewrite IH. Qed.

#[export] Hint Rewrite @py_bind_ok @py_bind_err : pyres.
#[export] Hint Rewrite @py_mapM_ok_map : pyres.
#[export] Hint Rewrite @length_app @length_map @length_seq @length_take
  @length_drop @length_replicate : pylen.
#[export] Hint Resolve py_mapM_ok_length : pyres.

(** Split a successful bind chain in a hypothesis into its steps. *)
Ltac py_inv :=
  repeat match goal with
  | H : py_bind ?m _ = Ok _ |- _ =>
      let a := fresh "a" in let Ha := fresh "Hm" in
      apply py_bind_ok_inv in H as (a & Ha & H)
  | H : py_assert _ _ = Ok _ |- _ => apply py_assert_ok in H
  | H : py_some _ _ = Ok _ |- _ => apply py_some_ok in H
  | H : Ok _ = Ok _ |- _ => injection H as H
  | H : Err _ = Ok _ |- _ => discriminate H
  end.

(** Prove a decidable proposition about concrete values by evaluating
    its decision procedure. *)
Ltac decide_goal := match goal with |- ?P => apply (bool_decide_unpack P); vm_compute; reflexivity end.

(** Close a length goal by rewriting with the length lemmas, then lia. *)
Ltac len := autorewrite with pylen in *; simpl in *; lia.

(** A comprehension raises as soon as one element raises. *)
Lemma py_mapM_err_of_elem {A B} (f : A -> PyResult B) l x e :
  x ∈ l -> f x = Err e -> exists e', py_mapM f l = Err e'.
Proof.
  induction l as [|y l IH]; intros Hx Hf; [by apply not_elem_of_nil in Hx|].
  simpl. destruct (f y) as [b|e'] eqn:Hy; simpl; [|eauto].
  apply elem_of_cons in Hx as [->|Hx]; [congruence|].
  destruct (IH Hx Hf) as [e' ->]. simpl. eauto.
Qed.

Lemma py_foldM_app {A B} (f : B -> A -> PyResult B) b l1 l2 :
  py_foldM f b (l1 ++ l2) = (let* b' := py_foldM f b l1 in py_foldM f b' l2).
Proof.
  revert b; induction l1 as [|x l1 IH]; intros b; simpl; [done|].
  destruct (f b x); simpl; [apply IH|done].
Qed.

(** The comprehension raises the error of its first failing element. *)
Lemma py_mapM_first_err {A B} (f : A -> PyResult B) pre x post e :
  Forall (fun y => is_ok (f y) = true) pre -> f x = Err e ->
  py_mapM f (pre ++ x :: post) = Err e.
Proof.
  induction 1 as [|y pre Hy _ IH]; intros Hx; simpl; [by rewrite Hx|].
  destruct (f y); simpl in *; [|done]. by rewrite IH.
Qed.
