(* ===== verification/PyString.v ===== *)
(** * Python string builtins used by the adapters

    The adapters read dtype names ([str(dtype)], [startswith], [find],
    slicing and [int()] in BinDatRecordingExtractor.get_traces) and text
    metadata ([split], [strip], [in], [int()] in
    _parse_spikeglx_metafile).  This file models those builtins on
    [string] through [list ascii]: Python's [str.split] with a one-character
    separator, [str.strip] of ASCII whitespace, [int()] in base 10 (with
    surrounding whitespace, an optional sign and single underscores
    between digits) and [str()] of an int, with the round trips
    [py_int (str_of_Z z) = Ok z] and [str_split c (str_join c ws) = ws]. *)

From S2P Require Import Prelude.
From Stdlib Require Import Ascii String.

(** ** Characters *)

Definition is_space (c : ascii) : bool :=
  match nat_of_ascii c with
  | 32 | 9 | 10 | 11 | 12 | 13 => true
  | _ => false
  end%nat.

Definition digit_val (c : ascii) : option nat :=
  let n := nat_of_ascii c in
  if (48 <=? n)%nat && (n <=? 57)%nat then Some (n - 48)%nat else None.

Definition ascii_of_digit (d : nat) : ascii := ascii_of_nat (48 + d).

Definition chars (s : string) : list ascii := list_ascii_of_string s.
Definition of_chars (l : list ascii) : string := string_of_list_ascii l.

(** ** Splitting and joining *)

(** [s.split(sep)] for a one-character separator, on characters. *)
Fixpoint split_chars (sep : ascii) (l : list ascii) : list (list ascii) :=
  match l with
  | [] => [[]]
  | c :: l' =>
      let r := split_chars sep l' in
      if decide (c = sep) then [] :: r
      else match r with
           | [] => [[c]]
           | w :: ws => (c :: w) :: ws
           end
  end.

Definition str_split (sep : ascii) (s : string) : list string :=
  map of_chars (split_chars sep (chars s)).

(** [sep.join(ws)]. *)
Fixpoint join_chars (sep : ascii) (ws : list (list ascii)) : list ascii :=
  match ws with
  | [] => []
  | [w] => w
  | w :: ws' => w ++ sep :: join_chars sep ws'
  end.

Definition str_join (sep : ascii) (ws : list string) : string :=
  of_chars (join_chars sep (map chars ws)).

(** ** Stripping *)

Fixpoint lstrip_chars (l : list ascii) : list ascii :=
  match l with
  | c :: l' => if is_space c then lstrip_chars l' else l
  | [] => []
  end.

Definition strip_chars (l : list ascii) : list ascii :=
  rev (lstrip_chars (rev (lstrip_chars l))).

(** [s.strip()]. *)
Definition str_strip (s : string) : string := of_chars (strip_chars (chars s)).

(** ** Searching *)

(** [s.startswith(p)]. *)
Definition str_startswith (p s : string) : bool := String.prefix p s.

(** [s.find(p)]: the first position of [p] in [s], or -1. *)
Definition str_find (p s : string) : Z :=
  match String.index 0 p s with
  | Some n => Z.of_nat n
  | None => -1
  end.

(** [p in s]. *)
Definition str_contains (p s : string) : bool :=
  match String.index 0 p s with Some _ => true | None => false end.

(** [s[a:]] for [a >= 0] (the only use in the adapters: an index computed
    as [find(...) + 3], hence at least 2). *)
Definition str_from (a : nat) (s : string) : string := of_chars (drop a (chars s)).

(** ** [int()] and [str()] in base 10 *)

(** The digits of a literal after the sign: digits, with single
    underscores allowed between two digits. [acc] is the value read so
    far; [under] says the previous character was an underscore. *)
Fixpoint parse_digits (l : list ascii) (acc : Z) (under : bool) : option Z :=
  match l with
  | [] => if under then None else Some acc
  | c :: l' =>
      if decide (c = "_"%char) then
        if under then None else parse_digits l' acc true
      else match digit_val c with
           | Some d => parse_digits l' (10 * acc + Z.of_nat d) false
           | None => None
           end
  end.

(** The body of a literal: at least one digit, no leading underscore. *)
Definition parse_unsigned (l : list ascii) : option Z :=
  match l with
  | c :: l' =>
      match digit_val c with
      | Some d => parse_digits l' (Z.of_nat d) false
      | None => None
      end
  | [] => None
  end.

Definition parse_signed (l : list ascii) : option Z :=
  match l with
  | "-"%char :: l' => option_map Z.opp (parse_unsigned l')
  | "+"%char :: l' => parse_unsigned l'
  | _ => parse_unsigned l
  end.

(** [int(s)]: surrounding whitespace is ignored; anything else that is
    not a literal raises [ValueError]. *)
Definition py_int (s : string) : PyResult Z :=
  py_some (parse_signed (strip_chars (chars s)))
    (ValueError ("invalid literal for int() with base 10: '" +:+ s +:+ "'")).

(** The decimal digits of [n], most significant first, prepended to
    [acc]; [fuel] bounds the number of digits. *)
Fixpoint dec_digits (fuel : nat) (n : N) (acc : list nat) : list nat :=
  match fuel with
  | O => acc
  | S f =>
      if (n <? 10)%N then N.to_nat n :: acc
      else dec_digits f (n / 10)%N (N.to_nat (n mod 10)%N :: acc)
  end.

Definition digits_of_N (n : N) : list nat := dec_digits (S (N.to_nat (N.log2 n))) n [].

(** [str(z)] for an int. *)
Definition str_of_Z (z : Z) : string :=
  let ds := map ascii_of_digit (digits_of_N (Z.abs_N z)) in
  of_chars (if decide (z < 0) then "-"%char :: ds else ds).

Definition str_of_N (n : N) : string := str_of_Z (Z.of_N n).

(** The value of a digit list read left to right from [acc]. *)
Definition digits_value (acc : Z) (ds : list nat) : Z :=
  fold_left (fun a d => 10 * a + Z.of_nat d) ds acc.

(** ** [float()] *)

(** The value [float(s)] gives: a finite number (exactly, rounding is not
    modelled) or one of [inf], [-inf], [nan]. *)
Inductive PyFloat :=
| FFin (q : Q)
| FNonFinite.

(** The longest prefix of [l] that is a [digitpart] (digits, single
    underscores between two digits), continuing the value [acc] after
    [n] digits: the value, the number of digits, the rest. *)
Fixpoint digitpart_go (l : list ascii) (acc : Z) (n : nat) : Z * nat * list ascii :=
  match l with
  | [] => (acc, n, [])
  | c :: l' =>
      match digit_val c with
      | Some d => digitpart_go l' (10 * acc + Z.of_nat d) (S n)
      | None =>
          if bool_decide (c = "_"%char) && bool_decide (0 < n)%nat then
            match l' with
            | c2 :: l'' =>
                match digit_val c2 with
                | Some d => digitpart_go l'' (10 * acc + Z.of_nat d) (S n)
                | None => (acc, n, l)
                end
            | [] => (acc, n, l)
            end
          else (acc, n, l)
      end
  end.

(** [number ::= [digitpart] "." digitpart | digitpart ["."]]: the digits
    as an integer, the number of fractional digits, the rest. *)
Definition parse_number (l : list ascii) : option (Z * nat * list ascii) :=
  let '(a, na, l1) := digitpart_go l 0 0 in
  match l1 with
  | "."%char :: l2 =>
      let '(b, nb, l3) := digitpart_go l2 a 0 in
      if bool_decide (na = 0%nat /\ nb = 0%nat) then None else Some (b, nb, l3)
  | _ => if bool_decide (na = 0%nat) then None else Some (a, 0%nat, l1)
  end.

(** [exponent ::= ("e" | "E") ["+" | "-"] digitpart], or nothing. *)
Definition parse_exponent (l : list ascii) : option Z :=
  let digits sgn l' :=
    let '(e, ne, rest) := digitpart_go l' 0 0 in
    match rest, ne with [], S _ => Some (sgn * e) | _, _ => None end in
  match l with
  | [] => Some 0
  | c :: l' =>
      if bool_decide (c = "e"%char) || bool_decide (c = "E"%char) then
        match l' with
        | "-"%char :: l'' => digits (-1) l''
        | "+"%char :: l'' => digits 1 l''
        | _ => digits 1 l'
        end
      else None
  end.

Definition lower (c : ascii) : ascii :=
  let n := nat_of_ascii c in
  if (65 <=? n)%nat && (n <=? 90)%nat then ascii_of_nat (n + 32) else c.

(** [floatvalue ::= [sign] (floatnumber | infinity | nan)] after the sign. *)
Definition parse_float_body (l : list ascii) : option PyFloat :=
  if bool_decide (map lower l = chars "inf") || bool_decide (map lower l = chars "infinity")
     || bool_decide (map lower l = chars "nan") then Some FNonFinite
  else
    match parse_number l with
    | Some (m, nf, rest) =>
        match parse_exponent rest with
        | Some e => Some (FFin (inject_Z m * Qpower 10 (e - Z.of_nat nf))%Q)
        | None => None
        end
    | None => None
    end.

Definition float_neg (f : PyFloat) : PyFloat :=
  match f with FFin q => FFin (- q)%Q | FNonFinite => FNonFinite end.

(** [float(s)]: surrounding whitespace is ignored. *)
Definition py_float (s : string) : PyResult PyFloat :=
  let body := strip_chars (chars s) in
  let r := match body with
           | "-"%char :: l => option_map float_neg (parse_float_body l)
           | "+"%char :: l => parse_float_body l
           | _ => parse_float_body body
           end in
  py_some r (ValueError ("could not convert string to float: '" +:+ s +:+ "'")).

(** ** Lemmas *)

Lemma chars_of_chars l : chars (of_chars l) = l.
Proof. apply list_ascii_of_string_of_list_ascii. Qed.

Lemma of_chars_chars s : of_chars (chars s) = s.
Proof. apply string_of_list_ascii_of_string. Qed.

#[export] Hint Rewrite chars_of_chars of_chars_chars : pyres.

Lemma digit_val_of_digit d : (d < 10)%nat -> digit_val (ascii_of_digit d) = Some d.
Proof. intros H. do 10 (destruct d as [|d]; [reflexivity|]). lia. Qed.

Lemma is_space_of_digit d : (d < 10)%nat -> is_space (ascii_of_digit d) = false.
Proof. intros H. do 10 (destruct d as [|d]; [reflexivity|]). lia. Qed.

Lemma digit_ne_underscore d : (d < 10)%nat -> ascii_of_digit d <> "_"%char.
Proof. intros H. do 10 (destruct d as [|d]; [discriminate|]). lia. Qed.

Lemma parse_digits_of_digits ds acc :
  Forall (fun d => d < 10)%nat ds ->
  parse_digits (map ascii_of_digit ds) acc false = Some (digits_value acc ds).
Proof.
  revert acc; induction ds as [|d ds IH]; intros acc Hds; [done|].
  inversion Hds as [|? ? Hd Hrest]; subst. cbn [map parse_digits].
  rewrite decide_False by (by apply digit_ne_underscore).
  rewrite digit_val_of_digit by done. by apply IH.
Qed.

(** [dec_digits] prepends the nonempty digit list of [n] to [acc]. *)
Lemma dec_digits_spec fuel n acc :
  fuel <> 0%nat -> (n < 10 ^ N.of_nat fuel)%N ->
  exists ds, dec_digits fuel n acc = ds ++ acc /\ ds <> [] /\
    Forall (fun d => d < 10)%nat ds /\ digits_value 0 ds = Z.of_N n.
Proof.
  revert n acc; induction fuel as [|f IH]; intros n acc Hf Hn; [done|].
  simpl. destruct (N.ltb_spec n 10) as [Hlt|Hge].
  - exists [N.to_nat n]. repeat split; [done|constructor; [lia|constructor]|].
    unfold digits_value; simpl. lia.
  - assert (f <> 0%nat) as Hf'.
    { intros ->. simpl in Hn. lia. }
    assert (n / 10 < 10 ^ N.of_nat f)%N as Hdiv.
    { apply N.Div0.div_lt_upper_bound.
      rewrite Nat2N.inj_succ, N.pow_succ_r' in Hn. lia. }
    destruct (IH (n / 10)%N (N.to_nat (n mod 10) :: acc) Hf' Hdiv)
      as (ds & Heq & Hne & Hall & Hval).
    exists (ds ++ [N.to_nat (n mod 10)]). rewrite Heq, <- app_assoc.
    repeat split.
    + by destruct ds.
    + apply Forall_app; split; [done|]. constructor; [|done].
      pose proof (N.mod_lt n 10). lia.
    + unfold digits_value in *. rewrite fold_left_app, Hval; simpl.
      pose proof (N.div_mod n 10). lia.
Qed.

Lemma digits_of_N_spec n :
  digits_of_N n <> [] /\ Forall (fun d => d < 10)%nat (digits_of_N n) /\
  digits_value 0 (digits_of_N n) = Z.of_N n.
Proof.
  unfold digits_of_N.
  destruct (dec_digits_spec (S (N.to_nat (N.log2 n))) n [])
    as (ds & -> & Hne & Hall & Hval); [done| |by rewrite app_nil_r].
  rewrite Nat2N.inj_succ, N2Nat.id.
  destruct (N.eq_dec n 0) as [->|Hn0]; [simpl; lia|].
  apply N.lt_le_trans with (2 ^ N.succ (N.log2 n))%N.
  - apply N.log2_spec. lia.
  - apply N.pow_le_mono_l. lia.
Qed.

Lemma lstrip_chars_id l : Forall (fun c => is_space c = false) l -> lstrip_chars l = l.
Proof. destruct l as [|c l]; [done|]. intros H; inversion H; subst; simpl. by rewrite H2. Qed.

Lemma strip_chars_id l : Forall (fun c => is_space c = false) l -> strip_chars l = l.
Proof.
  intros H. unfold strip_chars. rewrite (lstrip_chars_id l H), lstrip_chars_id.
  - apply rev_involutive.
  - by apply Forall_rev.
Qed.

Lemma parse_unsigned_digits ds :
  ds <> [] -> Forall (fun d => d < 10)%nat ds ->
  parse_unsigned (map ascii_of_digit ds) = Some (digits_value 0 ds).
Proof.
  destruct ds as [|d ds]; [done|]. intros _ H. inversion H; subst.
  cbn [map parse_unsigned].
  rewrite digit_val_of_digit by done. rewrite parse_digits_of_digits by done.
  unfold digits_value; cbn [fold_left]. do 3 f_equal; lia.
Qed.

Lemma parse_signed_digits ds :
  ds <> [] -> Forall (fun d => d < 10)%nat ds ->
  parse_signed (map ascii_of_digit ds) = parse_unsigned (map ascii_of_digit ds).
Proof.
  destruct ds as [|d ds]; [done|]. intros _ H. inversion H as [|? ? Hd _]; subst.
  do 10 (destruct d as [|d]; [reflexivity|]). lia.
Qed.

(** [int(str(z)) == z]. *)
Lemma py_int_str_of_Z z : py_int (str_of_Z z) = Ok z.
Proof.
  unfold py_int, str_of_Z. rewrite chars_of_chars.
  destruct (digits_of_N_spec (Z.abs_N z)) as (Hne & Hall & Hval).
  assert (Forall (fun c => is_space c = false) (map ascii_of_digit (digits_of_N (Z.abs_N z)))).
  { apply Forall_map. eapply Forall_impl; [exact Hall|]. apply is_space_of_digit. }
  case_decide.
  - rewrite strip_chars_id by (constructor; [done|assumption]). cbn [parse_signed].
    rewrite parse_unsigned_digits, Hval by done. cbn [option_map py_some]. f_equal. lia.
  - rewrite strip_chars_id by done.
    rewrite parse_signed_digits, parse_unsigned_digits, Hval by done.
    cbn [py_some]. f_equal. lia.
Qed.

(** ** Splitting what was joined *)

Lemma split_chars_app_sep sep w l :
  sep ∉ w -> split_chars sep (w ++ sep :: l) = w :: split_chars sep l.
Proof.
  induction w as [|c w IH]; intros Hw; simpl.
  - by rewrite decide_True.
  - rewrite IH by set_solver. rewrite decide_False by set_solver. done.
Qed.

Lemma split_chars_no_sep sep w : sep ∉ w -> split_chars sep w = [w].
Proof.
  induction w as [|c w IH]; intros Hw; simpl; [done|].
  rewrite IH by set_solver. rewrite decide_False by set_solver. done.
Qed.

(** [sep.join(ws).split(sep) == ws] when no word holds [sep]. *)
Lemma split_join_chars sep ws :
  ws <> [] -> Forall (fun w => sep ∉ w) ws -> split_chars sep (join_chars sep ws) = ws.
Proof.
  induction ws as [|w ws IH]; intros Hne Hall; [done|].
  inversion Hall; subst. destruct ws as [|w' ws'].
  - by apply split_chars_no_sep.
  - change (join_chars sep (w :: w' :: ws')) with (w ++ sep :: join_chars sep (w' :: ws')).
    rewrite split_chars_app_sep by done. f_equal. by apply IH.
Qed.

Lemma split_chars_nonempty sep l : split_chars sep l <> [].
Proof. induction l as [|c l IH]; simpl; [done|]. case_decide; [done|]. by destruct (split_chars sep l). Qed.

Lemma str_startswith_app p s : str_startswith p s = true -> exists rest, s = p +:+ rest.
Proof.
  unfold str_startswith. revert s; induction p as [|c p IH]; intros s H.
  - by exists s.
  - destruct s as [|c' s]; simpl in H; [discriminate|].
    destruct (ascii_dec c c') as [<-|]; [|discriminate].
    destruct (IH s H) as [rest ->]. by exists rest.
Qed.

Lemma chars_app s t : chars (s +:+ t) = chars s ++ chars t.
Proof.
  unfold chars. induction s as [|c s IH]; [done|].
  change (String c s +:+ t) with (String c (s +:+ t)). cbn. by rewrite IH.
Qed.

(** [str(z)] is made of digits and a minus sign. *)
Lemma not_elem_of_str_of_Z z c :
  c <> "-"%char -> (forall d, (d < 10)%nat -> ascii_of_digit d <> c) -> c ∉ chars (str_of_Z z).
Proof.
  intros Hm Hd. unfold str_of_Z. rewrite chars_of_chars.
  destruct (digits_of_N_spec (Z.abs_N z)) as (_ & Hall & _).
  assert (c ∉ map ascii_of_digit (digits_of_N (Z.abs_N z))).
  { intros (d & -> & Hin)%list_elem_of_fmap. rewrite Forall_forall in Hall.
    exact (Hd d (Hall d Hin) eq_refl). }
  case_decide; [|done]. by apply not_elem_of_cons.
Qed.

Lemma join_chars_snoc sep ws w v :
  join_chars sep (ws ++ [w]) ++ v = join_chars sep (ws ++ [w ++ v]).
Proof.
  induction ws as [|w0 ws IH]; [done|]. rewrite <- !app_comm_cons.
  destruct ws as [|w1 ws]; [simpl; by rewrite <- app_assoc|].
  change (join_chars sep (w0 :: (w1 :: ws) ++ [w]))
    with (w0 ++ sep :: join_chars sep ((w1 :: ws) ++ [w])).
  change (join_chars sep (w0 :: (w1 :: ws) ++ [w ++ v]))
    with (w0 ++ sep :: join_chars sep ((w1 :: ws) ++ [w ++ v])).
  rewrite <- IH. by rewrite <- app_assoc.
Qed.

Lemma length_chars s : String.length s = List.length (chars s).
Proof. unfold chars. induction s as [|c s IH]; simpl; [done|]. by rewrite IH. Qed.

Lemma not_elem_of_join_chars c sep ws :
  c <> sep -> Forall (fun w => c ∉ w) ws -> c ∉ join_chars sep ws.
Proof.
  intros Hs. induction 1 as [|w ws Hw Hall IH]; [apply not_elem_of_nil|].
  destruct ws as [|w' ws']; [done|]. simpl.
  rewrite elem_of_app, elem_of_cons. intros [?|[?|?]]; [done|done|by apply IH].
Qed.

Lemma map_of_chars_chars ws : map of_chars (map chars ws) = ws.
Proof. rewrite map_map. rewrite <- (map_id ws) at 2. apply map_ext. apply of_chars_chars. Qed.
