(* ===== verification/PyList.v ===== *)
(** * Python list operations used by the adapters

    [list.index] ([py_index], from [index_of]), [range] ([py_range]),
    slicing with a step of 1 ([py_slice], with CPython's normalisation
    of negative and out-of-range bounds, PySlice_AdjustIndices), and
    numpy integer-array indexing along the first axis ([py_item],
    [py_take]: negative indices wrap once, an index out of bounds raises
    [IndexError]).  The lemmas give each operation's functional
    specification in terms of stdpp's [lookup], [take] and [drop]. *)

From S2P Require Import Prelude PyString.

(** ** [list.index] *)

Fixpoint index_of (l : list Z) (x : Z) : option nat :=
  match l with
  | [] => None
  | y :: l' => if decide (y = x) then Some 0%nat else S <$> index_of l' x
  end.

(** [l.index(x)]. *)
Definition py_index (l : list Z) (x : Z) : PyResult nat :=
  py_some (index_of l x) (ValueError (str_of_Z x +:+ " is not in list")).

(** [x in l]. *)
Definition py_in (x : Z) (l : list Z) : bool := bool_decide (x ∈ l).

(** [list(range(n))]. *)
Definition py_range (n : nat) : list Z := map Z.of_nat (seq 0 n).

(** ** Slicing [l[start:stop]] *)

(** One bound of a slice, normalised against the length [n]. *)
Definition slice_index (n i : Z) : Z :=
  if decide (i < 0) then Z.max 0 (i + n) else Z.min i n.

Definition py_slice {A} (l : list A) (start stop : Z) : list A :=
  let n := Z.of_nat (length l) in
  let s := slice_index n start in
  let e := slice_index n stop in
  take (Z.to_nat (e - s)) (drop (Z.to_nat s) l).

(** ** Integer-array indexing [a[idx]] along the first axis *)

Definition index_error (i : Z) (n : nat) : PyError :=
  IndexError ("index " +:+ str_of_Z i +:+ " is out of bounds for axis 0 with size "
              +:+ str_of_Z (Z.of_nat n)).

(** [a[i]] for one integer [i]. *)
Definition py_item {A} (l : list A) (i : Z) : PyResult A :=
  let n := Z.of_nat (length l) in
  let j := if decide (i < 0) then i + n else i in
  py_some (if decide (0 <= j) then l !! Z.to_nat j else None)
    (index_error i (length l)).

(** [a[[i0, i1, ...]]]: the rows in the order of the index list. *)
Definition py_take {A} (l : list A) (idx : list Z) : PyResult (list A) :=
  py_mapM (py_item l) idx.

(** [l[i]] on a Python list (its IndexError has its own message). *)
Definition py_list_item {A} (l : list A) (i : Z) : PyResult A :=
  match py_item l i with
  | Ok x => Ok x
  | Err _ => Err (IndexError "list index out of range")
  end.

(** ** Lemmas on [index_of] *)

Section IndexOf.
Implicit Types (l : list Z) (x : Z).

Lemma index_of_Some l x i :
  index_of l x = Some i -> l !! i = Some x /\ (forall j, (j < i)%nat -> l !! j <> Some x).
Proof.
  revert i; induction l as [|y l IH]; intros i; simpl; [done|].
  case_decide as Hy.
  - intros [= <-]. subst. split; [done|lia].
  - destruct (index_of l x) as [k|] eqn:Hk; simpl; [|done].
    intros [= <-]. destruct (IH k eq_refl) as [Hl Hmin]. split; [done|].
    intros [|j] Hj; simpl; [congruence|]. apply Hmin. lia.
Qed.

Lemma index_of_None l x : index_of l x = None <-> x ∉ l.
Proof.
  induction l as [|y l IH]; simpl.
  - split; [intros _; apply not_elem_of_nil|done].
  - rewrite not_elem_of_cons. case_decide as Hy; [subst; naive_solver|].
    destruct (index_of l x); simpl; naive_solver.
Qed.

Lemma index_of_lt l x i : index_of l x = Some i -> (i < length l)%nat.
Proof. intros H. apply index_of_Some in H as [H _]. by eapply lookup_lt_Some. Qed.

(** With distinct elements, [index] inverts [lookup]. *)
Lemma index_of_lookup l i x : NoDup l -> l !! i = Some x -> index_of l x = Some i.
Proof.
  intros Hnd Hi. destruct (index_of l x) as [k|] eqn:Hk.
  - apply index_of_Some in Hk as [Hk _]. f_equal.
    by eapply NoDup_lookup.
  - apply index_of_None in Hk. destruct Hk. by eapply list_elem_of_lookup_2.
Qed.

Lemma py_index_ok l x : x ∈ l -> exists i, py_index l x = Ok i /\ l !! i = Some x.
Proof.
  intros Hx. unfold py_index. destruct (index_of l x) as [i|] eqn:Hi.
  - apply index_of_Some in Hi as [Hi _]. eauto.
  - by apply index_of_None in Hi.
Qed.

Lemma py_index_err l x : x ∉ l -> py_index l x = Err (ValueError (str_of_Z x +:+ " is not in list")).
Proof. intros Hx. unfold py_index. by rewrite (proj2 (index_of_None l x) Hx). Qed.

Lemma py_index_lt l x i : py_index l x = Ok i -> (i < length l)%nat.
Proof. unfold py_index. intros H%py_some_ok. by eapply index_of_lt. Qed.
End IndexOf.

(** ** Lemmas on [range] *)

Lemma length_py_range n : length (py_range n) = n.
Proof. unfold py_range. by rewrite length_map, length_seq. Qed.

Lemma lookup_py_range n i : (i < n)%nat -> py_range n !! i = Some (Z.of_nat i).
Proof. intros Hi. unfold py_range. rewrite list_lookup_fmap, lookup_seq_lt by done. done. Qed.

Lemma NoDup_py_range n : NoDup (py_range n).
Proof. unfold py_range. apply NoDup_fmap_2; [intros ???; lia|apply NoDup_seq]. Qed.

Lemma elem_of_py_range n z : z ∈ py_range n <-> 0 <= z < Z.of_nat n.
Proof.
  unfold py_range. rewrite list_elem_of_fmap. setoid_rewrite elem_of_seq.
  split; [intros (i & -> & ?); lia|]. intros Hz. exists (Z.to_nat z). lia.
Qed.

#[export] Hint Rewrite length_py_range : pylen.

(** ** Lemmas on slicing *)

Lemma slice_index_bounds n i : 0 <= n -> 0 <= slice_index n i <= n.
Proof. unfold slice_index. case_decide; lia. Qed.

Lemma slice_index_in n i : 0 <= i <= n -> slice_index n i = i.
Proof. unfold slice_index. case_decide; lia. Qed.

Lemma length_py_slice {A} (l : list A) a b :
  length (py_slice l a b) =
  Z.to_nat (slice_index (Z.of_nat (length l)) b - slice_index (Z.of_nat (length l)) a).
Proof.
  unfold py_slice. rewrite length_take, length_drop.
  pose proof (slice_index_bounds (Z.of_nat (length l)) a).
  pose proof (slice_index_bounds (Z.of_nat (length l)) b). lia.
Qed.

(** In range, [l[a:b]] is [take (b - a) (drop a l)], of length [b - a]. *)
Lemma py_slice_in {A} (l : list A) a b :
  0 <= a <= b -> b <= Z.of_nat (length l) ->
  py_slice l a b = take (Z.to_nat (b - a)) (drop (Z.to_nat a) l).
Proof. intros. unfold py_slice. rewrite !slice_index_in by lia. done. Qed.

Lemma length_py_slice_in {A} (l : list A) a b :
  0 <= a <= b -> b <= Z.of_nat (length l) -> length (py_slice l a b) = Z.to_nat (b - a).
Proof. intros. rewrite length_py_slice, !slice_index_in by lia. done. Qed.

Lemma py_slice_full {A} (l : list A) : py_slice l 0 (Z.of_nat (length l)) = l.
Proof.
  rewrite py_slice_in by lia. rewrite drop_0, Z.sub_0_r, Nat2Z.id. apply take_ge. lia.
Qed.

Lemma lookup_py_slice {A} (l : list A) a b k :
  0 <= a <= b -> b <= Z.of_nat (length l) -> (Z.of_nat k < b - a) ->
  py_slice l a b !! k = l !! (Z.to_nat a + k)%nat.
Proof.
  intros. rewrite py_slice_in by lia. rewrite lookup_take_lt by lia. apply lookup_drop.
Qed.

Lemma py_slice_map {A B} (f : A -> B) (l : list A) a b :
  py_slice (map f l) a b = map f (py_slice l a b).
Proof. unfold py_slice. by rewrite length_map, skipn_map, firstn_map. Qed.

(** ** Lemmas on integer-array indexing *)

Lemma py_item_in {A} (l : list A) i x :
  (i < length l)%nat -> l !! i = Some x -> py_item l (Z.of_nat i) = Ok x.
Proof.
  intros Hi Hx. unfold py_item; cbv zeta.
  destruct (decide (Z.of_nat i < 0)); [lia|].
  rewrite decide_True by lia. rewrite Nat2Z.id, Hx. done.
Qed.

Lemma py_item_ok_lookup {A} (l : list A) i x :
  py_item l i = Ok x ->
  exists j, l !! j = Some x /\ (i = Z.of_nat j \/ i = Z.of_nat j - Z.of_nat (length l)).
Proof.
  unfold py_item. intros H%py_some_ok. case_decide; [|done].
  exists (Z.to_nat (if decide (i < 0) then i + Z.of_nat (length l) else i)).
  split; [done|]. pose proof (lookup_lt_Some _ _ _ H). case_decide; lia.
Qed.

Lemma py_item_map {A B} (f : A -> B) (l : list A) i :
  py_item (map f l) i = py_map f (py_item l i).
Proof.
  unfold py_item. rewrite length_map.
  repeat case_decide; simpl; rewrite ?list_lookup_fmap; try done;
    by destruct (l !! _).
Qed.

Lemma py_take_map {A B} (f : A -> B) (l : list A) idx :
  py_take (map f l) idx = py_map (map f) (py_take l idx).
Proof.
  unfold py_take. induction idx as [|i idx IH]; simpl; [done|].
  rewrite py_item_map, IH. destruct (py_item l i), (py_mapM (py_item l) idx); done.
Qed.

Lemma py_take_length {A} (l : list A) idx rows :
  py_take l idx = Ok rows -> length rows = length idx.
Proof. apply py_mapM_ok_length. Qed.

(** Taking the rows [0 .. n-1] in order gives the list back. *)
Lemma py_take_range {A} (l : list A) : py_take l (py_range (length l)) = Ok l.
Proof.
  unfold py_take. apply py_mapM_ok_iff. apply Forall2_same_length_lookup. split.
  - by rewrite length_py_range.
  - intros i z x Hz Hx. rewrite lookup_py_range in Hz by (by eapply lookup_lt_Some).
    injection Hz as <-. apply py_item_in; [by eapply lookup_lt_Some|done].
Qed.

(** Indices produced by [index] against a list as long as [l] are all in
    bounds: the selection succeeds and picks [l !! i] for each. *)
Lemma py_take_in {A} (l : list A) (idx : list nat) :
  Forall (fun i => i < length l)%nat idx ->
  exists rows, py_take l (map Z.of_nat idx) = Ok rows /\
    Forall2 (fun i r => l !! i = Some r) idx rows.
Proof.
  induction idx as [|i idx IH]; intros Hall; simpl; [eexists; split; [done|constructor]|].
  inversion Hall as [|? ? Hi Hrest]; subst.
  destruct (lookup_lt_is_Some_2 l i Hi) as [x Hx].
  destruct (IH Hrest) as (rows & Hrows & Hf).
  exists (x :: rows). unfold py_take in *. simpl.
  rewrite (py_item_in l i x Hi Hx), Hrows. split; [done|by constructor].
Qed.

(** ** Translating ids to row indices through a comprehension *)

(** [[f(ch) for ch in chs]], where [f] returns the [index] of a known
    id, translates every known id to its position. *)
Lemma py_mapM_index (f : Z -> PyResult Z) (l chs : list Z) :
  (forall ch i, index_of l ch = Some i -> f ch = Ok (Z.of_nat i)) ->
  Forall (fun ch => ch ∈ l) chs ->
  exists idxs, py_mapM f chs = Ok (map Z.of_nat idxs) /\
    Forall2 (fun ch i => index_of l ch = Some i) chs idxs.
Proof.
  intros Hf. induction 1 as [|ch chs Hch _ IH]; simpl.
  - exists []. split; [done|constructor].
  - destruct (index_of l ch) as [i|] eqn:Hi; [|by apply index_of_None in Hi].
    destruct IH as (idxs & Hidxs & Hall). rewrite (Hf ch i Hi), Hidxs.
    exists (i :: idxs). split; [done|by constructor].
Qed.

(** The positions are in bounds of any list as long as [l]. *)
Lemma index_rows_in {A} (l : list Z) (rows : list A) chs idxs :
  length rows = length l -> Forall2 (fun ch i => index_of l ch = Some i) chs idxs ->
  Forall (fun i => i < length rows)%nat idxs.
Proof.
  intros Hlen Hf. apply Forall_lookup_2. intros k i Hi.
  destruct (Forall2_lookup_r _ _ _ _ _ Hf Hi) as (ch & _ & Hch).
  rewrite Hlen. by eapply index_of_lt.
Qed.

(** Selecting the rows at those positions picks, for each id, the row
    its position names. *)
Lemma index_rows_select {A} (l : list Z) (rows : list A) chs idxs R :
  Forall2 (fun ch i => index_of l ch = Some i) chs idxs ->
  Forall2 (fun i r => rows !! i = Some r) idxs R ->
  Forall2 (fun ch r => index_of l ch ≫= (fun i => rows !! i) = Some r) chs R.
Proof.
  intros Hf. revert R. induction Hf as [|ch i chs idxs Hci _ IH]; intros R HR;
    inversion HR; subst; constructor; [by rewrite Hci|by apply IH].
Qed.

(** [[l.index(ch) for ch in chs]] of known ids. *)
Lemma py_index_mapM_ok (l chs : list Z) :
  Forall (fun ch => ch ∈ l) chs ->
  exists idxs, py_map (map Z.of_nat) (py_mapM (py_index l) chs) = Ok (map Z.of_nat idxs) /\
    Forall2 (fun ch i => index_of l ch = Some i) chs idxs.
Proof.
  induction 1 as [|ch chs Hch _ IH]; simpl.
  - exists []. split; [done|constructor].
  - destruct (py_index_ok _ _ Hch) as (i & Hi & _).
    destruct IH as (idxs & Hidxs & Hf). rewrite Hi. simpl.
    destruct (py_mapM (py_index l) chs) as [r|]; simpl in *; [|done].
    injection Hidxs as Hr. exists (i :: idxs). split; [simpl; by rewrite <- Hr|].
    constructor; [|done]. unfold py_index in Hi. by apply py_some_ok in Hi.
Qed.

(** An unknown id makes the comprehension raise ValueError. *)
Lemma py_index_mapM_unknown (l chs : list Z) ch :
  ch ∈ chs -> ch ∉ l ->
  exists ch', py_mapM (py_index l) chs = Err (ValueError (str_of_Z ch' +:+ " is not in list")).
Proof.
  intros Hin Hout.
  destruct (py_mapM (py_index l) chs) as [idxs|err] eqn:E.
  - apply py_mapM_ok_iff in E. destruct (list_elem_of_lookup_1 _ _ Hin) as [k Hk].
    destruct (Forall2_lookup_l _ _ _ _ _ E Hk) as (i & _ & Hi).
    rewrite (py_index_err _ _ Hout) in Hi. discriminate.
  - destruct (py_mapM_err_exists _ _ _ E) as (ch' & _ & Hch').
    unfold py_index in Hch'. destruct (index_of _ ch'); simpl in Hch'; [discriminate|].
    injection Hch' as <-. by exists ch'.
Qed.

Lemma py_list_item_in {A} (l : list A) i x :
  (i < length l)%nat -> l !! i = Some x -> py_list_item l (Z.of_nat i) = Ok x.
Proof. intros Hi Hx. unfold py_list_item. by rewrite (py_item_in l i x). Qed.

Lemma py_item_ok_nonneg {A} (l : list A) i x :
  0 <= i -> py_item l i = Ok x -> l !! Z.to_nat i = Some x.
Proof.
  intros Hi E. destruct (py_item_ok_lookup _ _ _ E) as (j & Hj & [->| ->]).
  - by rewrite Nat2Z.id.
  - apply lookup_lt_Some in Hj. lia.
Qed.

Lemma py_list_item_ok_nonneg {A} (l : list A) i x :
  0 <= i -> py_list_item l i = Ok x -> l !! Z.to_nat i = Some x.
Proof.
  unfold py_list_item. intros Hi H. destruct (py_item l i) as [y|] eqn:E; [|done].
  injection H as <-. by apply py_item_ok_nonneg.
Qed.

Lemma py_list_item_ge {A} (l : list A) i :
  (length l <= i)%nat -> py_list_item l (Z.of_nat i) = Err (IndexError "list index out of range").
Proof.
  intros Hi. unfold py_list_item, py_item; cbv zeta.
  destruct (decide (Z.of_nat i < 0)); [lia|].
  rewrite decide_True by lia. rewrite Nat2Z.id. by rewrite lookup_ge_None_2.
Qed.
