(* ===== verification/NdArray.v ===== *)
(** * Two-dimensional numpy arrays

    A 2-D array is the list of its rows.  [is_matrix r c a] is its shape
    invariant ([a.shape == (r, c)]).  The operations are those the
    adapters apply to their stores: [a[:, s:e]] ([col_slice]),
    [a[idx, :]] ([take_rows], numpy integer-array indexing),
    [a[idx, s:e]] ([take_rows_slice]), [a.T] ([transpose]), elementwise
    maps ([mmap], for [astype] and scaling), and the row-major layout of
    [tofile]/[memmap] ([flatten], [reshape]).  The lemmas state the shape
    of each result, that [a[:, s:e][idx, :] == a[idx, s:e]], that
    transposition is an involution on well-shaped arrays, that
    [reshape] inverts [flatten], and that the layout operations keep an
    elementwise property ([Forall (Forall P)]). *)

From S2P Require Import Prelude PyString PyList.

(** The value a read returns: numpy returns a 1-D array when a single
    integer index selects one row, and a 2-D array otherwise. *)
Inductive ndarray (A : Type) :=
| Arr1 (v : list A)
| Arr2 (m : list (list A)).
Arguments Arr1 {A} v.
Arguments Arr2 {A} m.

Section Arrays.
Context {A : Type}.
Implicit Types (a : list (list A)) (row : list A).

Definition is_matrix (r c : nat) a : Prop :=
  length a = r /\ Forall (fun row => length row = c) a.

(** [a[:, s:e]]. *)
Definition col_slice a (s e : Z) : list (list A) := map (fun row => py_slice row s e) a.

(** [a[idx, :]]. *)
Definition take_rows a (idx : list Z) : PyResult (list (list A)) := py_take a idx.

(** [a[idx, s:e]]: numpy applies both indices at once. *)
Definition take_rows_slice a (idx : list Z) (s e : Z) : PyResult (list (list A)) :=
  py_map (fun rows => col_slice rows s e) (py_take a idx).

(** [a[i, s:e]] for a single integer [i]: a 1-D row. *)
Definition item_slice a (i : Z) (s e : Z) : PyResult (list A) :=
  py_map (fun row => py_slice row s e) (py_item a i).

(** [a.T] of an array with [c] columns. *)
Fixpoint transpose (c : nat) a : list (list A) :=
  match a with
  | [] => replicate c []
  | row :: a' => zip_with cons row (transpose c a')
  end.

(** [a.shape[1]] read off the rows ([0] for an array with no rows). *)
Definition ncols a : nat := match a with [] => 0%nat | row :: _ => length row end.

(** [a.tofile]: the elements in row-major (C) order. *)
Definition flatten a : list A := concat a.

(** [np.reshape(v, (r, c))] in C order; [r] rows of [c] elements. *)
Fixpoint reshape (r c : nat) (v : list A) : list (list A) :=
  match r with
  | O => []
  | S r' => take c v :: reshape r' c (drop c v)
  end.
End Arrays.

Section Map.
Context {A B : Type}.

(** Elementwise [f] (an [astype] or a multiplication by a scalar). *)
Definition mmap (f : A -> B) (a : list (list A)) : list (list B) := map (map f) a.
End Map.

Arguments is_matrix {A} r c a.

(** ** Shape lemmas *)

Section Shapes.
Context {A : Type}.
Implicit Types (a : list (list A)).

Lemma is_matrix_cons r c row a :
  is_matrix (S r) c (row :: a) <-> length row = c /\ is_matrix r c a.
Proof. unfold is_matrix. rewrite Forall_cons. simpl. naive_solver. Qed.

Lemma is_matrix_nil c : is_matrix 0 c (@nil (list A)).
Proof. split; [done|constructor]. Qed.

Lemma is_matrix_lookup r c a i row :
  is_matrix r c a -> a !! i = Some row -> length row = c.
Proof. intros [_ Hall] Hi. by eapply (Forall_lookup_1 _ _ _ _ Hall). Qed.

Lemma col_slice_shape r c a s e :
  is_matrix r c a -> 0 <= s <= e -> e <= Z.of_nat c ->
  is_matrix r (Z.to_nat (e - s)) (col_slice a s e).
Proof.
  intros [Hr Hall] ??. unfold col_slice. split; [by rewrite length_map|].
  apply Forall_map. eapply Forall_impl; [exact Hall|]. intros row <-.
  apply length_py_slice_in; lia.
Qed.

(** For any bounds, [a[:, s:e]] keeps the rows and has the length of
    Python's slice [s:e] of [c] columns. *)
Lemma col_slice_shape_any r c a s e :
  is_matrix r c a ->
  is_matrix r (Z.to_nat (slice_index (Z.of_nat c) e - slice_index (Z.of_nat c) s)) (col_slice a s e).
Proof.
  intros [Hr Hall]. unfold col_slice. split; [by rewrite length_map|].
  apply Forall_map. eapply Forall_impl; [exact Hall|]. intros row <-.
  apply length_py_slice.
Qed.

(** The whole frame range is the identity. *)
Lemma col_slice_full r c a : is_matrix r c a -> col_slice a 0 (Z.of_nat c) = a.
Proof.
  intros [_ Hall]. unfold col_slice. rewrite <- (map_id a) at 2. apply map_ext_Forall.
  eapply Forall_impl; [exact Hall|]. intros row <-. apply py_slice_full.
Qed.

Lemma col_slice_lookup a s e i :
  col_slice a s e !! i = (fun row => py_slice row s e) <$> a !! i.
Proof. unfold col_slice. apply list_lookup_fmap. Qed.

(** [a[:, s:e][idx, :] == a[idx, s:e]]: slicing the frames first or
    selecting the rows first gives the same array. *)
Lemma take_rows_col_slice a idx s e :
  take_rows (col_slice a s e) idx = take_rows_slice a idx s e.
Proof. unfold take_rows, take_rows_slice, col_slice. by rewrite py_take_map. Qed.

Lemma take_rows_range a : take_rows a (py_range (length a)) = Ok a.
Proof. apply py_take_range. Qed.

(** Rows selected with in-bounds indices keep the column count; their
    number is the number of indices. *)
Lemma take_rows_shape r c a idx rows :
  is_matrix r c a -> take_rows a idx = Ok rows -> is_matrix (length idx) c rows.
Proof.
  intros [_ Hall] H. split; [by eapply py_take_length|].
  unfold take_rows, py_take in H. apply py_mapM_ok_iff in H.
  apply Forall_lookup_2. intros k row Hrow.
  destruct (Forall2_lookup_r _ _ _ _ _ H Hrow) as (i & _ & Hi).
  destruct (py_item_ok_lookup _ _ _ Hi) as (j & Hj & _).
  by eapply (Forall_lookup_1 _ _ _ _ Hall).
Qed.

Lemma take_rows_slice_shape r c a idx s e rows :
  is_matrix r c a -> 0 <= s <= e -> e <= Z.of_nat c ->
  take_rows_slice a idx s e = Ok rows -> is_matrix (length idx) (Z.to_nat (e - s)) rows.
Proof.
  intros Hm ?? H. unfold take_rows_slice in H.
  destruct (py_take a idx) as [rows'|] eqn:Ht; simpl in H; [|done].
  injection H as <-. apply (col_slice_shape _ c); [|lia..].
  by eapply take_rows_shape.
Qed.

Lemma take_rows_slice_shape_any r c a idx s e rows :
  is_matrix r c a -> take_rows_slice a idx s e = Ok rows ->
  is_matrix (length idx) (Z.to_nat (slice_index (Z.of_nat c) e - slice_index (Z.of_nat c) s)) rows.
Proof.
  intros Hm H. unfold take_rows_slice in H.
  destruct (py_take a idx) as [rows'|] eqn:Ht; simpl in H; [|done].
  injection H as <-. apply col_slice_shape_any. by eapply take_rows_shape.
Qed.

(** ** Transposition *)

Lemma length_transpose c a : Forall (fun row => length row = c) a -> length (transpose c a) = c.
Proof.
  induction 1 as [|row a Hrow _ IH]; simpl; [apply length_replicate|].
  rewrite length_zip_with. lia.
Qed.

Lemma transpose_shape r c a : is_matrix r c a -> is_matrix c r (transpose c a).
Proof.
  revert r; induction a as [|row a IH]; intros r [Hr Hall]; simpl in *.
  - subst. split; [apply length_replicate|]. apply Forall_replicate. done.
  - inversion Hall as [|? ? Hrow Hrest]; subst.
    destruct (IH (length a) (conj eq_refl Hrest)) as [Hc Hcols].
    split; [rewrite length_zip_with; lia|].
    apply Forall_lookup_2. intros j col Hj.
    apply lookup_zip_with_Some in Hj as (x & col' & -> & Hx & Hcol').
    simpl. f_equal. by eapply (Forall_lookup_1 _ _ _ _ Hcols).
Qed.

Lemma lookup_transpose c a i j x :
  Forall (fun row => length row = c) a ->
  (transpose c a !! j ≫= (.!! i)) = Some x <-> (a !! i ≫= (.!! j)) = Some x.
Proof.
  intros Hall. revert i; induction Hall as [|row a Hrow Hall IH]; intros i; simpl.
  - split; [|done]. intros Hs.
    destruct (replicate c [] !! j) as [col|] eqn:E; simpl in Hs; [|done].
    apply lookup_replicate in E as [-> _]. by destruct i.
  - rewrite lookup_zip_with. destruct (row !! j) as [y|] eqn:Hy; simpl.
    + destruct (transpose c a !! j) as [col|] eqn:Hcol; simpl.
      * destruct i as [|i]; simpl; [by rewrite Hy|].
        exact (IH i).
      * pose proof (lookup_lt_Some _ _ _ Hy).
        rewrite lookup_ge_None in Hcol. rewrite length_transpose in Hcol by done. lia.
    + destruct i as [|i]; simpl; [by rewrite Hy|].
      rewrite lookup_ge_None in Hy.
      split; [done|]. intros Hs. destruct (a !! i) as [r'|] eqn:Hr; [|done].
      simpl in Hs. apply lookup_lt_Some in Hs.
      rewrite (Forall_lookup_1 _ _ _ _ Hall Hr) in Hs. lia.
Qed.
End Shapes.

(** Two arrays of the same shape with the same elements are equal. *)
Lemma matrix_eq {A} r c (a b : list (list A)) :
  is_matrix r c a -> is_matrix r c b ->
  (forall i j, (a !! i ≫= (.!! j)) = (b !! i ≫= (.!! j))) -> a = b.
Proof.
  intros [Ha Hall] [Hb Hbll] H. apply list_eq. intros i.
  destruct (a !! i) as [ra|] eqn:Hra, (b !! i) as [rb|] eqn:Hrb.
  - f_equal. apply list_eq. intros j. specialize (H i j). rewrite Hra, Hrb in H. done.
  - apply lookup_lt_Some in Hra. apply lookup_ge_None in Hrb. lia.
  - apply lookup_lt_Some in Hrb. apply lookup_ge_None in Hra. lia.
  - done.
Qed.

Lemma transpose_involutive {A} r c (a : list (list A)) :
  is_matrix r c a -> transpose r (transpose c a) = a.
Proof.
  intros Hm. pose proof (transpose_shape _ _ _ Hm) as Ht.
  pose proof (transpose_shape _ _ _ Ht) as Htt.
  apply (matrix_eq r c); [done..|]. intros i j.
  pose proof (fun i j x => lookup_transpose r (transpose c a) j i x (proj2 Ht)) as H1.
  pose proof (fun i j x => lookup_transpose c a i j x (proj2 Hm)) as H2.
  destruct (transpose r (transpose c a) !! i ≫= (.!! j)) as [x|] eqn:Hx.
  - symmetry. by apply H2, H1.
  - destruct (a !! i ≫= (.!! j)) as [y|] eqn:Hy; [|done].
    rewrite <- Hx, (proj2 (H1 i j y)); [done|]. by apply H2.
Qed.

Lemma ncols_matrix {A} r c (a : list (list A)) : is_matrix r c a -> r <> 0%nat -> ncols a = c.
Proof. intros [Hr Hall] Hr0. destruct a as [|row a]; [simpl in *; lia|]. by inversion Hall. Qed.

(** ** Flattening and reshaping *)

Section Layout.
Context {A : Type}.

Lemma length_flatten r c (a : list (list A)) : is_matrix r c a -> length (flatten a) = (r * c)%nat.
Proof.
  revert r; induction a as [|row a IH]; intros r [Hr Hall]; simpl in *; [lia|].
  inversion Hall; subst. rewrite length_app, (IH (length a)); [lia|done].
Qed.

Lemma reshape_shape r c (v : list A) : length v = (r * c)%nat -> is_matrix r c (reshape r c v).
Proof.
  revert v; induction r as [|r IH]; intros v Hv; simpl; [apply is_matrix_nil|].
  apply is_matrix_cons. split; [rewrite length_take; lia|].
  apply IH. rewrite length_drop. lia.
Qed.

(** [reshape] inverts [flatten]: reading back what [tofile] wrote. *)
Lemma reshape_flatten r c (a : list (list A)) : is_matrix r c a -> reshape r c (flatten a) = a.
Proof.
  revert r; induction a as [|row a IH]; intros r Hm.
  - by destruct Hm as [<- _].
  - destruct r as [|r]; [by destruct Hm|]. apply is_matrix_cons in Hm as [Hrow Hm].
    simpl. rewrite take_app_length' by done. rewrite drop_app_length' by done.
    f_equal. by apply IH.
Qed.

Lemma flatten_reshape r c (v : list A) : length v = (r * c)%nat -> flatten (reshape r c v) = v.
Proof.
  revert v; induction r as [|r IH]; intros v Hv; simpl.
  - destruct v; [done|simpl in Hv; lia].
  - rewrite IH by (rewrite length_drop; lia). apply take_drop.
Qed.

Lemma lookup_reshape r c (v : list A) i j :
  (i < r)%nat -> (j < c)%nat ->
  (reshape r c v !! i ≫= (.!! j)) = v !! (i * c + j)%nat.
Proof.
  revert v i; induction r as [|r IH]; intros v i Hi Hj; [lia|].
  destruct i as [|i]; simpl.
  - rewrite lookup_take_lt by lia. done.
  - rewrite IH by lia. rewrite lookup_drop. f_equal. lia.
Qed.
End Layout.

Section MapLemmas.
Context {A B : Type}.

Lemma mmap_shape (f : A -> B) r c a : is_matrix r c a -> is_matrix r c (mmap f a).
Proof.
  intros [Hr Hall]. unfold mmap. split; [by rewrite length_map|].
  apply Forall_map. eapply Forall_impl; [exact Hall|]. intros row <-. apply length_map.
Qed.

Lemma mmap_col_slice (f : A -> B) a s e : mmap f (col_slice a s e) = col_slice (mmap f a) s e.
Proof.
  unfold mmap, col_slice. rewrite !map_map. apply map_ext. intros row.
  by rewrite py_slice_map.
Qed.

Lemma mmap_take_rows (f : A -> B) a idx :
  take_rows (mmap f a) idx = py_map (mmap f) (take_rows a idx).
Proof. apply py_take_map. Qed.

Lemma flatten_mmap (f : A -> B) a : flatten (mmap f a) = map f (flatten a).
Proof. unfold flatten, mmap. by rewrite concat_map. Qed.

Lemma mmap_compose {C} (f : A -> B) (g : B -> C) a : mmap g (mmap f a) = mmap (g ∘ f) a.
Proof. unfold mmap. rewrite map_map. apply map_ext. intros row. by rewrite map_map. Qed.
End MapLemmas.

#[export] Hint Resolve col_slice_shape take_rows_shape transpose_shape mmap_shape
  reshape_shape : pyres.

Lemma mmap_ext {A B} (f g : A -> B) (a : list (list A)) :
  (forall x, f x = g x) -> mmap f a = mmap g a.
Proof. intros Hfg. unfold mmap. apply map_ext. intros row. by apply map_ext. Qed.

Lemma zip_with_cons_map {A B} (f : A -> B) (row : list A) (t : list (list A)) :
  zip_with cons (map f row) (map (map f) t) = map (map f) (zip_with cons row t).
Proof. revert t; induction row as [|x row IH]; intros [|r t]; simpl; f_equal; auto. Qed.

Lemma transpose_mmap {A B} (f : A -> B) c (a : list (list A)) :
  transpose c (mmap f a) = mmap f (transpose c a).
Proof.
  unfold mmap. induction a as [|row a IH]; simpl.
  - induction c as [|c IHc]; simpl; [done|by f_equal].
  - rewrite IH. apply zip_with_cons_map.
Qed.

Lemma flatten_app {A} (a b : list (list A)) : flatten (a ++ b) = flatten a ++ flatten b.
Proof. apply concat_app. Qed.

Lemma flatten_replicate_nil {A} n : flatten (replicate n (@nil A)) = [].
Proof. induction n; simpl; auto. Qed.

(** Slicing frames of an array and transposing gives the rows [a:b] of
    the transposed array. *)
Lemma transpose_col_slice {A} r c (m : list (list A)) a b :
  is_matrix r c m -> r <> 0%nat -> 0 <= a <= b -> b <= Z.of_nat c ->
  transpose (ncols (col_slice m a b)) (col_slice m a b) = py_slice (transpose c m) a b.
Proof.
  intros Hm Hr ??.
  assert (is_matrix r (Z.to_nat (b - a)) (col_slice m a b)) as Hs
    by (apply (col_slice_shape r c); [done|lia|lia]).
  rewrite (ncols_matrix _ _ _ Hs Hr).
  pose proof (transpose_shape _ _ _ Hm) as Ht.
  apply (matrix_eq (Z.to_nat (b - a)) r).
  - by apply transpose_shape.
  - split; [rewrite length_py_slice_in; destruct Ht; lia|].
    apply Forall_lookup_2. intros k row Hk.
    rewrite py_slice_in in Hk by (destruct Ht; lia). apply lookup_take_Some in Hk as [Hk _].
    rewrite lookup_drop in Hk. by eapply is_matrix_lookup.
  - intros i j.
    assert (forall x, (transpose (Z.to_nat (b - a)) (col_slice m a b) !! i ≫= (.!! j)) = Some x <->
                      (py_slice (transpose c m) a b !! i ≫= (.!! j)) = Some x) as Hiff.
    { intros x. rewrite lookup_transpose by apply Hs.
      rewrite col_slice_lookup.
      destruct (decide (Z.of_nat i < b - a)) as [Hi|Hi].
      - rewrite lookup_py_slice by (destruct Ht; lia).
        rewrite (lookup_transpose c m j (Z.to_nat a + i)) by apply Hm.
        destruct (m !! j) as [row|] eqn:Hrow; simpl; [|done].
        pose proof (is_matrix_lookup _ _ _ _ _ Hm Hrow) as Hlr.
        rewrite lookup_py_slice by lia. done.
      - rewrite (lookup_ge_None_2 (py_slice _ a b)) by (rewrite length_py_slice_in; destruct Ht; lia).
        destruct (m !! j) as [row|] eqn:Hrow; simpl; [|done].
        pose proof (is_matrix_lookup _ _ _ _ _ Hm Hrow) as Hlr.
        rewrite lookup_ge_None_2 by (rewrite length_py_slice_in; lia). done. }
    by apply option_eq.
Qed.

(** Rows picked from an array, then mapped, are the rows of the mapped array. *)
Lemma Forall2_lookup_mmap {A B} (f : A -> B) (m R : list (list A)) (idxs : list nat) :
  Forall2 (fun i r => m !! i = Some r) idxs R ->
  Forall2 (fun i r => mmap f m !! i = Some r) idxs (mmap f R).
Proof.
  induction 1 as [|i r idxs R Hi _ IH]; constructor; [|done].
  unfold mmap. by rewrite list_lookup_fmap, Hi.
Qed.

(** ** Elementwise properties

    [Forall (Forall P) a]: every element of [a] satisfies [P]; the
    layout operations only move elements, so they keep it. *)

Section Elementwise.
Context {A : Type} (P : A -> Prop).

Lemma reshape_Forall r c (v : list A) : Forall P v -> Forall (Forall P) (reshape r c v).
Proof.
  revert v; induction r as [|r IH]; intros v Hv; simpl; constructor.
  - by apply Forall_take.
  - apply IH. by apply Forall_drop.
Qed.

Lemma zip_with_cons_Forall (row : list A) (t : list (list A)) :
  Forall P row -> Forall (Forall P) t -> Forall (Forall P) (zip_with cons row t).
Proof.
  intros Hr. revert t; induction Hr as [|x row Hx _ IH]; intros [|l t] Ht; simpl; try constructor.
  - inversion Ht; subst. by constructor.
  - apply IH. by inversion Ht.
Qed.

Lemma transpose_Forall c (a : list (list A)) :
  Forall (Forall P) a -> Forall (Forall P) (transpose c a).
Proof.
  induction 1 as [|row a Hr _ IH]; simpl.
  - apply Forall_replicate. constructor.
  - by apply zip_with_cons_Forall.
Qed.

Lemma col_slice_Forall (a : list (list A)) s e :
  Forall (Forall P) a -> Forall (Forall P) (col_slice a s e).
Proof.
  intros Ha. unfold col_slice. apply Forall_map. eapply Forall_impl; [exact Ha|].
  intros row Hrow. unfold py_slice. by apply Forall_take, Forall_drop.
Qed.

Lemma take_rows_Forall (a : list (list A)) idx rows :
  Forall (Forall P) a -> take_rows a idx = Ok rows -> Forall (Forall P) rows.
Proof.
  intros Ha H. unfold take_rows, py_take in H. apply py_mapM_ok_iff in H.
  apply Forall_lookup_2. intros k row Hrow.
  destruct (Forall2_lookup_r _ _ _ _ _ H Hrow) as (i & _ & Hi).
  destruct (py_item_ok_lookup _ _ _ Hi) as (j & Hj & _).
  by eapply (Forall_lookup_1 _ _ _ _ Ha).
Qed.
End Elementwise.

Lemma mmap_Forall {A B} (P : A -> Prop) (Q : B -> Prop) (f : A -> B) (a : list (list A)) :
  (forall x, P x -> Q (f x)) -> Forall (Forall P) a -> Forall (Forall Q) (mmap f a).
Proof.
  intros Hf Ha. unfold mmap. apply Forall_map. eapply Forall_impl; [exact Ha|].
  intros row Hrow. apply Forall_map. by eapply Forall_impl.
Qed.
