(* ===== verification/Dtype.v ===== *)
(** * numpy integer dtypes and their byte codec

    BinDatRecordingExtractor keeps [str(dtype)] of the dtype argument and
    tests it with [startswith('uint')]; [read_binary] maps the file with
    [np.dtype(dtype)].  This file models integer dtypes ([dtype]: signed
    or not, a width in bytes, a byte order), their [str()] ([dtype_str]:
    'int16', 'uint8', or '>u2' for a non-native byte order), the names
    [np.dtype] accepts for them ([dtype_of_name]), the dtype argument of
    the constructor ([DtName] for a string, [DtObj] for a dtype object)
    and the codec of one element: [decode_item] reads [itemsize] bytes
    (bytes are [Z] in [0, 256)) in the dtype's byte order as two's
    complement or unsigned, [encode_item] writes an int wrapped to the
    dtype's width as [astype] does.  The round trip [decode_item dt
    (encode_item dt z) = z] holds for every [z] in the dtype's range.
    Every item decoded from bytes lies in the dtype's range
    ([decode_items_range]).  The host is little-endian.
    Floating-point dtypes are not modelled. *)

From S2P Require Import Prelude PyString.
From Stdlib Require Import Ascii.

Record dtype := mk_dtype {
  dt_signed : bool;
  dt_bytes : nat;          (** itemsize: 1, 2, 4 or 8 *)
  dt_big : bool            (** byte order: true for '>' *)
}.

#[export] Instance dtype_eq_dec : EqDecision dtype.
Proof. solve_decision. Defined.

Definition itemsize (dt : dtype) : nat := dt_bytes dt.
Definition bits (dt : dtype) : Z := 8 * Z.of_nat (dt_bytes dt).

(** The dtype argument as the caller passes it. *)
Inductive dtype_arg :=
| DtName (s : string)
| DtObj (dt : dtype).

(** [str(np.dtype(...))]. *)
Definition dtype_str (dt : dtype) : string :=
  if dt_big dt then
    (if dt_signed dt then ">i" else ">u") +:+ str_of_Z (Z.of_nat (dt_bytes dt))
  else (if dt_signed dt then "int" else "uint") +:+ str_of_Z (bits dt).

(** [str(dtype)] of the constructor's argument. *)
Definition dtype_arg_str (a : dtype_arg) : string :=
  match a with DtName s => s | DtObj dt => dtype_str dt end.

(** The integer names [np.dtype] accepts: 'intN'/'uintN' for N in
    8,16,32,64, and the type codes 'iK'/'uK' for K in 1,2,4,8 with an
    optional byte-order prefix '<', '>', '=' or '|'. *)
Definition dtype_of_name (s : string) : option dtype :=
  let word (signed : bool) (rest : string) :=
    if decide (rest = "8") then Some (mk_dtype signed 1 false)
    else if decide (rest = "16") then Some (mk_dtype signed 2 false)
    else if decide (rest = "32") then Some (mk_dtype signed 4 false)
    else if decide (rest = "64") then Some (mk_dtype signed 8 false)
    else None in
  let code (big : bool) (c : ascii) (rest : string) :=
    let width :=
      if decide (rest = "1") then Some 1%nat
      else if decide (rest = "2") then Some 2%nat
      else if decide (rest = "4") then Some 4%nat
      else if decide (rest = "8") then Some 8%nat
      else None in
    match width with
    | Some w =>
        if decide (c = "i"%char) then Some (mk_dtype true w (big && bool_decide (w <> 1%nat)))
        else if decide (c = "u"%char) then Some (mk_dtype false w (big && bool_decide (w <> 1%nat)))
        else None
    | None => None
    end in
  match s with
  | String.String "u" (String.String "i" (String.String "n" (String.String "t" rest))) => word false rest
  | String.String "i" (String.String "n" (String.String "t" rest)) => word true rest
  | String.String "<" (String.String c rest) => code false c rest
  | String.String "=" (String.String c rest) => code false c rest
  | String.String "|" (String.String c rest) => code false c rest
  | String.String ">" (String.String c rest) => code true c rest
  | String.String c rest => code false c rest
  | String.EmptyString => None
  end.

(** [np.dtype(arg)]. *)
Definition np_dtype (a : dtype_arg) : PyResult dtype :=
  match a with
  | DtObj dt => Ok dt
  | DtName s => py_some (dtype_of_name s) (TypeError ("data type '" +:+ s +:+ "' not understood"))
  end.

Definition wf_dtype (dt : dtype) : Prop := dt_bytes dt ∈ [1; 2; 4; 8]%nat.

(** ** Element codec *)

(** Little-endian value of a byte list. *)
Fixpoint le_value (bs : list Z) : Z :=
  match bs with
  | [] => 0
  | b :: bs' => b + 256 * le_value bs'
  end.

(** The [n] low bytes of [z], least significant first. *)
Fixpoint le_bytes (n : nat) (z : Z) : list Z :=
  match n with
  | O => []
  | S n' => z mod 256 :: le_bytes n' (z / 256)
  end.

Definition is_byte (b : Z) : Prop := 0 <= b < 256.

(** The range of a dtype. *)
Definition dt_min (dt : dtype) : Z := if dt_signed dt then - 2 ^ (bits dt - 1) else 0.
Definition dt_max (dt : dtype) : Z :=
  if dt_signed dt then 2 ^ (bits dt - 1) - 1 else 2 ^ bits dt - 1.

(** [z] is representable in [dt]. *)
Definition in_dtype (dt : dtype) (z : Z) : Prop := dt_min dt <= z <= dt_max dt.

(** Reinterpret an unsigned [bits dt]-bit pattern as the dtype's value. *)
Definition of_unsigned (dt : dtype) (u : Z) : Z :=
  if dt_signed dt && bool_decide (2 ^ (bits dt - 1) <= u) then u - 2 ^ bits dt else u.

(** Wrap an int to the dtype, as an integer [astype] does. *)
Definition wrap (dt : dtype) (z : Z) : Z := of_unsigned dt (z mod 2 ^ bits dt).

Definition decode_item (dt : dtype) (bs : list Z) : Z :=
  of_unsigned dt (le_value (if dt_big dt then rev bs else bs)).

Definition encode_item (dt : dtype) (z : Z) : list Z :=
  let bs := le_bytes (dt_bytes dt) z in
  if dt_big dt then rev bs else bs.

(** Split a byte string into items of [n] bytes (the last incomplete
    item is dropped by the caller, who only asks for whole items). *)
Fixpoint chunk (k n : nat) (bs : list Z) : list (list Z) :=
  match k with
  | O => []
  | S k' => take n bs :: chunk k' n (drop n bs)
  end.

Definition decode_items (dt : dtype) (k : nat) (bs : list Z) : list Z :=
  map (decode_item dt) (chunk k (itemsize dt) bs).

Definition encode_items (dt : dtype) (zs : list Z) : list Z :=
  concat (map (encode_item dt) zs).

(** ** Codec lemmas *)

Lemma length_le_bytes n z : length (le_bytes n z) = n.
Proof. revert z; induction n; intros z; simpl; [done|by rewrite IHn]. Qed.

Lemma le_bytes_are_bytes n z : Forall is_byte (le_bytes n z).
Proof.
  revert z; induction n as [|n IH]; intros z; simpl; constructor; [|apply IH].
  unfold is_byte. pose proof (Z.mod_pos_bound z 256). lia.
Qed.

Lemma le_value_le_bytes n z : le_value (le_bytes n z) = z mod 256 ^ Z.of_nat n.
Proof.
  revert z; induction n as [|n IH]; intros z; simpl.
  - by rewrite Z.mod_1_r.
  - rewrite IH, Nat2Z.inj_succ, Z.pow_succ_r by lia.
    rewrite Z.rem_mul_r by (try apply Z.pow_pos_nonneg; lia). done.
Qed.

Lemma le_value_nonneg bs : Forall is_byte bs -> 0 <= le_value bs.
Proof. induction 1 as [|b bs Hb _ IH]; simpl; [lia|]. unfold is_byte in Hb. lia. Qed.

(** [le_bytes] inverts [le_value] on byte strings. *)
Lemma le_bytes_le_value bs :
  Forall is_byte bs -> le_bytes (length bs) (le_value bs) = bs.
Proof.
  induction 1 as [|b bs Hb Hbs IH]; simpl; [done|]. unfold is_byte in Hb.
  pose proof (le_value_nonneg bs Hbs) as Hpos.
  f_equal.
  - replace (b + 256 * le_value bs) with (b + le_value bs * 256) by lia.
    rewrite Z.mod_add by lia. by apply Z.mod_small.
  - replace (b + 256 * le_value bs) with (b + le_value bs * 256) by lia.
    rewrite Z.div_add, Z.div_small by lia. by rewrite Z.add_0_l.
Qed.

Lemma pow_bits dt : 2 ^ bits dt = 256 ^ Z.of_nat (dt_bytes dt).
Proof. unfold bits. rewrite Z.pow_mul_r by lia. done. Qed.

Lemma length_encode_item dt z : length (encode_item dt z) = itemsize dt.
Proof. unfold encode_item. destruct (dt_big dt); rewrite ?length_rev; apply length_le_bytes. Qed.

(** Decoding what was encoded gives the value wrapped to the dtype. *)
Lemma decode_encode_item dt z : decode_item dt (encode_item dt z) = wrap dt z.
Proof.
  unfold decode_item, encode_item, wrap.
  destruct (dt_big dt); rewrite ?rev_involutive, le_value_le_bytes, pow_bits; done.
Qed.

Lemma wrap_in_range dt z :
  (1 <= dt_bytes dt)%nat -> dt_min dt <= z <= dt_max dt -> wrap dt z = z.
Proof.
  intros Hw. unfold wrap, of_unsigned, dt_min, dt_max.
  assert (2 ^ bits dt = 2 * 2 ^ (bits dt - 1)) as Hp.
  { rewrite <- Z.pow_succ_r by (unfold bits; lia). f_equal. lia. }
  assert (0 < 2 ^ (bits dt - 1)) by (apply Z.pow_pos_nonneg; unfold bits; lia).
  destruct (dt_signed dt); simpl; intros Hz.
  - destruct (decide (0 <= z)).
    + rewrite Z.mod_small by lia. rewrite bool_decide_false by lia. done.
    + rewrite <- (Z.mod_add z 1) by lia. rewrite Z.mod_small by lia.
      rewrite bool_decide_true by lia. lia.
  - apply Z.mod_small. lia.
Qed.

Lemma wrap_range dt z : (1 <= dt_bytes dt)%nat -> dt_min dt <= wrap dt z <= dt_max dt.
Proof.
  intros Hw. unfold wrap, of_unsigned, dt_min, dt_max.
  assert (2 ^ bits dt = 2 * 2 ^ (bits dt - 1)) as Hp.
  { rewrite <- Z.pow_succ_r by (unfold bits; lia). f_equal. lia. }
  assert (0 < 2 ^ (bits dt - 1)) by (apply Z.pow_pos_nonneg; unfold bits; lia).
  pose proof (Z.mod_pos_bound z (2 ^ bits dt)).
  destruct (dt_signed dt); simpl; [case_bool_decide|]; lia.
Qed.

(** The element round trip: a value in the dtype's range is read back. *)
Lemma decode_encode_in_range dt z :
  (1 <= dt_bytes dt)%nat -> dt_min dt <= z <= dt_max dt ->
  decode_item dt (encode_item dt z) = z.
Proof. intros. rewrite decode_encode_item. by apply wrap_in_range. Qed.

Lemma chunk_concat n (ls : list (list Z)) :
  Forall (fun l => length l = n) ls -> chunk (length ls) n (concat ls) = ls.
Proof.
  induction 1 as [|l ls Hl _ IH]; simpl; [done|].
  rewrite take_app_length' by done. rewrite drop_app_length' by done. by f_equal.
Qed.

Lemma length_encode_items dt zs : length (encode_items dt zs) = (length zs * itemsize dt)%nat.
Proof.
  unfold encode_items. induction zs as [|z zs IH]; simpl; [done|].
  rewrite length_app, IH, length_encode_item. lia.
Qed.

Lemma decode_encode_items dt zs :
  decode_items dt (length zs) (encode_items dt zs) = map (wrap dt) zs.
Proof.
  unfold decode_items, encode_items.
  rewrite <- (length_map (encode_item dt) zs), chunk_concat.
  - rewrite map_map. apply map_ext. apply decode_encode_item.
  - apply Forall_map, Forall_forall. intros. apply length_encode_item.
Qed.

Lemma length_decode_items dt k bs : length (decode_items dt k bs) = k.
Proof.
  unfold decode_items. rewrite length_map. revert bs; induction k; intros; simpl; auto.
Qed.

Lemma wf_dtype_pos dt : wf_dtype dt -> (1 <= dt_bytes dt)%nat.
Proof. unfold wf_dtype. intros H. repeat (apply elem_of_cons in H as [H|H]; [lia|]). set_solver. Qed.

#[export] Hint Rewrite length_le_bytes length_encode_item length_encode_items
  length_decode_items : pylen.
#[export] Hint Resolve wf_dtype_pos : pyres.

Lemma encode_items_app dt l1 l2 : encode_items dt (l1 ++ l2) = encode_items dt l1 ++ encode_items dt l2.
Proof. unfold encode_items. by rewrite map_app, concat_app. Qed.

Lemma wrap_idem dt z : (1 <= dt_bytes dt)%nat -> wrap dt (wrap dt z) = wrap dt z.
Proof. intros Hw. apply wrap_in_range; [done|]. by apply wrap_range. Qed.

(** ** Range of decoded values *)

Lemma le_value_bound bs :
  Forall is_byte bs -> 0 <= le_value bs < 256 ^ Z.of_nat (length bs).
Proof.
  induction 1 as [|b bs Hb _ IH]; simpl; [lia|]. unfold is_byte in Hb.
  rewrite Nat2Z.inj_succ, Z.pow_succ_r by lia. lia.
Qed.

(** An item read from at most [itemsize dt] bytes is a value of the dtype:
    the little-endian value is a [bits dt]-bit pattern, so decoding is
    [wrap]. *)
Lemma decode_item_range dt bs :
  (1 <= dt_bytes dt)%nat -> Forall is_byte bs -> (length bs <= itemsize dt)%nat ->
  in_dtype dt (decode_item dt bs).
Proof.
  intros Hw Hb Hl. set (u := le_value (if dt_big dt then rev bs else bs)).
  assert (0 <= u < 2 ^ bits dt) as Hu.
  { rewrite pow_bits. unfold u.
    assert (Forall is_byte (if dt_big dt then rev bs else bs)) as Hb'
      by (destruct (dt_big dt); [by apply Forall_rev|done]).
    pose proof (le_value_bound _ Hb') as [H0 H1]. split; [done|].
    eapply Z.lt_le_trans; [exact H1|]. apply Z.pow_le_mono_r; [lia|].
    destruct (dt_big dt); rewrite ?length_rev; unfold itemsize in Hl; lia. }
  unfold decode_item. fold u. rewrite <- (Z.mod_small u (2 ^ bits dt)) by done.
  by apply wrap_range.
Qed.

Lemma chunk_Forall (P : Z -> Prop) k n bs :
  Forall P bs -> Forall (fun c => Forall P c /\ (length c <= n)%nat) (chunk k n bs).
Proof.
  revert bs; induction k as [|k IH]; intros bs Hbs; simpl; constructor.
  - split; [by apply Forall_take|]. rewrite length_take. lia.
  - apply IH. by apply Forall_drop.
Qed.

(** Every item [np.fromfile] decodes from a byte file is a value of the dtype. *)
Lemma decode_items_range dt k bs :
  (1 <= dt_bytes dt)%nat -> Forall is_byte bs -> Forall (in_dtype dt) (decode_items dt k bs).
Proof.
  intros Hw Hb. unfold decode_items. apply Forall_map.
  eapply Forall_impl; [by apply chunk_Forall|]. intros c [Hc Hl].
  by apply decode_item_range.
Qed.
