(* ===== verification/Contract.v ===== *)
(** * The read contract shared by the adapters

    Every adapter subclasses spikeextractors' [RecordingExtractor] and
    implements [get_channel_ids], [get_num_frames],
    [get_sampling_frequency] and [get_traces(channel_ids, start_frame,
    end_frame)] (spec, section 4.1).  [Recording] is that interface as a
    type class; [ChannelSel] is the [channel_ids] argument (omitted, one
    int, or a list).  [ReadContract] states, as laws over the states
    satisfying an invariant, what the spec promises of [get_traces]:
    the full read has shape (channels, frames), a frame range reads the
    corresponding columns of the full read, a channel list reads the
    corresponding rows in the requested order, and an unknown channel
    raises.  [traces_type_law] states the type of every successful read:
    a 1-D array for an int id, a 2-D one with a row per requested
    channel otherwise, with the frame count of the Python slice.
    Clients (the binary writer in [BinaryIO]) are proved
    against these laws; each adapter file proves or refutes them for its
    implementation. *)

From S2P Require Import Prelude PyString PyList NdArray.

(** The [channel_ids] argument of [get_traces]. *)
Inductive ChannelSel :=
| AllChannels
| OneChannel (ch : Z)
| SomeChannels (chs : list Z).

Class Recording (R : Type) := {
  get_channel_ids : R -> list Z;
  get_num_frames : R -> Z;
  get_sampling_frequency : R -> Q;
  get_traces : R -> ChannelSel -> option Z -> option Z -> PyResult (ndarray Q)
}.

(** ** Class-level attributes

    Every adapter class declares [extractor_name], [has_default_locations],
    [installed], [is_writable], [mode], the GUI's parameter list
    [_gui_params] (one dict per constructor argument) and
    [installation_mesg].  A GUI dict maps 'name', 'type', 'title' to
    strings and, when present, 'value' and 'default' to a Python value. *)
Inductive GuiValue :=
| GNone
| GBool (b : bool)
| GInt (z : Z)
| GFloat (q : Q).

Record GuiParam := mk_gui {
  gp_name : string;
  gp_type : string;
  gp_value : option GuiValue;      (** [None]: no 'value' key *)
  gp_default : option GuiValue;    (** [None]: no 'default' key *)
  gp_title : string
}.

Record ExtractorInfo := mk_class_info {
  ci_extractor_name : string;
  ci_has_default_locations : bool;
  ci_installed : bool;
  ci_is_writable : bool;
  ci_mode : string;
  ci_gui_params : list GuiParam;
  ci_installation_mesg : string
}.

(** The float default the GUI offers for the argument [name], if any. *)
Definition gui_default (ci : ExtractorInfo) (name : string) : option Q :=
  match list_find (fun gp => gp_name gp = name) (ci_gui_params ci) with
  | Some (_, gp) => match gp_default gp with Some (GFloat q) => Some q | _ => None end
  | None => None
  end.

Section Laws.
Context {R : Type} `{Recording R}.

(** The row of the full read that a channel id names. *)
Definition channel_row (r : R) (full : list (list Q)) (ch : Z) : option (list Q) :=
  index_of (get_channel_ids r) ch ≫= fun i => full !! i.

(** [get_traces()] succeeds with shape (len(channel_ids), num_frames). *)
Definition full_read_law (r : R) (full : list (list Q)) : Prop :=
  get_traces r AllChannels None None = Ok (Arr2 full) /\
  is_matrix (length (get_channel_ids r)) (Z.to_nat (get_num_frames r)) full.

(** [get_traces(start_frame=a, end_frame=b)] reads columns [a:b]. *)
Definition frame_range_law (r : R) (full : list (list Q)) : Prop :=
  forall a b, 0 <= a <= b -> b <= get_num_frames r ->
    get_traces r AllChannels (Some a) (Some b) = Ok (Arr2 (col_slice full a b)).

(** [get_traces(channel_ids=chs, ...)] reads the rows of [chs] in the
    requested order when every id is known. *)
Definition channel_list_law (r : R) (full : list (list Q)) : Prop :=
  forall chs a b, Forall (fun ch => ch ∈ get_channel_ids r) chs ->
    0 <= a <= b -> b <= get_num_frames r ->
    exists rows, get_traces r (SomeChannels chs) (Some a) (Some b) = Ok (Arr2 (col_slice rows a b)) /\
      Forall2 (fun ch row => channel_row r full ch = Some row) chs rows.

(** An unknown id in the list makes the read raise. *)
Definition unknown_channel_law (r : R) : Prop :=
  forall chs ch s e, ch ∈ chs -> ch ∉ get_channel_ids r ->
    exists err, get_traces r (SomeChannels chs) s e = Err err.
(** The number of frames of [get_traces(start_frame=s, end_frame=e)]:
    the length of Python's slice [s:e] of [n] frames, the bounds
    defaulting to [0] and [n]. *)
Definition slice_len (n : Z) (s e : option Z) : nat :=
  Z.to_nat (slice_index n (default n e) - slice_index n (default 0 s)).

(** The type of a successful read (spec, section 4.1): one int id gives
    a 1-D array of the frames; no ids or a list of ids a 2-D array with
    one row per requested channel.  Any other result is ill-typed. *)
Definition traces_type_law (r : R) : Prop :=
  forall sel s e t, get_traces r sel s e = Ok t ->
    match sel, t with
    | OneChannel _, Arr1 v => length v = slice_len (get_num_frames r) s e
    | AllChannels, Arr2 m =>
        is_matrix (length (get_channel_ids r)) (slice_len (get_num_frames r) s e) m
    | SomeChannels chs, Arr2 m => is_matrix (length chs) (slice_len (get_num_frames r) s e) m
    | _, _ => False
    end.
End Laws.

(** The read contract of an adapter over the states satisfying [wf]. *)
Class ReadContract (R : Type) `{Recording R} (wf : R -> Prop) := {
  contract_full : forall r, wf r -> exists full, full_read_law r full;
  contract_frames : forall r full, wf r -> full_read_law r full -> frame_range_law r full;
  contract_channels : forall r full, wf r -> full_read_law r full -> channel_list_law r full;
  contract_unknown : forall r, wf r -> unknown_channel_law r
}.

(** ** Consequences of the laws, for any adapter *)

Section Consequences.
Context {R : Type} `{Recording R} {wf : R -> Prop} `{!ReadContract R wf}.

(** A frame range [a:b] reads an array of shape (channels, b - a). *)
Lemma contract_frame_range_shape r full a b :
  wf r -> full_read_law r full -> 0 <= a <= b -> b <= get_num_frames r ->
  exists m, get_traces r AllChannels (Some a) (Some b) = Ok (Arr2 m) /\
    is_matrix (length (get_channel_ids r)) (Z.to_nat (b - a)) m.
Proof.
  intros Hwf Hfull ??. exists (col_slice full a b). split.
  - by apply contract_frames.
  - destruct Hfull as [_ Hm]. apply (col_slice_shape _ _ _ _ _ Hm); lia.
Qed.
End Consequences.
