(* ===== verification/BinaryIO.v ===== *)
(** * extraction_tools: [read_binary] and [write_to_binary_dat_format]

    These helpers are not under src/; BinDatRecordingExtractor delegates
    to them (bindatrecordingextractor.py lines 33 and 95) and the spec
    (sections 4.2 and 6) fixes their contract, from which they are
    modelled here.  A file is a list of bytes ([Z] in [0, 256)).

    [read_binary file numchan dt frames_first offset] maps the bytes
    after [offset] as [nsamples = (size - offset) // (numchan *
    itemsize)] whole frames of [numchan] elements, frame-major (then
    transposed to channels x frames) or channel-major; the result is a
    [memmap] with its shape.  [write_to_binary_dat_format] converts the
    full read of any [Recording] to the dtype ([astype]: truncation
    toward zero, then wrap-around to the width), transposes it for
    [time_axis = 0] and writes it row-major; with a chunk size it reads
    and writes consecutive frame ranges of that size instead.

    The theorems: the written file has [channels * frames * itemsize]
    bytes; the chunked writer writes exactly the bytes of the one-shot
    writer for any recording that meets the read contract; and reading
    the written file back gives the recording's traces converted to the
    dtype (the write/read round trip). *)

From S2P Require Import Prelude PyString PyList NdArray Dtype Contract.

(** A memory-mapped 2-D array with its shape. *)
Record memmap := mk_memmap {
  mm_rows : nat;
  mm_cols : nat;
  mm_data : list (list Z)
}.

Definition wf_memmap (m : memmap) : Prop := is_matrix (mm_rows m) (mm_cols m) (mm_data m).

Definition read_binary (file : list Z) (numchan : Z) (dt : dtype) (frames_first : bool)
    (offset : Z) : PyResult memmap :=
  if decide (numchan = 0) then Err ZeroDivisionError
  else if decide (offset < 0) then Err (ValueError "offset must be non-negative")
  else
    let nsamples := (Z.of_nat (length file) - offset) / (numchan * Z.of_nat (itemsize dt)) in
    if decide (nsamples < 0 \/ numchan < 0) then Err (ValueError "negative dimensions are not allowed")
    else
      let nc := Z.to_nat numchan in
      let ns := Z.to_nat nsamples in
      let items := decode_items dt (ns * nc) (drop (Z.to_nat offset) file) in
      if frames_first then Ok (mk_memmap nc ns (transpose nc (reshape ns nc items)))
      else Ok (mk_memmap nc ns (reshape nc ns items)).

(** [float -> int] conversion of numpy's [astype]: truncation toward
    zero, then the two's complement wrap of the integer width. *)
Definition q_trunc (q : Q) : Z := Z.quot (Qnum q) (Zpos (Qden q)).
Definition astype_int (dt : dtype) (q : Q) : Z := wrap dt (q_trunc q).

(** [traces.tofile(f)] of an int array. *)
Definition tofile (dt : dtype) (m : list (list Z)) : list Z := encode_items dt (flatten m).

(** One block of traces as written: converted, transposed for
    [time_axis = 0] to (frames, channels), then flattened. *)
Definition block_bytes (time_axis : Z) (dt : dtype) (tr : ndarray Q) : list Z :=
  match tr with
  | Arr2 m =>
      let m' := mmap (astype_int dt) m in
      tofile dt (if decide (time_axis = 0) then transpose (ncols m') m' else m')
  | Arr1 v => encode_items dt (map (astype_int dt) v)
  end.

Section Writer.
Context {R : Type} `{Recording R}.

(** The chunk bounds of chunk [i]: [i * cs] to [min((i + 1) * cs, n)]. *)
Definition chunk_bounds (n cs : Z) (i : nat) : Z * Z :=
  (Z.of_nat i * cs, Z.min ((Z.of_nat i + 1) * cs) n).

Definition n_chunks (n cs : Z) : Z := n / cs + (if decide (0 < n mod cs) then 1 else 0).

Fixpoint write_chunks (r : R) (dt : dtype) (n cs : Z) (idxs : list nat) : PyResult (list Z) :=
  match idxs with
  | [] => Ok []
  | i :: idxs' =>
      let '(a, b) := chunk_bounds n cs i in
      let* tr := get_traces r AllChannels (Some a) (Some b) in
      let* rest := write_chunks r dt n cs idxs' in
      Ok (block_bytes 0 dt tr ++ rest)
  end.

(** The bytes [write_to_binary_dat_format(recording, save_path,
    time_axis, dtype, chunksize)] writes. *)
Definition write_to_binary_dat_format (r : R) (time_axis : Z) (dt : dtype)
    (chunksize : option Z) : PyResult (list Z) :=
  match chunksize with
  | None =>
      let* tr := get_traces r AllChannels None None in
      Ok (block_bytes time_axis dt tr)
  | Some cs =>
      py_assert (bool_decide (time_axis = 0))
        (AssertionError "chunked writting work only with time_axis 0");;
      if decide (cs = 0) then Err ZeroDivisionError
      else
        let n := get_num_frames r in
        write_chunks r dt n cs (seq 0 (Z.to_nat (n_chunks n cs)))
  end.
End Writer.

(** ** [read_binary] *)

Lemma read_binary_ok file numchan dt ff offset m :
  read_binary file numchan dt ff offset = Ok m ->
  0 < numchan /\ 0 <= offset /\ mm_rows m = Z.to_nat numchan /\
  mm_cols m = Z.to_nat ((Z.of_nat (length file) - offset) / (numchan * Z.of_nat (itemsize dt))) /\
  mm_data m = (if ff then transpose (mm_rows m) (reshape (mm_cols m) (mm_rows m)
                 (decode_items dt (mm_cols m * mm_rows m) (drop (Z.to_nat offset) file)))
               else reshape (mm_rows m) (mm_cols m)
                 (decode_items dt (mm_cols m * mm_rows m) (drop (Z.to_nat offset) file))).
Proof.
  unfold read_binary. case_decide as H0; [discriminate|]. case_decide as H1; [discriminate|].
  case_decide as H2; [discriminate|]. apply Decidable.not_or in H2 as [H2 H3].
  destruct ff; intros [= <-]; simpl; repeat split; first [reflexivity | lia].
Qed.

(** The map has the shape it reports: [numchan] rows of [nsamples]. *)
Lemma read_binary_wf file numchan dt ff offset m :
  read_binary file numchan dt ff offset = Ok m -> wf_memmap m.
Proof.
  intros H. unfold wf_memmap. pose proof (read_binary_ok _ _ _ _ _ _ H) as (_ & _ & _ & _ & ->).
  destruct ff.
  - apply transpose_shape, reshape_shape. by rewrite length_decode_items.
  - apply reshape_shape. rewrite length_decode_items. lia.
Qed.

(** Every element read from a byte file is a value of the dtype. *)
Lemma read_binary_range file numchan dt ff offset m :
  (1 <= dt_bytes dt)%nat -> Forall is_byte file ->
  read_binary file numchan dt ff offset = Ok m -> Forall (Forall (in_dtype dt)) (mm_data m).
Proof.
  intros Hw Hb H. pose proof (read_binary_ok _ _ _ _ _ _ H) as (_ & _ & _ & _ & ->).
  assert (forall k, Forall (in_dtype dt) (decode_items dt k (drop (Z.to_nat offset) file)))
    by (intros; apply decode_items_range; [done|by apply Forall_drop]).
  destruct ff; [apply transpose_Forall|]; by apply reshape_Forall.
Qed.

(** ** Layout lemmas *)

Lemma tofile_app dt a b : tofile dt (a ++ b) = tofile dt a ++ tofile dt b.
Proof. unfold tofile. by rewrite flatten_app, encode_items_app. Qed.

Lemma tofile_concat {A} dt (g : A -> list (list Z)) (xs : list A) :
  concat (map (fun x => tofile dt (g x)) xs) = tofile dt (concat (map g xs)).
Proof. induction xs as [|x xs IH]; simpl; [done|]. by rewrite IH, tofile_app. Qed.

Lemma tofile_nil_rows dt n : tofile dt (replicate n []) = [].
Proof. unfold tofile. by rewrite flatten_replicate_nil. Qed.

(** Consecutive chunks of [cs] elements tile the suffix from [s * cs]. *)
Lemma concat_chunks {A} (l : list A) (cs s k : nat) :
  (length l <= (s + k) * cs)%nat ->
  concat (map (fun i => take cs (drop (i * cs) l)) (seq s k)) = drop (s * cs) l.
Proof.
  revert s; induction k as [|k IH]; intros s Hl; simpl.
  - symmetry. apply drop_ge. lia.
  - rewrite IH by lia. replace (S s * cs)%nat with (s * cs + cs)%nat by lia.
    rewrite <- drop_drop. apply take_drop.
Qed.

Lemma n_chunks_spec n cs :
  0 <= n -> 0 < cs ->
  n <= n_chunks n cs * cs /\ forall i, 0 <= i < n_chunks n cs -> i * cs < n.
Proof.
  intros Hn Hcs. unfold n_chunks.
  pose proof (Z.div_mod n cs ltac:(lia)). pose proof (Z.mod_pos_bound n cs Hcs).
  set (q := n / cs) in *. set (r := n mod cs) in *. clearbody q r.
  case_decide as Hr; (split; [nia|intros i Hi]).
  - assert (i * cs <= q * cs) by (apply Z.mul_le_mono_nonneg_r; lia). lia.
  - assert (i * cs <= (q - 1) * cs) by (apply Z.mul_le_mono_nonneg_r; lia). lia.
Qed.

(** The chunk [i] of frames, as a slice of the rows of a list. *)
Lemma py_slice_chunk {A} (l : list A) (cs : Z) (i : nat) :
  0 < cs -> Z.of_nat i * cs <= Z.of_nat (length l) ->
  py_slice l (Z.of_nat i * cs) (Z.min ((Z.of_nat i + 1) * cs) (Z.of_nat (length l))) =
  take (Z.to_nat cs) (drop (i * Z.to_nat cs) l).
Proof.
  intros Hcs Hi. rewrite py_slice_in by lia.
  replace (Z.to_nat (Z.of_nat i * cs)) with (i * Z.to_nat cs)%nat by lia.
  destruct (Z.min_spec ((Z.of_nat i + 1) * cs) (Z.of_nat (length l))) as [[Hlt ->]|[Hge ->]].
  - f_equal. lia.
  - rewrite !take_ge; [done| |]; rewrite length_drop; nia.
Qed.

Lemma transpose_mmap_shape {A B} (f : A -> B) r c (a : list (list A)) :
  is_matrix r c a -> transpose (ncols (mmap f a)) (mmap f a) = mmap f (transpose (ncols a) a).
Proof.
  intros Hm. unfold mmap at 1. replace (ncols (map (map f) a)) with (ncols a).
  - apply transpose_mmap.
  - destruct a as [|row a]; simpl; [done|]. by rewrite length_map.
Qed.

(** ** Writing any recording that meets the read contract *)

Section ClientTheorems.
Context {R : Type} `{Recording R} {wf : R -> Prop} `{!ReadContract R wf}.

Lemma write_full r full ta dt :
  full_read_law r full -> write_to_binary_dat_format r ta dt None = Ok (block_bytes ta dt (Arr2 full)).
Proof. intros [Hf _]. unfold write_to_binary_dat_format. by rewrite Hf. Qed.

Lemma write_chunks_spec r full dt cs idxs :
  wf r -> full_read_law r full -> 0 < cs ->
  Forall (fun i => Z.of_nat i * cs <= get_num_frames r) idxs ->
  write_chunks r dt (get_num_frames r) cs idxs =
    Ok (concat (map (fun i => block_bytes 0 dt (Arr2 (col_slice full (Z.of_nat i * cs)
           (Z.min ((Z.of_nat i + 1) * cs) (get_num_frames r))))) idxs)).
Proof.
  intros Hwf Hfull Hcs. induction 1 as [|i idxs Hi _ IH]; simpl; [done|].
  rewrite (contract_frames r full Hwf Hfull) by lia. simpl. rewrite IH. done.
Qed.

(** The bytes of one chunk are the rows [a:b] of the transposed,
    converted array. *)
Lemma block_bytes_chunk full nch n dt a b :
  is_matrix nch n full -> nch <> 0%nat -> 0 <= a <= b -> b <= Z.of_nat n ->
  block_bytes 0 dt (Arr2 (col_slice full a b)) =
  tofile dt (py_slice (transpose n (mmap (astype_int dt) full)) a b).
Proof.
  intros Hm Hnch ??. unfold block_bytes. rewrite decide_True by done.
  rewrite mmap_col_slice. erewrite (transpose_col_slice nch n); [done|by apply mmap_shape|done|lia|lia].
Qed.

Lemma block_bytes_full full nch n dt :
  is_matrix nch n full -> nch <> 0%nat ->
  block_bytes 0 dt (Arr2 full) = tofile dt (transpose n (mmap (astype_int dt) full)).
Proof.
  intros Hm Hnch. unfold block_bytes. rewrite decide_True by done.
  rewrite (ncols_matrix nch n); [done|by apply mmap_shape|done].
Qed.

(** The chunked writer writes exactly the bytes of the one-shot
    writer: for any recording that meets the read contract and any
    positive chunk size, reading frame ranges of [chunksize] frames and
    writing each transposed block gives the file the full read gives. *)
Theorem write_chunked_equiv r dt cs :
  wf r -> 0 <= get_num_frames r -> 0 < cs ->
  write_to_binary_dat_format r 0 dt (Some cs) = write_to_binary_dat_format r 0 dt None.
Proof.
  intros Hwf Hn Hcs. destruct (contract_full r Hwf) as [full Hfull].
  pose proof (proj2 Hfull) as Hm. rewrite (write_full r full) by done.
  unfold write_to_binary_dat_format. rewrite bool_decide_true by done. cbn [py_assert py_bind].
  rewrite decide_False by lia.
  destruct (n_chunks_spec _ _ Hn Hcs) as [Hk Hi].
  rewrite (write_chunks_spec r full); [|done|done|done|].
  2:{ apply Forall_forall. intros i Hin%elem_of_seq. specialize (Hi (Z.of_nat i)). lia. }
  f_equal. set (nch := length (get_channel_ids r)) in Hm.
  set (N := Z.to_nat (get_num_frames r)) in Hm.
  destruct (decide (nch = 0%nat)) as [H0|H0].
  - destruct full as [|row full]; [|destruct Hm as [Hl _]; simpl in Hl; lia].
    change (block_bytes 0 dt (Arr2 [])) with (@nil Z).
    induction (seq 0 _) as [|i l IH]; [done|]. cbn [map concat]. rewrite IH, app_nil_r.
    reflexivity.
  - set (T := transpose N (mmap (astype_int dt) full)).
    assert (Z.of_nat (length T) = get_num_frames r) as HT.
    { unfold T. rewrite (length_transpose N); [lia|]. apply (mmap_shape _ _ _ _ Hm). }
    rewrite (block_bytes_full _ nch N) by done. fold T.
    erewrite map_ext_in.
    2:{ intros i Hin%in_seq. specialize (Hi (Z.of_nat i) ltac:(lia)).
        rewrite (block_bytes_chunk full nch N) by (done || lia). fold T.
        rewrite <- HT, py_slice_chunk by lia. reflexivity. }
    rewrite tofile_concat. f_equal. rewrite (concat_chunks T (Z.to_nat cs) 0); [done|].
    assert (0 <= n_chunks (get_num_frames r) cs) by nia.
    apply Nat2Z.inj_le. rewrite HT, Nat2Z.inj_mul, Nat.add_0_l, !Z2Nat.id by lia. lia.
Qed.

Lemma flatten_astype_wrapped dt nch n (full : list (list Q)) :
  (1 <= dt_bytes dt)%nat -> is_matrix nch n full ->
  map (wrap dt) (flatten (transpose n (mmap (astype_int dt) full))) =
  flatten (transpose n (mmap (astype_int dt) full)).
Proof.
  intros Hw Hm. rewrite transpose_mmap, flatten_mmap, map_map.
  apply map_ext. intros q. unfold astype_int. by apply wrap_idem.
Qed.

(** Write/read round trip: writing a recording that meets the read
    contract with [time_axis = 0] and reading the file back with
    [read_binary] (same channel count and dtype, frames first, offset
    0) maps exactly the recording's traces converted to the dtype. *)
Theorem write_read_roundtrip r dt :
  wf r -> wf_dtype dt -> length (get_channel_ids r) <> 0%nat ->
  exists full bytes, full_read_law r full /\
    write_to_binary_dat_format r 0 dt None = Ok bytes /\
    read_binary bytes (Z.of_nat (length (get_channel_ids r))) dt true 0 =
      Ok (mk_memmap (length (get_channel_ids r)) (Z.to_nat (get_num_frames r))
            (mmap (astype_int dt) full)).
Proof.
  intros Hwf Hdt Hnch. destruct (contract_full r Hwf) as [full Hfull].
  exists full, (block_bytes 0 dt (Arr2 full)). split; [done|]. split; [by apply write_full|].
  pose proof (proj2 Hfull) as Hm. set (nch := length (get_channel_ids r)) in *.
  set (N := Z.to_nat (get_num_frames r)) in *. pose proof (wf_dtype_pos dt Hdt) as Hw.
  rewrite (block_bytes_full full nch N) by done.
  pose proof (mmap_shape (astype_int dt) _ _ _ Hm) as HF.
  pose proof (transpose_shape _ _ _ HF) as HT.
  set (F := mmap (astype_int dt) full) in *. set (T := transpose N F) in *.
  assert (length (tofile dt T) = (N * nch * itemsize dt)%nat) as Hlen.
  { unfold tofile. rewrite length_encode_items, (length_flatten N nch) by done. lia. }
  assert ((Z.of_nat (length (tofile dt T)) - 0) / (Z.of_nat nch * Z.of_nat (itemsize dt))
          = Z.of_nat N) as Hns.
  { rewrite Hlen, Z.sub_0_r, !Nat2Z.inj_mul, <- Z.mul_assoc.
    apply Z.div_mul. unfold itemsize. lia. }
  unfold read_binary. rewrite decide_False by lia. rewrite decide_False by lia.
  rewrite Hns. rewrite decide_False by lia. rewrite !Nat2Z.id, drop_0.
  unfold tofile at 1.
  replace (N * nch)%nat with (length (flatten T)) by (rewrite (length_flatten N nch) by done; lia).
  rewrite decode_encode_items. unfold T, F. rewrite (flatten_astype_wrapped dt nch N) by done.
  fold F T. rewrite (reshape_flatten N nch) by done. unfold T.
  by rewrite (transpose_involutive nch N).
Qed.
End ClientTheorems.
