(* ===== verification/Properties.v ===== *)
(** * The base class's per-channel property storage

    [RecordingExtractor] (not under src/) keeps, for each channel id, a
    dictionary of named properties; the adapters' constructors call
    [set_channel_property(m, 'location', ...)] and [set_channel_gains].
    The spec (sections 3 and 6) treats this storage as a collaborator
    whose lookups fail loudly on an unknown channel id; it is modelled
    here from that contract as a [gmap Z (gmap string PropVal)].
    [props_wf ids ps] says that only channel ids carry properties;
    setting a property preserves it. *)

From S2P Require Import Prelude PyString.

Inductive PropVal :=
| PLocation (xy : list Q)
| PGain (g : Q).

Abbreviation ChannelProps := (gmap Z (gmap string PropVal)).

(** [set_channel_property(channel_id, property_name, value)]. *)
Definition set_channel_property (ids : list Z) (ps : ChannelProps) (ch : Z)
    (name : string) (v : PropVal) : PyResult ChannelProps :=
  if bool_decide (ch ∈ ids) then
    Ok (<[ch := <[name := v]> (default ∅ (ps !! ch))]> ps)
  else Err (ValueError (str_of_Z ch +:+ " is not a valid channel_id")).

Definition get_channel_property (ps : ChannelProps) (ch : Z) (name : string) : option PropVal :=
  ps !! ch ≫= (.!! name).

(** [set_channel_gains(channel_ids, gains)] with one gain per channel. *)
Fixpoint set_gains_list (ids : list Z) (ps : ChannelProps) (chs : list Z) (gs : list Q)
    : PyResult ChannelProps :=
  match chs, gs with
  | ch :: chs', g :: gs' =>
      let* ps' := set_channel_property ids ps ch "gain" (PGain g) in
      set_gains_list ids ps' chs' gs'
  | _, _ => Ok ps
  end.

Definition set_channel_gains (ids : list Z) (ps : ChannelProps) (chs : list Z) (gs : list Q)
    : PyResult ChannelProps :=
  if decide (length chs = length gs) then set_gains_list ids ps chs gs
  else Err (ValueError "gains must have the same length as channel_ids").

(** [for m in ms: self.set_channel_property(m, 'location', item(m))],
    with [item(m)] the row [m] of the geometry. *)
Fixpoint set_locations (item : Z -> PyResult (list Q)) (ids : list Z) (ps : ChannelProps)
    (ms : list Z) : PyResult ChannelProps :=
  match ms with
  | [] => Ok ps
  | m :: ms' =>
      let* loc := item m in
      let* ps' := set_channel_property ids ps m "location" (PLocation loc) in
      set_locations item ids ps' ms'
  end.

(** Only channel ids carry properties. *)
Definition props_wf (ids : list Z) (ps : ChannelProps) : Prop :=
  forall ch, is_Some (ps !! ch) -> ch ∈ ids.

Lemma props_wf_empty ids : props_wf ids ∅.
Proof. intros ch [? H]. by rewrite lookup_empty in H. Qed.

Lemma set_channel_property_wf ids ps ch name v ps' :
  props_wf ids ps -> set_channel_property ids ps ch name v = Ok ps' -> props_wf ids ps'.
Proof.
  unfold set_channel_property. case_bool_decide as Hch; [|done].
  intros Hwf [= <-] ch' Hs. destruct (decide (ch = ch')) as [->|Hne]; [done|].
  apply Hwf. by rewrite lookup_insert_ne in Hs.
Qed.

Lemma set_channel_property_get ids ps ch name v ps' :
  set_channel_property ids ps ch name v = Ok ps' ->
  get_channel_property ps' ch name = Some v.
Proof.
  unfold set_channel_property, get_channel_property. case_bool_decide; [|done].
  intros [= <-]. rewrite lookup_insert_eq. simpl. by rewrite lookup_insert_eq.
Qed.

Lemma set_channel_property_other ids ps ch name v ps' ch' :
  ch <> ch' -> set_channel_property ids ps ch name v = Ok ps' ->
  ps' !! ch' = ps !! ch'.
Proof.
  unfold set_channel_property. case_bool_decide; [|done].
  intros Hne [= <-]. by rewrite lookup_insert_ne.
Qed.

Lemma set_channel_property_err ids ps ch name v :
  ch ∉ ids -> set_channel_property ids ps ch name v =
    Err (ValueError (str_of_Z ch +:+ " is not a valid channel_id")).
Proof. unfold set_channel_property. by case_bool_decide. Qed.

Lemma set_gains_list_wf ids ps chs gs ps' :
  props_wf ids ps -> set_gains_list ids ps chs gs = Ok ps' -> props_wf ids ps'.
Proof.
  revert ps gs; induction chs as [|ch chs IH]; intros ps [|g gs] Hwf H; simpl in H;
    try (by injection H as <-).
  destruct (set_channel_property ids ps ch "gain" (PGain g)) as [ps1|] eqn:E; simpl in H; [|done].
  eapply IH; [|exact H]. by eapply set_channel_property_wf.
Qed.

Lemma set_locations_wf item ids ps ms ps' :
  props_wf ids ps -> set_locations item ids ps ms = Ok ps' -> props_wf ids ps'.
Proof.
  revert ps; induction ms as [|m ms IH]; intros ps Hwf H; simpl in H; [by injection H as <-|].
  py_inv. eapply IH; [|exact H]. by eapply set_channel_property_wf.
Qed.

Lemma set_gains_list_other ids ps chs gs ps' ch :
  ch ∉ chs -> set_gains_list ids ps chs gs = Ok ps' -> ps' !! ch = ps !! ch.
Proof.
  revert ps gs; induction chs as [|c chs IH]; intros ps [|g gs] Hch H; simpl in H;
    try (by injection H as <-).
  py_inv. apply not_elem_of_cons in Hch as [Hne Hch].
  rewrite (IH _ _ Hch H). by eapply set_channel_property_other.
Qed.

(** After [set_channel_gains(chs, gs)] with distinct ids, channel
    [chs[i]] has gain [gs[i]]. *)
Lemma set_gains_list_get ids ps chs gs ps' i ch g :
  NoDup chs -> set_gains_list ids ps chs gs = Ok ps' ->
  chs !! i = Some ch -> gs !! i = Some g -> get_channel_property ps' ch "gain" = Some (PGain g).
Proof.
  revert ps gs i; induction chs as [|c chs IH]; intros ps [|g0 gs] i Hnd H Hi Hg;
    [done|done|by destruct i|].
  simpl in H. py_inv. apply NoDup_cons in Hnd as [Hc Hnd]. destruct i as [|i]; simpl in Hi, Hg.
  - injection Hi as <-. injection Hg as <-. unfold get_channel_property.
    rewrite (set_gains_list_other _ _ _ _ _ _ Hc H).
    apply set_channel_property_get in Hm. exact Hm.
  - exact (IH _ _ _ Hnd H Hi Hg).
Qed.

(** Setting one property name leaves the others of every channel. *)
Lemma set_channel_property_other_name ids ps c name v ps' ch name' :
  name' <> name -> set_channel_property ids ps c name v = Ok ps' ->
  get_channel_property ps' ch name' = get_channel_property ps ch name'.
Proof.
  unfold set_channel_property, get_channel_property. case_bool_decide; [|done].
  intros Hne [= <-]. destruct (decide (c = ch)) as [<-|Hc].
  - rewrite lookup_insert_eq. simpl. rewrite lookup_insert_ne by congruence.
    by destruct (ps !! c).
  - by rewrite lookup_insert_ne.
Qed.

(** [set_channel_gains] keeps the locations. *)
Lemma set_gains_list_location ids ps chs gs ps' ch :
  set_gains_list ids ps chs gs = Ok ps' ->
  get_channel_property ps' ch "location" = get_channel_property ps ch "location".
Proof.
  revert ps gs; induction chs as [|c chs IH]; intros ps [|g gs] H; simpl in H;
    try (by injection H as <-).
  py_inv. rewrite (IH _ _ H). eapply (set_channel_property_other_name _ _ _ "gain"); [discriminate|eassumption].
Qed.

Lemma set_locations_other item ids ps ms ps' ch :
  ch ∉ ms -> set_locations item ids ps ms = Ok ps' -> ps' !! ch = ps !! ch.
Proof.
  revert ps; induction ms as [|m ms IH]; intros ps Hch H; simpl in H; [by injection H as <-|].
  py_inv. apply not_elem_of_cons in Hch as [Hne Hch].
  rewrite (IH _ Hch H). by eapply set_channel_property_other.
Qed.

(** With distinct ids, [set_locations] gives each [m] the location [item(m)]. *)
Lemma set_locations_get item ids ps ms ps' m :
  NoDup ms -> set_locations item ids ps ms = Ok ps' -> m ∈ ms ->
  exists loc, item m = Ok loc /\ get_channel_property ps' m "location" = Some (PLocation loc).
Proof.
  revert ps; induction ms as [|m' ms IH]; intros ps Hnd H Hin; [by apply not_elem_of_nil in Hin|].
  simpl in H. py_inv. apply NoDup_cons in Hnd as [Hout Hnd].
  apply elem_of_cons in Hin as [->|Hin]; [|exact (IH _ Hnd H Hin)].
  exists a. split; [done|]. unfold get_channel_property.
  rewrite (set_locations_other _ _ _ _ _ _ Hout H). by apply set_channel_property_get in Hm0.
Qed.
