(* ===== verification/BinDat.v ===== *)
(** * BinDatRecordingExtractor (bindatrecordingextractor.py)

    The state [BinDat] holds the attributes the constructor sets
    (lines 27-47): the dtype's [str()] ([bd_dtype]), the memory map
    returned by [read_binary] ([bd_timeseries]), the sampling rate, the
    optional gain and geometry, the channel ids and the channel property
    store of the base class.  [bd_init] is [__init__] (with the file
    system as a lookup from path to bytes), [bd_get_traces] is
    [get_traces] (lines 58-74), [bd_write_recording] is the static
    [write_recording] (line 95).  [BinDatRec] makes the state a
    [Recording].

    The theorems: the constructor establishes the invariant [bd_wf]
    (channel count = rows of the store, properties only on channel ids);
    [get_traces] meets the read contract (full read shape, frame ranges,
    channel lists in the requested order, unknown ids raise);
    [get_traces] on an unsigned dtype subtracts [2^(bits-1) + 1]
    (one more than the centring offset), and multiplies by the gain
    once; the constructor rejects a channel list of the wrong length and,
    given a geometry, a channel list that does not contain the row
    indices; every read has the type of [traces_type_law]; the traces
    of a 'uintN' file lie in [-2^(N-1) - 1, 2^(N-1) - 2]; with the
    default ids a geometry gives channel [m] the row [m]; write_recording
    passes [time_axis] and [chunksize] on.  [bd_info] holds the class
    attributes. *)

From S2P Require Import Prelude PyString PyList NdArray Dtype Contract BinaryIO Properties.
From Stdlib Require Import Ascii Qpower.

Record BinDat := mk_bindat {
  bd_datfile : string;
  bd_frame_first : bool;
  bd_dtype : string;
  bd_timeseries : memmap;
  bd_samplerate : Q;
  bd_gain : option Q;
  bd_geom : option (list (list Q));
  bd_channels : list Z;
  bd_props : ChannelProps
}.

(** The file system: the bytes of each existing path. *)
Definition FileSys := string -> option (list Z).

(** The class attributes (lines 10-25). *)
Definition bd_info : ExtractorInfo :=
  mk_class_info "BinDatRecordingExtractor" false true true "file"
    [mk_gui "file_path" "file" None None "Path to file (.dat)";
     mk_gui "samplerate" "float" None None "Sampling rate in HZ";
     mk_gui "numchan" "int" None None "Number of channels";
     mk_gui "dtype" "np.dtype" None None "The dtype of underlying data (int16, float32, etc.)";
     mk_gui "recording_channels" "int_list" (Some GNone) (Some GNone) "List of recording channels";
     mk_gui "frames_first" "bool" (Some (GBool true)) (Some (GBool true)) "Frames first";
     mk_gui "offset" "int" (Some (GInt 0)) (Some (GInt 0)) "Offset in binary file";
     mk_gui "gain" "float" None None "gain of the recordings"]
    "".

(** [BinDatRecordingExtractor.__init__]. *)
Definition bd_init (fs : FileSys) (file_path : string) (samplerate : Q) (numchan : Z)
    (dtype : dtype_arg) (recording_channels : option (list Z)) (frames_first : bool)
    (geom : option (list (list Q))) (offset : Z) (gain : option Q) : PyResult BinDat :=
  let* bytes := py_some (fs file_path) (FileNotFoundError file_path) in
  let* dt := np_dtype dtype in
  let* ts := read_binary bytes numchan dt frames_first offset in
  let* channels :=
    match recording_channels with
    | Some rc =>
        py_assert (bool_decide (length rc = mm_rows ts))
          (AssertionError "Provided recording channels have the wrong length");;
        Ok rc
    | None => Ok (py_range (mm_rows ts))
    end in
  let* props :=
    match geom with
    | Some g => set_locations (py_item g) channels ∅ (py_range (mm_rows ts))
    | None => Ok ∅
    end in
  Ok (mk_bindat file_path frames_first (dtype_arg_str dtype) ts samplerate gain geom
        channels props).

Definition bd_get_channel_ids (st : BinDat) : list Z := bd_channels st.
Definition bd_get_num_frames (st : BinDat) : Z := Z.of_nat (mm_cols (bd_timeseries st)).
Definition bd_get_sampling_frequency (st : BinDat) : Q := bd_samplerate st.

(** [2**(exp - 1) + 1], the constant of line 71. *)
Definition uint_centre (e : Z) : Q := (Qpower 2 (e - 1) + 1)%Q.

(** The offset subtracted from an unsigned dtype: [2**(exp - 1) + 1]
    with [exp] parsed from the dtype name after 'int'. *)
Definition uint_offset (dtype_s : string) : PyResult (option Q) :=
  if str_startswith "uint" dtype_s then
    let exp_idx := str_find "int" dtype_s + 3 in
    let* e := py_int (str_from (Z.to_nat exp_idx) dtype_s) in
    Ok (Some (uint_centre e))
  else Ok None.

(** The row indices of the requested channels. *)
Definition bd_channel_indices (st : BinDat) (sel : ChannelSel) : PyResult (list Z) :=
  match sel with
  | AllChannels => Ok (py_range (mm_rows (bd_timeseries st)))
  | OneChannel _ => Err (TypeError "'int' object is not iterable")
  | SomeChannels chs => py_map (map Z.of_nat) (py_mapM (py_index (bd_channels st)) chs)
  end.

(** The calibration of [get_traces]: unsigned re-centring, then gain. *)
Definition bd_calibrate (off : option Q) (gain : option Q) (m : list (list Z)) : list (list Q) :=
  let v := mmap inject_Z m in
  let v := match off with Some o => mmap (fun q => q - o)%Q v | None => v end in
  match gain with Some g => mmap (fun q => q * g)%Q v | None => v end.

(** [BinDatRecordingExtractor.get_traces]. *)
Definition bd_get_traces (st : BinDat) (sel : ChannelSel) (start_frame end_frame : option Z)
    : PyResult (ndarray Q) :=
  let start := default 0 start_frame in
  let stop := default (bd_get_num_frames st) end_frame in
  let* idx := bd_channel_indices st sel in
  let* recordings := take_rows (col_slice (mm_data (bd_timeseries st)) start stop) idx in
  let* off := uint_offset (bd_dtype st) in
  Ok (Arr2 (bd_calibrate off (bd_gain st) recordings)).

#[export] Instance BinDatRec : Recording BinDat := {
  get_channel_ids := bd_get_channel_ids;
  get_num_frames := bd_get_num_frames;
  get_sampling_frequency := bd_get_sampling_frequency;
  get_traces := bd_get_traces
}.

(** [BinDatRecordingExtractor.write_recording]: the bytes written. *)
Definition bd_write_recording {R} `{Recording R} (r : R) (time_axis : Z) (dt : dtype)
    (chunksize : option Z) : PyResult (list Z) :=
  write_to_binary_dat_format r time_axis dt chunksize.

(** The invariant of a constructed extractor. *)
Definition bd_wf (st : BinDat) : Prop :=
  wf_memmap (bd_timeseries st) /\
  length (bd_channels st) = mm_rows (bd_timeseries st) /\
  props_wf (bd_channels st) (bd_props st) /\
  is_ok (uint_offset (bd_dtype st)) = true.

(** The full read of an extractor whose dtype offset is [off]. *)
Definition bd_full (st : BinDat) (off : option Q) : list (list Q) :=
  bd_calibrate off (bd_gain st) (mm_data (bd_timeseries st)).

Definition calib_val (off g : option Q) (z : Z) : Q :=
  let q := inject_Z z in
  let q := match off with Some o => (q - o)%Q | None => q end in
  match g with Some g => (q * g)%Q | None => q end.

(** ** Example recordings (used by the witnesses) *)

(** One uint16 channel of three frames: 32768, 0, 65535. *)
Definition ex_u16_bytes : list Z := encode_items (mk_dtype false 2 false) [32768; 0; 65535].
Definition ex_u16_fs : FileSys := fun _ => Some ex_u16_bytes.
Definition ex_u16_state : BinDat :=
  mk_bindat "u.dat" true "uint16" (mk_memmap 1 3 [[32768; 0; 65535]]) 30000 None None [0] ∅.

(** Two int16 channels of three frames, frame-major. *)
Definition ex_i16_bytes : list Z := encode_items (mk_dtype true 2 false) [1; -1; 2; -2; 3; -3].
Definition ex_i16_fs : FileSys := fun _ => Some ex_i16_bytes.

Definition ex_state_of (r : PyResult BinDat) : BinDat :=
  match r with Ok st => st | Err _ => ex_u16_state end.

Definition ex_i16_state : BinDat := Eval vm_compute in
  ex_state_of (bd_init ex_i16_fs "a.dat" 30000 2 (DtName "int16") None true None 0 None).
Definition ex_i16_gain_state : BinDat := Eval vm_compute in
  ex_state_of (bd_init ex_i16_fs "a.dat" 30000 2 (DtName "int16") None true None 0 (Some 2%Q)).
Definition ex_u2_state : BinDat := Eval vm_compute in
  ex_state_of (bd_init ex_u16_fs "u.dat" 30000 1 (DtName "u2") None true None 0 None).

Definition ex_u16_init_state : BinDat := Eval vm_compute in
  ex_state_of (bd_init ex_u16_fs "u.dat" 30000 1 (DtName ("uint" +:+ str_of_Z 16)) None true None 0 None).

(** The two-channel int16 file with a geometry of two rows. *)
Definition ex_geom_state : BinDat := Eval vm_compute in
  ex_state_of (bd_init ex_i16_fs "a.dat" 30000 2 (DtName "int16") None true
                 (Some [[0; 0]; [1; 2]]%Q) 0 None).

(** One int16 channel of two non-negative frames: 5, 7. *)
Definition ex_pos_fs : FileSys := fun _ => Some (encode_items (mk_dtype true 2 false) [5; 7]).
Definition ex_pos_state : BinDat := Eval vm_compute in
  ex_state_of (bd_init ex_pos_fs "p.dat" 30000 1 (DtName "int16") None true None 0 None).

(** ** The unsigned offset *)

Lemma uint_offset_uint rest :
  uint_offset ("uint" +:+ rest) = py_map (fun e => Some (uint_centre e)) (py_int rest).
Proof.
  unfold uint_offset, str_startswith, str_find, str_from, chars, of_chars.
  change ("uint" +:+ rest) with
    (String.String "u"%char (String.String "i"%char (String.String "n"%char (String.String "t"%char rest)))).
  cbn -[py_int Qpower].
  assert (Hp : forall s, String.prefix "" s = true) by (intros []; reflexivity).
  rewrite !Hp. cbn -[py_int Qpower].
  change (Z.to_nat (Z.of_nat 1 + 3)) with 4%nat. cbn [drop]. rewrite skipn_O.
  rewrite String.string_of_list_ascii_of_string.
  by destruct (py_int rest).
Qed.

Lemma uint_offset_not_uint s : str_startswith "uint" s = false -> uint_offset s = Ok None.
Proof. unfold uint_offset. by intros ->. Qed.

(** Every dtype [np.dtype] accepts has a name whose offset parses. *)
Lemma np_dtype_uint_offset a dt :
  np_dtype a = Ok dt -> is_ok (uint_offset (dtype_arg_str a)) = true.
Proof.
  destruct a as [s|dt']; simpl.
  - intros Hdt%py_some_ok. destruct (str_startswith "uint" s) eqn:E.
    + destruct (str_startswith_app _ _ E) as [rest ->].
      rewrite uint_offset_uint.
      change ("uint" +:+ rest) with
        (String.String "u"%char (String.String "i"%char (String.String "n"%char (String.String "t"%char rest)))) in Hdt.
      cbn in Hdt.
      repeat (case_decide; [subst; reflexivity|]). discriminate.
    + by rewrite uint_offset_not_uint.
  - intros _. unfold dtype_str.
    destruct (dt_big dt'), (dt_signed dt'); try (rewrite uint_offset_not_uint; reflexivity).
    rewrite uint_offset_uint, py_int_str_of_Z. reflexivity.
Qed.

(** ** Calibration *)

Lemma bd_calibrate_mmap off g m : bd_calibrate off g m = mmap (calib_val off g) m.
Proof.
  unfold bd_calibrate. destruct off, g; rewrite ?mmap_compose; apply mmap_ext; reflexivity.
Qed.

(** ** The constructor *)


(** The constructor establishes the invariant: the store is a
    well-shaped map, there is one channel id per row, only channel ids
    carry properties, and the dtype name's unsigned offset parses. *)
Theorem bd_init_wf fs path sr numchan dtype rc ff geom offset gain st :
  bd_init fs path sr numchan dtype rc ff geom offset gain = Ok st -> bd_wf st.
Proof.
  unfold bd_init. intros H. py_inv.
  assert (length a2 = mm_rows a1) as Hlen.
  { destruct rc as [rc|]; simpl in Hm2.
    - destruct (bool_decide _) eqn:E; simpl in Hm2; [|discriminate].
      injection Hm2 as <-. by apply bool_decide_eq_true in E.
    - injection Hm2 as <-. apply length_py_range. }
  subst st. split; [by eapply read_binary_wf|]. split; [done|]. split.
  - destruct geom; simpl in Hm3; [|injection Hm3 as <-; apply props_wf_empty].
    eapply set_locations_wf; [apply props_wf_empty|exact Hm3].
  - by eapply np_dtype_uint_offset.
Qed.

(** ** [get_traces] and the read contract *)

Lemma bd_wf_offset st : bd_wf st -> exists off, uint_offset (bd_dtype st) = Ok off.
Proof. intros (_ & _ & _ & H). destruct (uint_offset _) as [off|]; [by exists off|done]. Qed.

(** A frame range of all channels, for any bounds (Python slicing). *)
Lemma bd_get_traces_all st off a b :
  bd_wf st -> uint_offset (bd_dtype st) = Ok off ->
  bd_get_traces st AllChannels (Some a) (Some b) = Ok (Arr2 (col_slice (bd_full st off) a b)).
Proof.
  intros ([Hr Hall] & Hlen & _ & _) Hoff. unfold bd_get_traces, bd_channel_indices; simpl.
  rewrite <- Hr, <- (length_map (fun row => py_slice row a b)).
  fold (col_slice (mm_data (bd_timeseries st)) a b). rewrite take_rows_range. simpl.
  rewrite Hoff. simpl. unfold bd_full. by rewrite !bd_calibrate_mmap, mmap_col_slice.
Qed.

Lemma bd_get_traces_full st off :
  bd_wf st -> uint_offset (bd_dtype st) = Ok off ->
  bd_get_traces st AllChannels None None = Ok (Arr2 (bd_full st off)).
Proof.
  intros Hwf Hoff.
  change (bd_get_traces st AllChannels None None)
    with (bd_get_traces st AllChannels (Some 0) (Some (bd_get_num_frames st))).
  rewrite (bd_get_traces_all st off) by done. unfold bd_full, bd_get_num_frames.
  rewrite bd_calibrate_mmap, (col_slice_full (mm_rows (bd_timeseries st))); [done|].
  apply mmap_shape. apply Hwf.
Qed.

Lemma bd_channel_indices_ok st chs :
  Forall (fun ch => ch ∈ bd_channels st) chs ->
  exists idxs, bd_channel_indices st (SomeChannels chs) = Ok (map Z.of_nat idxs) /\
    Forall2 (fun ch i => index_of (bd_channels st) ch = Some i) chs idxs.
Proof. apply py_index_mapM_ok. Qed.

Lemma bd_get_traces_channels st off chs a b :
  bd_wf st -> uint_offset (bd_dtype st) = Ok off ->
  Forall (fun ch => ch ∈ bd_channels st) chs ->
  exists rows, bd_get_traces st (SomeChannels chs) (Some a) (Some b) = Ok (Arr2 (col_slice rows a b)) /\
    Forall2 (fun ch row => channel_row st (bd_full st off) ch = Some row) chs rows.
Proof.
  intros (Hm & Hlen & _ & _) Hoff Hchs.
  destruct (bd_channel_indices_ok st chs Hchs) as (idxs & Hidx & Hf).
  assert (Forall (fun i => i < length (mm_data (bd_timeseries st)))%nat idxs) as Hlt.
  { apply Forall_lookup_2. intros k i Hi.
    destruct (Forall2_lookup_r _ _ _ _ _ Hf Hi) as (ch & _ & Hch).
    destruct Hm as [Hr _]. rewrite Hr, <- Hlen. by eapply index_of_lt. }
  destruct (py_take_in _ _ Hlt) as (R & HR & HRf).
  unfold bd_get_traces. simpl default. rewrite Hidx. simpl py_bind.
  rewrite take_rows_col_slice. unfold take_rows_slice. rewrite HR. simpl.
  rewrite Hoff. simpl. rewrite bd_calibrate_mmap, mmap_col_slice.
  exists (mmap (calib_val off (bd_gain st)) R). split; [done|].
  clear -Hf HRf. revert R HRf.
  induction Hf as [|ch i chs idxs Hci _ IH]; intros R HRf;
    inversion HRf as [|? r ? R' Hir HR']; subst; simpl; constructor; [|by apply IH].
  unfold channel_row. simpl. unfold bd_get_channel_ids. rewrite Hci. simpl. unfold bd_full.
  rewrite bd_calibrate_mmap. unfold mmap. by rewrite list_lookup_fmap, Hir.
Qed.

Lemma bd_get_traces_unknown st chs ch s e :
  ch ∈ chs -> ch ∉ bd_channels st ->
  exists ch', bd_get_traces st (SomeChannels chs) s e =
    Err (ValueError (str_of_Z ch' +:+ " is not in list")).
Proof.
  intros Hin Hout. destruct (py_index_mapM_unknown _ _ _ Hin Hout) as [ch' Hch'].
  exists ch'. unfold bd_get_traces, bd_channel_indices. by rewrite Hch'.
Qed.

Lemma bd_full_shape st off :
  bd_wf st -> is_matrix (length (bd_channels st)) (Z.to_nat (bd_get_num_frames st)) (bd_full st off).
Proof.
  intros (Hm & Hlen & _ & _). unfold bd_full, bd_get_num_frames. rewrite Nat2Z.id, Hlen.
  rewrite bd_calibrate_mmap. by apply mmap_shape.
Qed.

Lemma bd_full_read st full :
  bd_wf st -> bd_get_traces st AllChannels None None = Ok (Arr2 full) ->
  exists off, uint_offset (bd_dtype st) = Ok off /\ full = bd_full st off.
Proof.
  intros Hwf H. destruct (bd_wf_offset st Hwf) as [off Hoff]. exists off.
  rewrite (bd_get_traces_full st off Hwf Hoff) in H. by injection H as <-.
Qed.


(** ** The read contract, field by field *)

Lemma bd_contract_full st : bd_wf st -> exists full, full_read_law st full.
Proof.
  intros Hwf. destruct (bd_wf_offset st Hwf) as [off Hoff]. exists (bd_full st off).
  split; [by apply bd_get_traces_full|by apply bd_full_shape].
Qed.

Lemma bd_contract_frames st full : bd_wf st -> full_read_law st full -> frame_range_law st full.
Proof.
  intros Hwf [Hfull _] a b _ _.
  destruct (bd_full_read st full Hwf Hfull) as (off & Hoff & ->). by apply bd_get_traces_all.
Qed.

Lemma bd_contract_channels st full : bd_wf st -> full_read_law st full -> channel_list_law st full.
Proof.
  intros Hwf [Hfull _] chs a b Hchs _ _.
  destruct (bd_full_read st full Hwf Hfull) as (off & Hoff & ->).
  by apply bd_get_traces_channels.
Qed.

Lemma bd_contract_unknown st : bd_wf st -> unknown_channel_law st.
Proof.
  intros Hwf chs ch s e Hin Hout. simpl.
  destruct (bd_get_traces_unknown st chs ch s e Hin Hout) as [ch' ->]. eauto.
Qed.

(** ** Result types and value ranges *)

(** The names 'uintN' numpy accepts are the unsigned dtypes of [N] bits. *)
Lemma dtype_of_uint_name n dt :
  dtype_of_name ("uint" +:+ str_of_Z n) = Some dt ->
  dt_signed dt = false /\ bits dt = n /\ (1 <= dt_bytes dt)%nat.
Proof.
  change ("uint" +:+ str_of_Z n) with
    (String.String "u"%char (String.String "i"%char (String.String "n"%char
       (String.String "t"%char (str_of_Z n))))).
  unfold dtype_of_name. cbn -[str_of_Z].
  repeat (case_decide;
    [match goal with E : str_of_Z n = _ |- _ =>
       apply (f_equal py_int) in E; rewrite py_int_str_of_Z in E; vm_compute in E;
       injection E as ->; intros [= <-]; vm_compute; repeat split; lia end|]).
  intros [=].
Qed.

(** What construction stores: the file read with the parsed dtype. *)
Lemma bd_init_timeseries fs path sr numchan dtype rc ff geom offset gain st bytes dt :
  fs path = Some bytes -> np_dtype dtype = Ok dt ->
  bd_init fs path sr numchan dtype rc ff geom offset gain = Ok st ->
  read_binary bytes numchan dt ff offset = Ok (bd_timeseries st) /\
  bd_dtype st = dtype_arg_str dtype /\ bd_gain st = gain.
Proof.
  intros Hfs Hdt H. unfold bd_init in H. rewrite Hfs, Hdt in H. simpl in H.
  destruct (read_binary bytes numchan dt ff offset) as [m|] eqn:Hm; simpl in H; [|done].
  py_inv. by subst st.
Qed.

(** [get_traces] returns elements of the store, calibrated. *)
Lemma bd_get_traces_Forall (P : Z -> Prop) (Q' : Q -> Prop) st off sel s e m :
  Forall (Forall P) (mm_data (bd_timeseries st)) -> uint_offset (bd_dtype st) = Ok off ->
  (forall z, P z -> Q' (calib_val off (bd_gain st) z)) ->
  bd_get_traces st sel s e = Ok (Arr2 m) -> Forall (Forall Q') m.
Proof.
  intros Hall Hoff Hf H. unfold bd_get_traces in H. py_inv. rewrite Hoff in Hm1.
  injection Hm1 as <-. subst m. rewrite bd_calibrate_mmap.
  apply (mmap_Forall P); [done|]. eapply take_rows_Forall; [|exact Hm0].
  by apply col_slice_Forall.
Qed.

(** The rows and frames of any successful read. *)
Lemma bd_get_traces_shape st sel s e t :
  bd_wf st -> bd_get_traces st sel s e = Ok t ->
  exists idx m, bd_channel_indices st sel = Ok idx /\ t = Arr2 m /\
    is_matrix (length idx) (slice_len (bd_get_num_frames st) s e) m.
Proof.
  intros (Hm & _) H. unfold bd_get_traces in H. py_inv. subst t.
  exists a, (bd_calibrate a1 (bd_gain st) a0). split; [done|]. split; [done|].
  rewrite bd_calibrate_mmap. apply mmap_shape. eapply take_rows_shape; [|exact Hm1].
  apply col_slice_shape_any. exact Hm.
Qed.

(** The re-centred value of an unsigned [n]-bit sample. *)
Lemma uint_recentre_range n z :
  1 <= n -> 0 <= z <= 2 ^ n - 1 ->
  (inject_Z (- 2 ^ (n - 1) - 1) <= inject_Z z - uint_centre n <= inject_Z (2 ^ (n - 1) - 2))%Q.
Proof.
  intros Hn Hz. unfold uint_centre.
  assert (Qpower 2 (n - 1) == inject_Z (2 ^ (n - 1)))%Q as ->
    by (symmetry; apply Zpower_Qpower; lia).
  assert (2 ^ n = 2 * 2 ^ (n - 1)) as Hp
    by (rewrite <- Z.pow_succ_r by lia; f_equal; lia).
  set (p := 2 ^ (n - 1)) in *. unfold Qle, Qminus, Qplus, Qopp. simpl. lia.
Qed.

(** ** Properties of the adapter *)

(** C1: BinDat refines the read contract: on every constructed state,
    [get_traces()] returns the full array of shape (channels, frames),
    a frame range returns those columns, a channel list returns the
    requested rows in the requested order, and an unknown id raises. *)
Theorem bd_refines_read_contract st :
  bd_wf st -> exists full,
    full_read_law st full /\ frame_range_law st full /\
    channel_list_law st full /\ unknown_channel_law st.
Proof.
  intros Hwf. destruct (bd_contract_full st Hwf) as [full Hfull]. exists full.
  split; [done|]. split; [by apply bd_contract_frames|].
  split; [by apply bd_contract_channels|by apply bd_contract_unknown].
Qed.

(** C6: construction succeeds only on a well-formed state whose channel
    count is [numchan] and whose frame count is the number of whole
    frames in the file after the offset. *)
Theorem bd_init_shape fs path sr numchan dtype rc ff geom offset gain st bytes dt :
  fs path = Some bytes -> np_dtype dtype = Ok dt ->
  bd_init fs path sr numchan dtype rc ff geom offset gain = Ok st ->
  bd_wf st /\ Z.of_nat (length (bd_get_channel_ids st)) = numchan /\
  bd_get_num_frames st = (Z.of_nat (length bytes) - offset) / (numchan * Z.of_nat (itemsize dt)).
Proof.
  intros Hfs Hdt H. pose proof (bd_init_wf _ _ _ _ _ _ _ _ _ _ _ H) as Hwf.
  split; [done|]. unfold bd_init in H. rewrite Hfs, Hdt in H. simpl in H.
  destruct (read_binary bytes numchan dt ff offset) as [m|] eqn:Hm; simpl in H; [|done].
  destruct (read_binary_ok _ _ _ _ _ _ Hm) as (Hpos & _ & Hrows & Hcols & _).
  py_inv. subst st. destruct Hwf as (_ & Hlen & _). simpl in Hlen.
  unfold bd_get_channel_ids, bd_get_num_frames. simpl. rewrite Hlen, Hrows, Hcols.
  assert (0 <= (Z.of_nat (length bytes) - offset) / (numchan * Z.of_nat (itemsize dt))).
  { unfold read_binary in Hm. repeat case_decide; try discriminate. lia. }
  lia.
Qed.

(** C3: with an unsigned dtype named 'uintN' and no gain, get_traces()
    returns every stored value minus [2^(N-1) + 1]: the midpoint
    [2^(N-1)] is read as -1, not 0. *)
Theorem bd_uint_recentre st n :
  bd_wf st -> bd_dtype st = "uint" +:+ str_of_Z n -> bd_gain st = None ->
  bd_get_traces st AllChannels None None =
    Ok (Arr2 (mmap (fun z => inject_Z z - (Qpower 2 (n - 1) + 1))%Q
                (mm_data (bd_timeseries st)))).
Proof.
  intros Hwf Hd Hg. assert (uint_offset (bd_dtype st) = Ok (Some (uint_centre n))) as Hoff.
  { rewrite Hd, uint_offset_uint, py_int_str_of_Z. done. }
  rewrite (bd_get_traces_full st _ Hwf Hoff). unfold bd_full, bd_calibrate. rewrite Hg.
  by rewrite mmap_compose.
Qed.

(** C7: a dtype spelled 'u2' is read by numpy as uint16, yet get_traces()
    returns the stored values unshifted: the unsigned branch tests the
    spelling of the argument, not the dtype. *)
Theorem bd_u2_not_recentred fs path sr numchan rc ff offset st :
  bd_init fs path sr numchan (DtName "u2") rc ff None offset None = Ok st ->
  np_dtype (DtName "u2") = Ok (mk_dtype false 2 false) /\
  bd_get_traces st AllChannels None None =
    Ok (Arr2 (mmap inject_Z (mm_data (bd_timeseries st)))).
Proof.
  intros H. split; [reflexivity|]. pose proof (bd_init_wf _ _ _ _ _ _ _ _ _ _ _ H) as Hwf.
  unfold bd_init in H. py_inv. subst st.
  rewrite (bd_get_traces_full _ None Hwf); [reflexivity|]. reflexivity.
Qed.

(** C9: with a signed dtype and a gain, get_traces() multiplies each
    stored value by the gain exactly once. *)
Theorem bd_gain_applied st g :
  bd_wf st -> str_startswith "uint" (bd_dtype st) = false -> bd_gain st = Some g ->
  bd_get_traces st AllChannels None None =
    Ok (Arr2 (mmap (fun z => inject_Z z * g)%Q (mm_data (bd_timeseries st)))).
Proof.
  intros Hwf Hd Hg. rewrite (bd_get_traces_full st None Hwf) by (by apply uint_offset_not_uint).
  unfold bd_full, bd_calibrate. rewrite Hg. by rewrite mmap_compose.
Qed.

(** C10: construction raises AssertionError when the explicit channel list
    does not have one id per row of the store. *)
Theorem bd_init_wrong_length fs path sr numchan dtype rc ff geom offset gain bytes dt m :
  fs path = Some bytes -> np_dtype dtype = Ok dt ->
  read_binary bytes numchan dt ff offset = Ok m -> length rc <> mm_rows m ->
  bd_init fs path sr numchan dtype (Some rc) ff geom offset gain =
    Err (AssertionError "Provided recording channels have the wrong length").
Proof.
  intros Hfs Hdt Hm Hlen. unfold bd_init. rewrite Hfs, Hdt. simpl. rewrite Hm. simpl.
  by rewrite bool_decide_false.
Qed.

(** C8: with a geometry, construction attaches each location to the row
    index [m] used as a channel id; an explicit channel list that does
    not contain 0 makes it raise ValueError for channel 0. *)
Theorem bd_init_geom_row_ids fs path sr numchan dtype rc ff g offset gain bytes dt m loc :
  fs path = Some bytes -> np_dtype dtype = Ok dt ->
  read_binary bytes numchan dt ff offset = Ok m -> length rc = mm_rows m ->
  g !! 0%nat = Some loc -> 0 ∉ rc ->
  bd_init fs path sr numchan dtype (Some rc) ff (Some g) offset gain =
    Err (ValueError "0 is not a valid channel_id").
Proof.
  intros Hfs Hdt Hm Hlen Hg H0. unfold bd_init. rewrite Hfs, Hdt. simpl. rewrite Hm. simpl.
  rewrite bool_decide_true by done. simpl.
  destruct (read_binary_ok _ _ _ _ _ _ Hm) as (Hpos & _ & Hrows & _).
  destruct (mm_rows m) as [|r] eqn:Er; [lia|]. simpl.
  rewrite (py_item_in g 0 loc) by (by eapply lookup_lt_Some || done). simpl.
  by rewrite set_channel_property_err.
Qed.


(** C4: BinDat's write_recording passes [time_axis] and [chunksize] on
    (line 95): for any recording that meets the read contract and any
    positive chunk size, writing [chunksize]-frame blocks along
    [time_axis = 0] gives the file of the one-shot write; along another
    axis the one-shot write succeeds while the chunked one raises the
    writer's AssertionError. *)
Theorem bd_write_chunked_equiv {R} `{Recording R} {wf} `{!ReadContract R wf} (r : R) dt cs ta :
  wf r -> 0 <= get_num_frames r -> 0 < cs -> ta <> 0 ->
  bd_write_recording r 0 dt (Some cs) = bd_write_recording r 0 dt None /\
  bd_write_recording r ta dt (Some cs) =
    Err (AssertionError "chunked writting work only with time_axis 0") /\
  is_ok (bd_write_recording r ta dt None) = true.
Proof.
  intros Hwf Hn Hcs Hta. unfold bd_write_recording. split; [by apply write_chunked_equiv|].
  unfold write_to_binary_dat_format. rewrite bool_decide_false by done. split; [done|].
  destruct (contract_full r Hwf) as [full [Hfull _]]. by rewrite Hfull.
Qed.

(** C37: with the default channel list and a geometry, a constructed
    extractor gives each channel [m] the location [geom[m, :]], the row
    [m] of the geometry (lines 45-47). *)
Theorem bd_init_geom_locations fs path sr numchan dtype ff g offset gain st :
  bd_init fs path sr numchan dtype None ff (Some g) offset gain = Ok st ->
  forall ch, ch ∈ bd_get_channel_ids st ->
    get_channel_property (bd_props st) ch "location" = PLocation <$> g !! Z.to_nat ch.
Proof.
  unfold bd_init. intros H ch Hch. py_inv. subst st. unfold bd_get_channel_ids in *. simpl in *.
  subst.
  destruct (set_locations_get _ _ _ _ _ ch (NoDup_py_range _) Hm3 Hch) as (loc & Hloc & ->).
  apply elem_of_py_range in Hch. by rewrite (py_item_ok_nonneg _ _ _ (proj1 Hch) Hloc).
Qed.

(** C33: BinDat's get_traces is well typed: on a constructed state, a
    successful read is a 2-D array with one row per requested channel
    (all of them when none is given) and as many frames as Python's slice
    [start_frame:end_frame] of the recording has, for any bounds; an int
    channel id never succeeds. *)
Theorem bd_traces_type st : bd_wf st -> traces_type_law st.
Proof.
  intros Hwf sel s e t H. simpl in H.
  destruct (bd_get_traces_shape _ _ _ _ _ Hwf H) as (idx & m & Hidx & -> & Hm).
  destruct sel as [|ch|chs]; simpl in Hidx; [| discriminate |].
  - injection Hidx as <-. rewrite length_py_range in Hm.
    destruct Hwf as (_ & Hlen & _). simpl. unfold bd_get_channel_ids. by rewrite Hlen.
  - unfold py_map in Hidx. py_inv. subst idx. rewrite length_map in Hm.
    apply py_mapM_ok_length in Hm0. by rewrite Hm0 in Hm.
Qed.

(** C34: with a dtype named 'uintN' and no gain, every value get_traces()
    returns from a constructed extractor, for any channels and frames,
    lies in [-2^(N-1) - 1, 2^(N-1) - 2]: the stored value is an N-bit
    unsigned integer and the offset [2^(N-1) + 1] shifts it there.  For
    uint16 the lower end, -32769, is outside the int16 range. *)
Theorem bd_uint_traces_range fs path sr numchan n rc ff geom offset st bytes sel s e m :
  fs path = Some bytes -> Forall is_byte bytes ->
  bd_init fs path sr numchan (DtName ("uint" +:+ str_of_Z n)) rc ff geom offset None = Ok st ->
  bd_get_traces st sel s e = Ok (Arr2 m) ->
  Forall (Forall (fun q => inject_Z (- 2 ^ (n - 1) - 1) <= q <= inject_Z (2 ^ (n - 1) - 2))%Q) m.
Proof.
  intros Hfs Hb Hinit Ht.
  destruct (np_dtype (DtName ("uint" +:+ str_of_Z n))) as [dt|] eqn:Hdt;
    [|unfold bd_init in Hinit; rewrite Hfs, Hdt in Hinit; discriminate].
  destruct (dtype_of_uint_name n dt (proj1 (py_some_ok _ _ _) Hdt)) as (Hs & Hbits & Hw).
  destruct (bd_init_timeseries _ _ _ _ _ _ _ _ _ _ _ _ _ Hfs Hdt Hinit) as (Hrb & Hd & Hg).
  apply (bd_get_traces_Forall (in_dtype dt) _ st (Some (uint_centre n)) sel s e);
    [by eapply read_binary_range| |intros z Hz|exact Ht].
  - rewrite Hd. simpl. by rewrite uint_offset_uint, py_int_str_of_Z.
  - rewrite Hg. unfold in_dtype, dt_min, dt_max in Hz. rewrite Hs, Hbits in Hz.
    apply uint_recentre_range; [unfold bits in Hbits; lia|done].
Qed.

(** ** Witnesses *)

Lemma ex_u16_state_wf : bd_wf ex_u16_state.
Proof.
  split; [split; [reflexivity|repeat constructor]|].
  split; [reflexivity|]. split; [apply props_wf_empty|reflexivity].
Qed.

Lemma bd_refines_read_contract_witness :
  exists full, full_read_law ex_u16_state full /\ frame_range_law ex_u16_state full /\
    channel_list_law ex_u16_state full /\ unknown_channel_law ex_u16_state.
Proof. apply (bd_refines_read_contract ex_u16_state). exact ex_u16_state_wf. Defined.

Lemma bd_init_shape_witness :
  bd_wf ex_i16_state /\ Z.of_nat (length (bd_get_channel_ids ex_i16_state)) = 2 /\
  bd_get_num_frames ex_i16_state = (Z.of_nat (length ex_i16_bytes) - 0) / (2 * Z.of_nat 2).
Proof.
  apply (bd_init_shape ex_i16_fs "a.dat" 30000 2 (DtName "int16") None true None 0 None
           _ ex_i16_bytes (mk_dtype true 2 false)); vm_compute; reflexivity.
Defined.

Lemma bd_uint_recentre_witness :
  bd_get_traces ex_u16_state AllChannels None None = Ok (Arr2 [[(-1)%Q; (-32769)%Q; 32766%Q]]).
Proof.
  rewrite (bd_uint_recentre ex_u16_state 16); [reflexivity|exact ex_u16_state_wf|reflexivity|reflexivity].
Defined.

Lemma bd_u2_not_recentred_witness :
  np_dtype (DtName "u2") = Ok (mk_dtype false 2 false) /\
  bd_get_traces ex_u2_state AllChannels None None = Ok (Arr2 [[32768%Q; 0%Q; 65535%Q]]).
Proof.
  apply (bd_u2_not_recentred ex_u16_fs "u.dat" 30000 1 None true 0). vm_compute. reflexivity.
Defined.

Lemma bd_gain_applied_witness :
  bd_get_traces ex_i16_gain_state AllChannels None None =
    Ok (Arr2 [[2%Q; 4%Q; 6%Q]; [(-2)%Q; (-4)%Q; (-6)%Q]]).
Proof.
  rewrite (bd_gain_applied ex_i16_gain_state 2); [reflexivity| |reflexivity|reflexivity].
  apply (bd_init_wf ex_i16_fs "a.dat" 30000 2 (DtName "int16") None true None 0 (Some 2%Q)).
  vm_compute. reflexivity.
Defined.

Lemma bd_init_wrong_length_witness :
  bd_init ex_i16_fs "a.dat" 30000 2 (DtName "int16") (Some [0; 1; 2]) true None 0 None =
    Err (AssertionError "Provided recording channels have the wrong length").
Proof.
  apply (bd_init_wrong_length _ _ _ _ _ _ _ _ _ _ ex_i16_bytes (mk_dtype true 2 false)
           (mk_memmap 2 3 [[1; 2; 3]; [-1; -2; -3]])); try reflexivity.
  simpl. lia.
Defined.

Lemma bd_init_geom_row_ids_witness :
  bd_init ex_i16_fs "a.dat" 30000 2 (DtName "int16") (Some [10; 11]) true
    (Some [[0; 0]; [1; 1]]%Q) 0 None = Err (ValueError "0 is not a valid channel_id").
Proof.
  apply (bd_init_geom_row_ids _ _ _ _ _ _ _ _ _ _ ex_i16_bytes (mk_dtype true 2 false)
           (mk_memmap 2 3 [[1; 2; 3]; [-1; -2; -3]]) [0; 0]%Q); try reflexivity.
  repeat (apply not_elem_of_cons; split; [lia|]). apply not_elem_of_nil.
Defined.

Lemma ex_i16_state_wf : bd_wf ex_i16_state.
Proof.
  apply (bd_init_wf ex_i16_fs "a.dat" 30000 2 (DtName "int16") None true None 0 None).
  vm_compute. reflexivity.
Qed.

Lemma bd_write_chunked_equiv_witness :
  bd_write_recording ex_i16_state 0 (mk_dtype true 2 false) (Some 2) =
  bd_write_recording ex_i16_state 0 (mk_dtype true 2 false) None /\
  bd_write_recording ex_i16_state 1 (mk_dtype true 2 false) (Some 2) =
    Err (AssertionError "chunked writting work only with time_axis 0") /\
  is_ok (bd_write_recording ex_i16_state 1 (mk_dtype true 2 false) None) = true.
Proof.
  apply (bd_write_chunked_equiv (wf := bd_wf)
           (ReadContract0 := Build_ReadContract _ _ _ bd_contract_full bd_contract_frames
                               bd_contract_channels bd_contract_unknown));
    [exact ex_i16_state_wf|vm_compute; discriminate|lia|lia].
Defined.


Lemma bd_traces_type_witness : traces_type_law ex_i16_state.
Proof. apply bd_traces_type. exact ex_i16_state_wf. Defined.

Lemma bd_uint_traces_range_witness :
  Forall (Forall (fun q => inject_Z (- 2 ^ (16 - 1) - 1) <= q <= inject_Z (2 ^ (16 - 1) - 2))%Q)
    [[(-1)%Q; (-32769)%Q; 32766%Q]].
Proof.
  apply (bd_uint_traces_range ex_u16_fs "u.dat" 30000 1 16 None true None 0 ex_u16_init_state
           ex_u16_bytes AllChannels None None); [reflexivity|decide_goal|vm_compute; reflexivity..].
Defined.

Lemma bd_init_geom_locations_witness :
  1 ∈ bd_get_channel_ids ex_geom_state /\
  get_channel_property (bd_props ex_geom_state) 1 "location" = Some (PLocation [1; 2]%Q).
Proof.
  assert (1 ∈ bd_get_channel_ids ex_geom_state) as Hin by decide_goal.
  split; [exact Hin|].
  apply (bd_init_geom_locations ex_i16_fs "a.dat" 30000 2 (DtName "int16") true
           [[0; 0]; [1; 2]]%Q 0 None); [vm_compute; reflexivity|exact Hin].
Defined.
