(* ===== verification/MCSH5.v ===== *)
(** * MCSH5RecordingExtractor (mcsh5recordingextractor.py)

    The file is an HDF5 container; [H5File] maps a group path to the
    datasets of an MCS analog stream ([McsStream]: [ChannelData] as a
    2-D int array with its shape, [ChannelDataTimeStamps] as rows of
    ints, [InfoChannel] as a list of [InfoRow]s).  [openMCSH5File]
    (lines 76-124) is the parse with its checks in the order of the code
    (duplicate ids, time stamps, unit, time steps); [mcs_init] is
    [__init__] (lines 24-31) with the [HAVE_MCSH5] flag as an argument;
    [mcs_get_traces] is [get_traces] (lines 45-65), the variable
    [channel_indices] an [option] that stays [None] on the branch that
    never assigns it; [mcs_write_recording] is [write_recording]
    (lines 67-73).  The verbose printing (lines 107-122) and the
    [data_V] it prints are output only and not modelled.

    Physical values are exact rationals: [np.float] rounding is not
    modelled, so the time steps of [np.arange(t0, t2+1) * Tick] are all
    exactly [Tick]; the step check is modelled on an arbitrary list of
    steps ([step_check]) so that what it tests can be stated apart from
    that.  Every successful read has the type of [traces_type_law].
    The class attributes are [mcs_info], whose [installed] is the flag
    [HAVE_MCSH5] of the guarded [import h5py] (lines 6-10). *)

From Stdlib Require Import QArith.Qabs QArith.Qminmax.
From S2P Require Import Prelude PyString PyList NdArray Contract BinaryIO.

(** A row of the [InfoChannel] table (the columns the code reads). *)
Record InfoRow := mk_info {
  ir_unit : string;
  ir_tick : Z;
  ir_exponent : Z;
  ir_conv : Z;
  ir_channel_id : Z;
  ir_label : string
}.

(** The datasets of one analog stream group. *)
Record McsStream := mk_stream {
  st_channel_data : memmap;
  st_timestamps : list (list Z);
  st_info : list InfoRow
}.

(** An open HDF5 file: its groups by path; the file system: the file at
    each existing path. *)
Abbreviation H5File := (gmap string McsStream).
Definition H5Sys := string -> option H5File.

Definition stream_path : string := "/Data/Recording_0/AnalogStream/Stream_0".

Definition installation_mesg : string :=
  "To use the MCSH5RecordingExtractor install h5py: \n\n pip install h5py\n\n".

(** The class attributes (lines 14-22); [installed] is [HAVE_MCSH5],
    whether [import h5py] succeeded (lines 6-10). *)
Definition mcs_info (have_mcsh5 : bool) : ExtractorInfo :=
  mk_class_info "MCSH5RecordingExtractor" false have_mcsh5 false "file"
    [mk_gui "file_path" "file" None None "Path to file (.h5 or .hdf5)"]
    installation_mesg.

(** [rf.require_group(stream_path)] on a file opened read-only: a
    missing group cannot be created. *)
Definition require_group (rf : H5File) : PyResult McsStream :=
  py_some (rf !! stream_path) (ValueError "Unable to create group (no write intent on file)").

(** [info[col][0]]. *)
Definition info_col {X} (col : InfoRow -> X) (info : list InfoRow) : PyResult X :=
  py_item (map col info) 0.

(** [len(np.unique(a))]: the number of distinct values. *)
Definition np_unique_len (a : list Z) : nat := length (remove_dups a).

(** [np.arange(a, b, 1)] on ints. *)
Definition np_arange (a b : Z) : list Z :=
  map (fun k => a + Z.of_nat k) (seq 0 (Z.to_nat (b - a))).

(** [v[1:] - v[0:-1]]. *)
Definition step_diffs (v : list Q) : list Q :=
  zip_with Qminus (py_slice v 1 (Z.of_nat (length v))) (py_slice v 0 (-1)).

(** [np.mean]: the sum over the length (only used on a non-empty list,
    see [step_check]). *)
Definition q_mean (ds : list Q) : Q := (foldr Qplus 0 ds / inject_Z (Z.of_nat (length ds)))%Q.

(** [np.min], which raises on an empty array. *)
Definition np_min (ds : list Q) : PyResult Q :=
  match ds with
  | [] => Err (ValueError "zero-size array to reduction operation minimum which has no identity")
  | d :: ds' => Ok (fold_left Qmin ds' d)
  end.

Definition ppm : Q := 1 # 1000000.

(** [np.abs(t - avg) / avg < 1e-6] as numpy evaluates it: with
    [avg == 0] the quotient is [nan] or [inf] and the test is false. *)
Definition within_ppm (avg t : Q) : bool :=
  if Qeq_bool avg 0 then false else negb (Qle_bool ppm (Qabs (t - avg) / avg)).

(** Lines 100-104 on the successive steps [ds]: the mean, the minimum,
    the "maximum" (computed with [np.min], line 103), the 1 ppm check;
    the mean is returned. *)
Definition step_check (ds : list Q) : PyResult Q :=
  let timestep_avg := q_mean ds in
  let* timestep_min := np_min ds in
  let* timestep_max := np_min ds in
  py_assert (forallb (within_ppm timestep_avg) [timestep_min; timestep_max])
    (AssertionError "Time steps vary by more than 1 ppm");;
  Ok timestep_avg.

(** [np.arange(t0, t2 + 1, 1) * Tick]. *)
Definition time_vals (t0 t2 : Z) (tick : Q) : list Q :=
  map (fun k => inject_Z k * tick)%Q (np_arange t0 (t2 + 1)).

(** The tuple [openMCSH5File] returns. *)
Record McsOpen := mk_open {
  mo_rf : H5File;
  mo_nFrames : Z;
  mo_samplingRate : Q;
  mo_nRecCh : Z;
  mo_channel_ids : list Z;
  mo_electrodeLabels : list string;
  mo_exponent : Z;
  mo_convFact : Z
}.

(** [openMCSH5File(filename)]. *)
Definition openMCSH5File (fs : H5Sys) (filename : string) : PyResult McsOpen :=
  let* rf := py_some (fs filename) (FileNotFoundError filename) in
  let* stream := require_group rf in
  let data := st_channel_data stream in
  let timestamps := st_timestamps stream in
  let info := st_info stream in
  let* unit := info_col ir_unit info in
  let* tick := info_col ir_tick info in
  let* exponent := info_col ir_exponent info in
  let* convFact := info_col ir_conv info in
  let channel_ids := map ir_channel_id info in
  py_assert (bool_decide (np_unique_len channel_ids = length channel_ids))
    (AssertionError "Duplicate MCS channel IDs found");;
  let electrodeLabels := map ir_label info in
  let* ts0 := py_item timestamps 0 in
  let* t0 := py_item ts0 0 in
  let* t2 := py_item ts0 2 in
  let TimeVals := time_vals t0 t2 (inject_Z tick / inject_Z (10 ^ 6))%Q in
  py_assert (bool_decide (unit = "V"))
    (AssertionError ("Unexpected units found, expected volts, found " +:+ unit));;
  let* timestep_avg := step_check (step_diffs TimeVals) in
  Ok (mk_open rf (Z.of_nat (mm_cols data)) (/ timestep_avg)%Q (Z.of_nat (mm_rows data))
        channel_ids electrodeLabels exponent convFact).

(** The extractor: the path and what [openMCSH5File] returned. *)
Record MCSH5 := mk_mcs {
  mcs_recording_file : string;
  mcs_open : McsOpen
}.

(** [MCSH5RecordingExtractor.__init__]. *)
Definition mcs_init (have_mcsh5 : bool) (fs : H5Sys) (file_path : string) : PyResult MCSH5 :=
  py_assert have_mcsh5
    (AssertionError "To use the MCSH5RecordingExtractor install h5py: \n\n pip install h5py\n\n");;
  let* o := openMCSH5File fs file_path in
  Ok (mk_mcs file_path o).

Definition mcs_get_channel_ids (st : MCSH5) : list Z := mo_channel_ids (mcs_open st).
Definition mcs_get_num_frames (st : MCSH5) : Z := mo_nFrames (mcs_open st).
Definition mcs_get_sampling_frequency (st : MCSH5) : Q := mo_samplingRate (mcs_open st).

(** [assert m in self._channel_ids, ...; np.where(self._channel_ids == m)[0][0]]. *)
Definition mcs_channel_index (ids : list Z) (m : Z) : PyResult Z :=
  py_assert (py_in m ids) (AssertionError ("channel_id " +:+ str_of_Z m +:+ " not found"));;
  py_some (option_map Z.of_nat (index_of ids m)) (index_error 0 0).

(** [data * convFact.astype(float) * (10.0 ** exponent)]. *)
Definition mcs_data_V (o : McsOpen) (data : memmap) : list (list Q) :=
  mmap (fun z => inject_Z z * inject_Z (mo_convFact o) * Qpower 10 (mo_exponent o))%Q (mm_data data).

(** [MCSH5RecordingExtractor.get_traces]: [channel_indices] is [None]
    while unassigned, one index for an int id, a list otherwise. *)
Definition mcs_get_traces (st : MCSH5) (sel : ChannelSel) (start_frame end_frame : option Z)
    : PyResult (ndarray Q) :=
  let o := mcs_open st in
  let start := default 0 start_frame in
  let stop := default (mcs_get_num_frames st) end_frame in
  let* channel_indices :=
    match sel with
    | AllChannels => Ok None
    | OneChannel ch => py_map (fun i => Some (inl i)) (mcs_channel_index (mo_channel_ids o) ch)
    | SomeChannels chs =>
        py_map (fun l => Some (inr l)) (py_mapM (mcs_channel_index (mo_channel_ids o)) chs)
    end in
  let* stream := require_group (mo_rf o) in
  let data_V := mcs_data_V o (st_channel_data stream) in
  match channel_indices with
  | None => Err (NameError "channel_indices")
  | Some (inl i) => py_map Arr1 (item_slice data_V i start stop)
  | Some (inr idx) => py_map Arr2 (take_rows_slice data_V idx start stop)
  end.

#[export] Instance McsRec : Recording MCSH5 := {
  get_channel_ids := mcs_get_channel_ids;
  get_num_frames := mcs_get_num_frames;
  get_sampling_frequency := mcs_get_sampling_frequency;
  get_traces := mcs_get_traces
}.

(** [MCSH5RecordingExtractor.write_recording]. *)
Definition mcs_write_recording {R} `{Recording R} (have_mcsh5 : bool) (recording : R)
    (save_path : string) : PyResult unit :=
  py_assert have_mcsh5
    (AssertionError "To use the MCSH5RecordingExtractor install h5py: \n\n pip install h5py\n\n");;
  Err NotImplementedError.

(** An HDF5 dataset is rectangular: every group's [ChannelData] has
    the shape it declares. *)
Definition h5_wf (rf : H5File) : Prop :=
  map_Forall (fun _ s => wf_memmap (st_channel_data s)) rf.

(** The invariant of an opened extractor: its group is there, its data
    is rectangular with [nFrames] columns, and its ids are distinct. *)
Definition mcs_wf (st : MCSH5) : Prop :=
  exists s, require_group (mo_rf (mcs_open st)) = Ok s /\
    wf_memmap (st_channel_data s) /\
    mo_nFrames (mcs_open st) = Z.of_nat (mm_cols (st_channel_data s)) /\
    NoDup (mo_channel_ids (mcs_open st)).

(** The calibrated data [get_traces] slices. *)
Definition mcs_full (st : MCSH5) : list (list Q) :=
  match require_group (mo_rf (mcs_open st)) with
  | Ok s => mcs_data_V (mcs_open st) (st_channel_data s)
  | Err _ => []
  end.

(** ** Example files (used by the witnesses) *)

(** A stream of two channels of three frames, tick 50 us, the second row
    of the info table with another conversion factor. *)
Definition ex_stream_of (u : string) (tick : Z) (ids : list Z) (ts : list (list Z)) : McsStream :=
  mk_stream (mk_memmap 2 3 [[1; 2; 3]; [4; 5; 6]]) ts
    (zip_with (fun c id => mk_info u tick (-9) c id "E") [1; 3] ids).

Definition ex_fs_of (s : McsStream) : H5Sys :=
  fun p => if decide (p = "rec.h5") then Some {[stream_path := s]} else None.

Definition ex_stream : McsStream := ex_stream_of "V" 50 [7; 9] [[0; 0; 2]].

Definition ex_mcs_state : MCSH5 := Eval vm_compute in
  match mcs_init true (ex_fs_of ex_stream) "rec.h5" with
  | Ok st => st
  | Err _ => mk_mcs "" (mk_open ∅ 0 0 0 [] [] 0 0)
  end.

(** Steps whose minimum is the mean to within 1 ppm but whose maximum is
    2 ppm above the minimum. *)
Definition ex_steps : list Q := [1; 1; 1 + (2 # 1000000)]%Q.

(** ** The duplicate check *)

Lemma length_remove_dups (a : list Z) : (length (remove_dups a) <= length a)%nat.
Proof. induction a as [|x a IH]; simpl; [lia|]. case_decide; simpl; lia. Qed.

Lemma np_unique_len_NoDup (a : list Z) : np_unique_len a = length a <-> NoDup a.
Proof.
  unfold np_unique_len. induction a as [|x a IH]; simpl; [split; [constructor|done]|].
  pose proof (length_remove_dups a).
  case_decide as Hx.
  - split; [lia|]. intros Hnd. by apply NoDup_cons in Hnd as [? _].
  - simpl. rewrite NoDup_cons. split; [intros [= ?]; split; [done|by apply IH]|].
    intros [_ ?%IH]. lia.
Qed.

(** ** The time steps *)

Lemma length_step_diffs v : length (step_diffs v) = (length v - 1)%nat.
Proof.
  unfold step_diffs. rewrite length_zip_with, !length_py_slice.
  unfold slice_index. repeat case_decide; lia.
Qed.

Lemma lookup_step_diffs v k :
  (S k < length v)%nat ->
  step_diffs v !! k = (x ← v !! S k; y ← v !! k; Some (x - y)%Q).
Proof.
  intros Hk. unfold step_diffs. rewrite lookup_zip_with.
  rewrite (lookup_py_slice v 1 _ k) by lia.
  assert (py_slice v 0 (-1) = py_slice v 0 (Z.of_nat (length v) - 1)) as ->.
  { unfold py_slice, slice_index. repeat case_decide; f_equal; lia. }
  rewrite (lookup_py_slice v 0 _ k) by lia. done.
Qed.

Lemma length_time_vals t0 t2 tick : length (time_vals t0 t2 tick) = Z.to_nat (t2 + 1 - t0).
Proof. unfold time_vals, np_arange. by rewrite !length_map, length_seq. Qed.

Lemma lookup_time_vals t0 t2 tick k :
  (k < Z.to_nat (t2 + 1 - t0))%nat ->
  time_vals t0 t2 tick !! k = Some (inject_Z (t0 + Z.of_nat k) * tick)%Q.
Proof.
  intros Hk. unfold time_vals, np_arange. rewrite !list_lookup_fmap, lookup_seq_lt by done.
  done.
Qed.

(** Every step of [np.arange(t0, t2 + 1) * tick] is exactly [tick]. *)
Lemma time_steps_const t0 t2 tick :
  Forall (fun d => d == tick)%Q (step_diffs (time_vals t0 t2 tick)).
Proof.
  apply Forall_lookup_2. intros k d Hd.
  pose proof (lookup_lt_Some _ _ _ Hd) as Hk.
  rewrite length_step_diffs, length_time_vals in Hk.
  rewrite lookup_step_diffs in Hd by (rewrite length_time_vals; lia).
  rewrite !lookup_time_vals in Hd by lia. simpl in Hd. injection Hd as <-.
  rewrite Nat2Z.inj_succ, <- Z.add_1_r, !inject_Z_plus. change (inject_Z 1) with 1%Q. ring.
Qed.

Lemma length_time_steps t0 t2 tick :
  length (step_diffs (time_vals t0 t2 tick)) = (Z.to_nat (t2 + 1 - t0) - 1)%nat.
Proof. by rewrite length_step_diffs, length_time_vals. Qed.

(** ** Means, minima and the 1 ppm test on constant steps *)

Lemma foldr_Qplus_const c ds :
  Forall (fun d => d == c)%Q ds -> (foldr Qplus 0 ds == inject_Z (Z.of_nat (length ds)) * c)%Q.
Proof.
  induction 1 as [|d ds Hd _ IH]; simpl; [reflexivity|].
  rewrite Hd, IH, Nat2Z.inj_succ, <- Z.add_1_r, inject_Z_plus. ring.
Qed.

Lemma q_mean_const c ds : ds <> [] -> Forall (fun d => d == c)%Q ds -> (q_mean ds == c)%Q.
Proof.
  intros Hne Hall. unfold q_mean. rewrite (foldr_Qplus_const c ds Hall).
  assert (~ inject_Z (Z.of_nat (length ds)) == 0)%Q as Hn.
  { intros H. unfold Qeq in H. simpl in H. apply Hne, length_zero_iff_nil. lia. }
  field. exact Hn.
Qed.

Lemma fold_Qmin_const c ds d :
  Forall (fun x => x == c)%Q ds -> (d == c)%Q -> (fold_left Qmin ds d == c)%Q.
Proof.
  intros Hall. revert d. induction Hall as [|x ds Hx _ IH]; intros d Hd; simpl; [done|].
  apply IH. rewrite Hd, Hx. apply Q.min_id.
Qed.

(** The 1 ppm test respects equality of rationals. *)
#[export] Instance within_ppm_proper : Proper (Qeq ==> Qeq ==> eq) within_ppm.
Proof.
  intros a a' Ha t t' Ht. unfold within_ppm.
  assert (Qeq_bool a 0 = Qeq_bool a' 0) as ->.
  { apply eq_true_iff_eq. by rewrite !Qeq_bool_iff, Ha. }
  destruct (Qeq_bool a' 0); [done|]. f_equal.
  apply eq_true_iff_eq. by rewrite !Qle_bool_iff, Ha, Ht.
Qed.

Lemma within_ppm_eq avg t : ~ (avg == 0)%Q -> (t == avg)%Q -> within_ppm avg t = true.
Proof.
  intros Havg ->. unfold within_ppm.
  destruct (Qeq_bool avg 0) eqn:E; [by apply Qeq_bool_iff in E|].
  apply negb_true_iff, not_true_iff_false. rewrite Qle_bool_iff.
  unfold Qminus. rewrite Qplus_opp_r. unfold Qdiv. rewrite Qmult_0_l.
  unfold ppm, Qle. simpl. lia.
Qed.

Lemma within_ppm_zero avg t : (avg == 0)%Q -> within_ppm avg t = false.
Proof. intros H. unfold within_ppm. by rewrite (proj2 (Qeq_bool_iff _ _) H). Qed.

(** ** The step check *)

Lemma step_check_const ds c :
  ds <> [] -> Forall (fun d => d == c)%Q ds -> ~ (c == 0)%Q ->
  exists avg, step_check ds = Ok avg /\ (avg == c)%Q.
Proof.
  intros Hne Hall Hc. pose proof (q_mean_const c ds Hne Hall) as Hm.
  destruct ds as [|d ds']; [done|]. inversion Hall as [|? ? Hd Hall']; subst.
  unfold step_check. set (avg := q_mean _) in *. cbn [np_min py_bind].
  assert (within_ppm avg (fold_left Qmin ds' d) = true) as Hw.
  { apply within_ppm_eq; [by rewrite Hm|]. rewrite Hm. by apply fold_Qmin_const. }
  cbn [forallb]. rewrite Hw. simpl. eauto.
Qed.

Lemma step_check_zero ds :
  ds <> [] -> Forall (fun d => d == 0)%Q ds ->
  step_check ds = Err (AssertionError "Time steps vary by more than 1 ppm").
Proof.
  intros Hne Hall. pose proof (q_mean_const 0 ds Hne Hall) as Hm.
  destruct ds as [|d ds']; [done|].
  unfold step_check. set (avg := q_mean _) in *. cbn [np_min py_bind forallb].
  by rewrite (within_ppm_zero avg).
Qed.

(** ** Opening a file *)

Section Open.
Context (fs : H5Sys) (filename : string) (rf : H5File) (s : McsStream)
  (i0 : InfoRow) (irs : list InfoRow).
Hypothesis Hfs : fs filename = Some rf.
Hypothesis Hgrp : rf !! stream_path = Some s.
Hypothesis Hinfo : st_info s = i0 :: irs.

(** The file and group exist and the info table has a first row: the
    parse reaches the duplicate check with that row's columns. *)
Lemma openMCSH5File_unfold :
  openMCSH5File fs filename =
    (py_assert (bool_decide (np_unique_len (map ir_channel_id (st_info s)) = length (map ir_channel_id (st_info s))))
       (AssertionError "Duplicate MCS channel IDs found");;
     let* ts0 := py_item (st_timestamps s) 0 in
     let* t0 := py_item ts0 0 in
     let* t2 := py_item ts0 2 in
     py_assert (bool_decide (ir_unit i0 = "V"))
       (AssertionError ("Unexpected units found, expected volts, found " +:+ ir_unit i0));;
     let* avg := step_check (step_diffs (time_vals t0 t2 (inject_Z (ir_tick i0) / inject_Z (10 ^ 6))%Q)) in
     Ok (mk_open rf (Z.of_nat (mm_cols (st_channel_data s))) (/ avg)%Q
           (Z.of_nat (mm_rows (st_channel_data s))) (map ir_channel_id (st_info s)) (map ir_label (st_info s))
           (ir_exponent i0) (ir_conv i0))).
Proof.
  unfold openMCSH5File, require_group, info_col. rewrite Hfs. simpl py_bind. rewrite Hgrp.
  simpl py_bind.  rewrite Hinfo. reflexivity.
Qed.

Context (t0 t1 t2 : Z) (ts : list Z) (tss : list (list Z)).
Hypothesis Hts : st_timestamps s = (t0 :: t1 :: t2 :: ts) :: tss.

(** With distinct (map ir_channel_id (st_info s)) and unit volts, the parse ends in the step check
    of the segment [t0 .. t2]. *)
Lemma openMCSH5File_steps :
  NoDup (map ir_channel_id (st_info s)) -> ir_unit i0 = "V" ->
  openMCSH5File fs filename =
    (let* avg := step_check (step_diffs (time_vals t0 t2 (inject_Z (ir_tick i0) / inject_Z (10 ^ 6))%Q)) in
     Ok (mk_open rf (Z.of_nat (mm_cols (st_channel_data s))) (/ avg)%Q
           (Z.of_nat (mm_rows (st_channel_data s))) (map ir_channel_id (st_info s)) (map ir_label (st_info s))
           (ir_exponent i0) (ir_conv i0))).
Proof.
  intros Hnd Hu. rewrite openMCSH5File_unfold.
  rewrite bool_decide_true by (by apply np_unique_len_NoDup). simpl py_bind.
  rewrite Hts. simpl py_bind. by rewrite bool_decide_true by done.
Qed.

(** The parse succeeds on a segment of at least two samples and a
    non-zero tick, with sampling rate [1e6 / Tick]. *)
Lemma openMCSH5File_ok :
  NoDup (map ir_channel_id (st_info s)) -> ir_unit i0 = "V" -> t0 + 1 <= t2 -> ir_tick i0 <> 0 ->
  exists o, openMCSH5File fs filename = Ok o /\
    (mo_samplingRate o == inject_Z (10 ^ 6) / inject_Z (ir_tick i0))%Q /\
    o = mk_open rf (Z.of_nat (mm_cols (st_channel_data s))) (mo_samplingRate o)
          (Z.of_nat (mm_rows (st_channel_data s))) (map ir_channel_id (st_info s)) (map ir_label (st_info s))
          (ir_exponent i0) (ir_conv i0).
Proof.
  intros Hnd Hu Hseg Htick. rewrite openMCSH5File_steps by done.
  set (tick := (inject_Z (ir_tick i0) / inject_Z (10 ^ 6))%Q).
  assert (~ (tick == 0)%Q) as Ht.
  { unfold tick, Qeq, Qdiv. simpl. rewrite Z.mul_1_r. nia. }
  assert (step_diffs (time_vals t0 t2 tick) <> []) as Hne.
  { intros H. apply (f_equal length) in H. rewrite length_time_steps in H. simpl in H. lia. }
  destruct (step_check_const _ tick Hne (time_steps_const t0 t2 tick) Ht) as (avg & -> & Havg).
  simpl py_bind. eexists. split; [reflexivity|]. split; [|reflexivity]. simpl.
  rewrite Havg. unfold tick. field.
  split; [unfold Qeq; simpl; lia|intros H; apply Htick; unfold Qeq in H; simpl in H; lia].
Qed.
End Open.

(** ** The invariant *)

Lemma mcs_init_wf b fs path st :
  (forall p rf, fs p = Some rf -> h5_wf rf) -> mcs_init b fs path = Ok st -> mcs_wf st.
Proof.
  intros Hh5 H. unfold mcs_init, openMCSH5File in H. py_inv. subst. simpl.
  match goal with
  | Hf : fs path = Some ?rf, Hg : require_group ?rf = Ok ?s,
    Hd : py_assert (bool_decide (np_unique_len _ = _)) _ = Ok ?u |- _ =>
      exists s; split; [done|]; unfold require_group in Hg; apply py_some_ok in Hg;
      destruct u; apply py_assert_ok, bool_decide_eq_true, np_unique_len_NoDup in Hd;
      split; [exact (Hh5 _ _ Hf _ _ Hg)|done]
  end.
Qed.

(** ** Reading *)

Lemma mcs_channel_index_ok ids ch i :
  index_of ids ch = Some i -> mcs_channel_index ids ch = Ok (Z.of_nat i).
Proof.
  intros Hi. unfold mcs_channel_index, py_in.
  rewrite bool_decide_true; [simpl; by rewrite Hi|].
  apply index_of_Some in Hi as [Hi _]. by eapply list_elem_of_lookup_2.
Qed.

Lemma mcs_channel_index_unknown ids ch :
  ch ∉ ids ->
  mcs_channel_index ids ch = Err (AssertionError ("channel_id " +:+ str_of_Z ch +:+ " not found")).
Proof. intros H. unfold mcs_channel_index, py_in. by rewrite bool_decide_false. Qed.

Lemma mcs_channel_index_is_ok ids ch : ch ∈ ids -> is_ok (mcs_channel_index ids ch) = true.
Proof.
  intros Hch. destruct (index_of ids ch) as [i|] eqn:Hi; [by rewrite (mcs_channel_index_ok _ _ i)|].
  by apply index_of_None in Hi.
Qed.

Lemma length_mcs_data_V o m : length (mcs_data_V o m) = length (mm_data m).
Proof. unfold mcs_data_V, mmap. by rewrite length_map. Qed.

Lemma mcs_data_V_shape o m : wf_memmap m -> is_matrix (mm_rows m) (mm_cols m) (mcs_data_V o m).
Proof. apply mmap_shape. Qed.

(** ** Properties of the adapter *)

(** C11: opening a file whose group and info table exist, whose channel
    ids are distinct, whose unit is volts and whose reference segment
    has at least two samples and a non-zero tick succeeds: the sampling
    rate is [1e6 / Tick] (negative for a negative tick), the ids and the
    frame count are the table's and the data's, and every channel is
    calibrated with the conversion factor and exponent of the first row
    of the info table. *)
Theorem mcs_init_ok fs path rf s i0 irs t0 t1 t2 ts tss :
  fs path = Some rf -> rf !! stream_path = Some s -> st_info s = i0 :: irs ->
  st_timestamps s = (t0 :: t1 :: t2 :: ts) :: tss ->
  NoDup (map ir_channel_id (st_info s)) -> ir_unit i0 = "V" -> t0 + 1 <= t2 -> ir_tick i0 <> 0 ->
  exists st, mcs_init true fs path = Ok st /\
    (mcs_get_sampling_frequency st == inject_Z (10 ^ 6) / inject_Z (ir_tick i0))%Q /\
    mcs_get_channel_ids st = map ir_channel_id (st_info s) /\
    mcs_get_num_frames st = Z.of_nat (mm_cols (st_channel_data s)) /\
    mcs_full st = mmap (fun z => inject_Z z * inject_Z (ir_conv i0) * Qpower 10 (ir_exponent i0))%Q
                    (mm_data (st_channel_data s)).
Proof.
  intros Hfs Hg Hi Hts Hnd Hu Hseg Htick.
  destruct (openMCSH5File_ok fs path rf s i0 irs Hfs Hg Hi t0 t1 t2 ts tss Hts Hnd Hu Hseg Htick)
    as (o & Ho & Hsr & Heq).
  exists (mk_mcs path o). unfold mcs_init. cbn [py_assert py_bind]. rewrite Ho.
  split; [done|]. unfold mcs_get_sampling_frequency, mcs_get_channel_ids, mcs_get_num_frames, mcs_full.
  simpl. split; [done|]. rewrite Heq. simpl. unfold require_group. rewrite Hg. done.
Qed.

(** C12: get_traces with a list of known ids and a frame range reads,
    for each id in the requested order, its row of the calibrated data
    sliced to the range (when the info table has one id per data row). *)
Theorem mcs_channel_list st :
  mcs_wf st -> length (mcs_get_channel_ids st) = length (mcs_full st) ->
  channel_list_law st (mcs_full st).
Proof.
  intros (s & Hs & Hm & Hn & Hnd) Hlen chs a b Hchs _ _. simpl in Hchs |- *.
  unfold mcs_full in Hlen |- *. rewrite Hs in Hlen |- *.
  destruct (py_mapM_index (mcs_channel_index (mcs_get_channel_ids st)) (mcs_get_channel_ids st) chs
              (mcs_channel_index_ok _) Hchs) as (idxs & Hidx & Hf).
  destruct (py_take_in (mcs_data_V (mcs_open st) (st_channel_data s)) idxs
              (index_rows_in _ _ _ _ (eq_sym Hlen) Hf)) as (R & HR & HRf).
  exists R. unfold mcs_get_traces. unfold mcs_get_channel_ids in Hidx. rewrite Hidx. simpl.
  rewrite Hs. simpl. unfold take_rows_slice. rewrite HR. split; [done|].
  exact (index_rows_select _ _ _ _ _ Hf HRf).
Qed.

(** C13: get_traces with a list whose first unknown id is [ch] raises
    AssertionError('channel_id ch not found'). *)
Theorem mcs_unknown_channel st pre ch post sf ef :
  Forall (fun c => c ∈ mcs_get_channel_ids st) pre -> ch ∉ mcs_get_channel_ids st ->
  mcs_get_traces st (SomeChannels (pre ++ ch :: post)) sf ef =
    Err (AssertionError ("channel_id " +:+ str_of_Z ch +:+ " not found")).
Proof.
  intros Hpre Hch. unfold mcs_get_channel_ids in *. unfold mcs_get_traces. cbv zeta.
  rewrite (py_mapM_first_err _ pre ch post _
             (Forall_impl _ _ _ Hpre (mcs_channel_index_is_ok _)) (mcs_channel_index_unknown _ _ Hch)).
  done.
Qed.

(** C14: get_traces without channel ids never succeeds: it raises
    NameError, since the branch that sets [channel_ids] never assigns
    [channel_indices], unless the stream group is already missing; so
    no extractor meets the full-read law of the read contract. *)
Theorem mcs_no_full_read st sf ef :
  mcs_get_traces st AllChannels sf ef =
    Err (match require_group (mo_rf (mcs_open st)) with
         | Ok _ => NameError "channel_indices"
         | Err e => e
         end) /\
  forall full, ~ full_read_law st full.
Proof.
  assert (forall sf ef, mcs_get_traces st AllChannels sf ef =
    Err (match require_group (mo_rf (mcs_open st)) with
         | Ok _ => NameError "channel_indices" | Err e => e end)) as H.
  { intros. unfold mcs_get_traces. simpl. by destruct (require_group _). }
  split; [apply H|]. intros full [Hf _]. simpl in Hf. by rewrite H in Hf.
Qed.

(** C15: opening a file whose channel-id table has a repeated id raises
    AssertionError('Duplicate MCS channel IDs found'). *)
Theorem mcs_init_duplicate_ids fs path rf s i0 irs :
  fs path = Some rf -> rf !! stream_path = Some s -> st_info s = i0 :: irs ->
  ~ NoDup (map ir_channel_id (st_info s)) ->
  mcs_init true fs path = Err (AssertionError "Duplicate MCS channel IDs found").
Proof.
  intros Hfs Hg Hi Hd. unfold mcs_init. cbn [py_assert py_bind].
  rewrite (openMCSH5File_unfold fs path rf s i0 irs Hfs Hg Hi).
  rewrite bool_decide_false; [done|]. by rewrite np_unique_len_NoDup.
Qed.

(** C16: with distinct ids, a unit other than volts raises
    AssertionError('Unexpected units found, expected volts, found u'). *)
Theorem mcs_init_bad_unit fs path rf s i0 irs t0 t1 t2 ts tss :
  fs path = Some rf -> rf !! stream_path = Some s -> st_info s = i0 :: irs ->
  st_timestamps s = (t0 :: t1 :: t2 :: ts) :: tss ->
  NoDup (map ir_channel_id (st_info s)) -> ir_unit i0 <> "V" ->
  mcs_init true fs path =
    Err (AssertionError ("Unexpected units found, expected volts, found " +:+ ir_unit i0)).
Proof.
  intros Hfs Hg Hi Hts Hd Hu. unfold mcs_init. cbn [py_assert py_bind].
  rewrite (openMCSH5File_unfold fs path rf s i0 irs Hfs Hg Hi).
  rewrite bool_decide_true by (by apply np_unique_len_NoDup). simpl py_bind.
  rewrite Hts. simpl py_bind. by rewrite bool_decide_false.
Qed.

(** C17: the step check depends on the minimum step only: the value it
    tests as the maximum is computed with [np.min], so the check passes
    exactly when the minimum is within 1 ppm of the mean. *)
Theorem step_check_min_only ds d :
  np_min ds = Ok d ->
  step_check ds = if within_ppm (q_mean ds) d then Ok (q_mean ds)
                  else Err (AssertionError "Time steps vary by more than 1 ppm").
Proof. intros H. unfold step_check. rewrite H. simpl. by destruct (within_ppm _ d). Qed.

(** C18: a reference segment of fewer than two samples makes the step
    statistics raise ValueError from [np.min] of an empty array. *)
Theorem mcs_init_short_segment fs path rf s i0 irs t0 t1 t2 ts tss :
  fs path = Some rf -> rf !! stream_path = Some s -> st_info s = i0 :: irs ->
  st_timestamps s = (t0 :: t1 :: t2 :: ts) :: tss ->
  NoDup (map ir_channel_id (st_info s)) -> ir_unit i0 = "V" -> t2 < t0 + 1 ->
  mcs_init true fs path =
    Err (ValueError "zero-size array to reduction operation minimum which has no identity").
Proof.
  intros Hfs Hg Hi Hts Hd Hu Hseg. unfold mcs_init. cbn [py_assert py_bind].
  rewrite (openMCSH5File_steps fs path rf s i0 irs Hfs Hg Hi t0 t1 t2 ts tss Hts Hd Hu).
  match goal with |- context [step_diffs ?v] => destruct (step_diffs v) eqn:E end; [done|].
  apply (f_equal length) in E. rewrite length_time_steps in E. simpl in E. lia.
Qed.

(** C19: a zero tick makes every step and the mean zero; numpy's
    [0/0] is [nan] and the 1 ppm check raises AssertionError. *)
Theorem mcs_init_zero_tick fs path rf s i0 irs t0 t1 t2 ts tss :
  fs path = Some rf -> rf !! stream_path = Some s -> st_info s = i0 :: irs ->
  st_timestamps s = (t0 :: t1 :: t2 :: ts) :: tss ->
  NoDup (map ir_channel_id (st_info s)) -> ir_unit i0 = "V" -> t0 + 1 <= t2 -> ir_tick i0 = 0 ->
  mcs_init true fs path = Err (AssertionError "Time steps vary by more than 1 ppm").
Proof.
  intros Hfs Hg Hi Hts Hd Hu Hseg Ht. unfold mcs_init. cbn [py_assert py_bind].
  rewrite (openMCSH5File_steps fs path rf s i0 irs Hfs Hg Hi t0 t1 t2 ts tss Hts Hd Hu).
  rewrite step_check_zero; [done| |].
  - intros E. apply (f_equal length) in E. rewrite length_time_steps in E. simpl in E. lia.
  - eapply Forall_impl; [apply time_steps_const|]. intros x Hx. rewrite Hx, Ht. reflexivity.
Qed.

(** C20: get_traces with one int id returns a 1-D array: that channel's
    row of the calibrated data, sliced to the frame range. *)
Theorem mcs_get_traces_int st ch i sf ef :
  mcs_wf st -> index_of (mcs_get_channel_ids st) ch = Some i -> (i < length (mcs_full st))%nat ->
  exists row, mcs_full st !! i = Some row /\
    mcs_get_traces st (OneChannel ch) sf ef =
      Ok (Arr1 (py_slice row (default 0 sf) (default (mcs_get_num_frames st) ef))).
Proof.
  intros (s & Hs & _) Hi Hlt. unfold mcs_full in *. rewrite Hs in Hlt |- *.
  destruct (lookup_lt_is_Some_2 _ _ Hlt) as [row Hrow]. exists row. split; [done|].
  unfold mcs_get_traces. cbv zeta. unfold mcs_get_channel_ids in Hi.
  rewrite (mcs_channel_index_ok _ _ _ Hi). simpl. rewrite Hs. simpl.
  unfold item_slice. by rewrite (py_item_in _ i row Hlt Hrow).
Qed.

(** C21: MCSH5's class attributes describe it: [installed] is whether
    h5py imported; without it the constructor raises AssertionError with
    the class's [installation_mesg] before it touches the file; the class
    is not writable, and write_recording never writes: it raises
    NotImplementedError, or the installation message without h5py. *)
Theorem mcs_class_attrs {R} `{Recording R} have_mcsh5 fs path (recording : R) save_path :
  ci_installed (mcs_info have_mcsh5) = have_mcsh5 /\
  mcs_init false fs path = Err (AssertionError (ci_installation_mesg (mcs_info false))) /\
  ci_is_writable (mcs_info have_mcsh5) = false /\
  mcs_write_recording have_mcsh5 recording save_path =
    Err (if ci_installed (mcs_info have_mcsh5) then NotImplementedError
         else AssertionError (ci_installation_mesg (mcs_info have_mcsh5))).
Proof. split; [done|]. split; [reflexivity|]. split; [done|]. by destruct have_mcsh5. Qed.

(** C35: MCSH5's get_traces is well typed: on an opened file, a read
    with one int id is a 1-D array and a read with a list of ids a 2-D
    array with one row per id, each with as many frames as Python's slice
    [start_frame:end_frame] of the recording has, for any bounds; a read
    without ids never succeeds. *)
Theorem mcs_traces_type st : mcs_wf st -> traces_type_law st.
Proof.
  intros (s & Hs & Hm & Hn & _) sel a b t H. simpl in H |- *.
  unfold mcs_get_traces in H. cbv zeta in H.
  pose proof (mcs_data_V_shape (mcs_open st) _ Hm) as Hd.
  unfold slice_len, mcs_get_num_frames in *. rewrite Hn in *.
  destruct sel as [|ch|chs]; simpl in H; rewrite ?Hs in H; simpl in H; [discriminate| |].
  - destruct (mcs_channel_index _ ch) as [i|]; simpl in H; [|discriminate].
    rewrite ?Hs in H. unfold item_slice, py_map in H. simpl in H. py_inv. subst.
    match goal with Hi : py_item _ _ = Ok _ |- _ =>
      destruct (py_item_ok_lookup _ _ _ Hi) as (j & Hj & _) end.
    rewrite length_py_slice, (is_matrix_lookup _ _ _ _ _ Hd Hj). done.
  - destruct (py_mapM _ chs) as [idx|] eqn:E; simpl in H; [|discriminate].
    rewrite ?Hs in H. unfold py_map in H. simpl in H. py_inv. subst.
    apply py_mapM_ok_length in E. rewrite <- E.
    match goal with Ht : take_rows_slice _ _ _ _ = Ok _ |- _ =>
      exact (take_rows_slice_shape_any _ _ _ _ _ _ _ Hd Ht) end.
Qed.

(** ** Witnesses *)

(** Discharge a witness's concrete hypotheses: by computation, arithmetic,
    or the decision procedure of the proposition. *)
Ltac concrete_hyps := try reflexivity; try lia; try discriminate; decide_goal.

Lemma ex_mcs_state_wf : mcs_wf ex_mcs_state.
Proof.
  exists ex_stream. split; [reflexivity|]. split; [split; [reflexivity|repeat constructor]|].
  split; [reflexivity|]. decide_goal.
Qed.

Lemma mcs_init_ok_witness :
  exists st, mcs_init true (ex_fs_of ex_stream) "rec.h5" = Ok st /\
    (mcs_get_sampling_frequency st == inject_Z (10 ^ 6) / inject_Z 50)%Q /\
    mcs_get_channel_ids st = [7; 9] /\
    mcs_get_num_frames st = 3 /\
    mcs_full st = mmap (fun z => inject_Z z * inject_Z 1 * Qpower 10 (-9))%Q [[1; 2; 3]; [4; 5; 6]].
Proof.
  apply (mcs_init_ok (ex_fs_of ex_stream) "rec.h5" {[stream_path := ex_stream]} ex_stream
           (mk_info "V" 50 (-9) 1 7 "E") [mk_info "V" 50 (-9) 3 9 "E"] 0 0 2 [] []);
    concrete_hyps.
Defined.

Lemma mcs_channel_list_witness : channel_list_law ex_mcs_state (mcs_full ex_mcs_state).
Proof. apply mcs_channel_list; [exact ex_mcs_state_wf|reflexivity]. Defined.

Lemma mcs_unknown_channel_witness :
  mcs_get_traces ex_mcs_state (SomeChannels ([7] ++ 8 :: [9])) None None =
    Err (AssertionError ("channel_id " +:+ str_of_Z 8 +:+ " not found")).
Proof.
  apply mcs_unknown_channel; decide_goal.
Defined.

Lemma mcs_no_full_read_witness :
  mcs_get_traces ex_mcs_state AllChannels None None = Err (NameError "channel_indices") /\
  forall full, ~ full_read_law ex_mcs_state full.
Proof. apply (mcs_no_full_read ex_mcs_state None None). Defined.

Lemma mcs_init_duplicate_ids_witness :
  mcs_init true (ex_fs_of (ex_stream_of "V" 50 [7; 7] [[0; 0; 2]])) "rec.h5" =
    Err (AssertionError "Duplicate MCS channel IDs found").
Proof.
  apply (mcs_init_duplicate_ids _ _ {[stream_path := ex_stream_of "V" 50 [7; 7] [[0; 0; 2]]]}
           (ex_stream_of "V" 50 [7; 7] [[0; 0; 2]]) (mk_info "V" 50 (-9) 1 7 "E")
           [mk_info "V" 50 (-9) 3 7 "E"]); try reflexivity.
  decide_goal.
Defined.

Lemma mcs_init_bad_unit_witness :
  mcs_init true (ex_fs_of (ex_stream_of "A" 50 [7; 9] [[0; 0; 2]])) "rec.h5" =
    Err (AssertionError ("Unexpected units found, expected volts, found " +:+ "A")).
Proof.
  apply (mcs_init_bad_unit _ _ {[stream_path := ex_stream_of "A" 50 [7; 9] [[0; 0; 2]]]}
           (ex_stream_of "A" 50 [7; 9] [[0; 0; 2]]) (mk_info "A" 50 (-9) 1 7 "E")
           [mk_info "A" 50 (-9) 3 9 "E"] 0 0 2 [] []); concrete_hyps.
Defined.

Lemma step_check_min_only_witness :
  within_ppm (q_mean ex_steps) (1 + (2 # 1000000))%Q = false /\
  step_check ex_steps = Ok (q_mean ex_steps).
Proof.
  split; [vm_compute; reflexivity|].
  rewrite (step_check_min_only ex_steps 1); vm_compute; reflexivity.
Defined.

Lemma mcs_init_short_segment_witness :
  mcs_init true (ex_fs_of (ex_stream_of "V" 50 [7; 9] [[0; 0; 0]])) "rec.h5" =
    Err (ValueError "zero-size array to reduction operation minimum which has no identity").
Proof.
  apply (mcs_init_short_segment _ _ {[stream_path := ex_stream_of "V" 50 [7; 9] [[0; 0; 0]]]}
           (ex_stream_of "V" 50 [7; 9] [[0; 0; 0]]) (mk_info "V" 50 (-9) 1 7 "E")
           [mk_info "V" 50 (-9) 3 9 "E"] 0 0 0 [] []); concrete_hyps.
Defined.

Lemma mcs_init_zero_tick_witness :
  mcs_init true (ex_fs_of (ex_stream_of "V" 0 [7; 9] [[0; 0; 2]])) "rec.h5" =
    Err (AssertionError "Time steps vary by more than 1 ppm").
Proof.
  apply (mcs_init_zero_tick _ _ {[stream_path := ex_stream_of "V" 0 [7; 9] [[0; 0; 2]]]}
           (ex_stream_of "V" 0 [7; 9] [[0; 0; 2]]) (mk_info "V" 0 (-9) 1 7 "E")
           [mk_info "V" 0 (-9) 3 9 "E"] 0 0 2 [] []); concrete_hyps.
Defined.

Lemma mcs_get_traces_int_witness :
  exists row, mcs_full ex_mcs_state !! 1%nat = Some row /\
    mcs_get_traces ex_mcs_state (OneChannel 9) (Some 1) None =
      Ok (Arr1 (py_slice row (default 0 (Some 1)) (default (mcs_get_num_frames ex_mcs_state) None))).
Proof.
  apply mcs_get_traces_int; [exact ex_mcs_state_wf|reflexivity|vm_compute; lia].
Defined.

Lemma mcs_traces_type_witness : traces_type_law ex_mcs_state.
Proof. apply mcs_traces_type. exact ex_mcs_state_wf. Defined.
