(* ===== verification/SpikeGLX.v ===== *)
(** * SpikeGLXRecordingExtractor (spikeglxrecordingextractor.py)

    The environment [SgEnv] is the process's working directory and the
    files by path (text files as their lines, binary files as their
    bytes).  [path_stem], [path_parent] and [path_join] are pathlib's
    [stem], [parent] and [/] on [/]-separated paths.  The helpers of
    readSGLX are not under src/ and are modelled from the spec
    (spec_modelled): [read_meta] (key=value lines of the .meta file next
    to the .bin file; none there gives an empty dict), [make_memmap_raw]
    (the int16 store of [nSavedChans] rows, frame-major) and [samp_rate];
    the per-channel gain formulas [GainCorrectIM]/[GainCorrectNI] are
    the section variables [gain_correct_im]/[gain_correct_ni], about which
    nothing is assumed.

    [parse_spikeglx_metafile] is [_parse_spikeglx_metafile] (lines
    102-127) as a fold of [parse_meta_line] over [readlines()];
    [sg_init] is [__init__] (lines 21-65) with its steps in code order;
    [sg_get_traces] is [get_traces] (lines 77-87); [sg_write_recording]
    is [write_recording] (lines 89-99) for an int dtype.  The text files
    are taken to end with a newline ([readlines] keeps it on each line).
    The theorems also show that the class attributes ([sg_info]:
    default locations, the GUI's pitch defaults) agree with the
    constructor, and that every read has the type of
    [traces_type_law]. *)

From S2P Require Import Prelude PyString PyList NdArray Dtype Contract BinaryIO Properties.
From Stdlib Require Import Ascii.

(** ** pathlib *)

Definition path_parts (p : string) : list string := str_split "/"%char p.

Definition path_name (p : string) : string := default "" (last (path_parts p)).

(** The position of the last [c] in [l]. *)
Fixpoint rfind_char (c : ascii) (l : list ascii) : option nat :=
  match l with
  | [] => None
  | x :: l' =>
      match rfind_char c l' with
      | Some i => Some (S i)
      | None => if decide (x = c) then Some 0%nat else None
      end
  end.

(** [Path(p).stem]: the name without its last suffix; a dot that starts
    or ends the name is no suffix. *)
Definition path_stem (p : string) : string :=
  let cs := chars (path_name p) in
  match rfind_char "."%char cs with
  | Some i => if bool_decide (0 < i < length cs - 1)%nat then of_chars (take i cs) else of_chars cs
  | None => of_chars cs
  end.

(** [Path(p).parent]. *)
Definition path_parent (p : string) : string :=
  match removelast (path_parts p) with
  | [] => "."
  | [""] => "/"
  | ps => str_join "/"%char ps
  end.

(** [Path(d) / n]. *)
Definition path_join (d n : string) : string :=
  if bool_decide (d = ".") then n
  else if bool_decide (d = "/") then "/" +:+ n
  else d +:+ "/" +:+ n.

(** ** The environment *)

Inductive SgFile :=
| TextFile (lines : list string)
| BinFile (bytes : list Z).

Record SgEnv := mk_env {
  env_cwd : string;
  env_files : gmap string SgFile
}.

Definition path_exists (env : SgEnv) (p : string) : bool :=
  bool_decide (is_Some (env_files env !! p)).

(** The lines of a text file, without their newlines. *)
Definition read_text (env : SgEnv) (p : string) : PyResult (list string) :=
  match env_files env !! p with
  | Some (TextFile ls) => Ok ls
  | Some (BinFile _) => Err (ValueError "'utf-8' codec can't decode")
  | None => Err (FileNotFoundError p)
  end.

(** [f.readlines()]. *)
Definition readlines (env : SgEnv) (p : string) : PyResult (list string) :=
  py_map (map (fun l => l +:+ String.String "010"%char EmptyString)) (read_text env p).

Abbreviation Meta := (gmap string string).

(** [meta[key]]. *)
Definition meta_get (meta : Meta) (key : string) : PyResult string :=
  py_some (meta !! key) (KeyError key).

(** ** readSGLX (spec_modelled) *)

(** One [key=value] line; a leading [~] is not part of the key. *)
Definition meta_entry (line : string) : PyResult (string * string) :=
  let cs := str_split "="%char line in
  let* k := py_list_item cs 0 in
  let* v := py_list_item cs 1 in
  let key := match chars k with "~"%char :: r => of_chars r | _ => k end in
  Ok (key, v).

(** [readMeta(binFullPath)]: the .meta file next to the .bin file, as a
    dict (a later key overrides an earlier one); none there gives {}. *)
Definition read_meta (env : SgEnv) (bin : string) : PyResult Meta :=
  let p := path_join (path_parent bin) (path_stem bin +:+ ".meta") in
  if path_exists env p then
    let* ls := read_text env p in
    let* es := py_mapM meta_entry ls in
    Ok (list_to_map (rev es))
  else Ok ∅.

Definition int16le : dtype := mk_dtype true 2 false.

(** [makeMemMapRaw(binFullPath, meta)]: the int16 samples as
    (nSavedChans, nFileSamp), frame-major in the file. *)
Definition make_memmap_raw (env : SgEnv) (bin : string) (meta : Meta) : PyResult memmap :=
  let* s := meta_get meta "nSavedChans" in
  let* nChan := py_int s in
  let* bytes := match env_files env !! bin with
                | Some (BinFile b) => Ok b
                | _ => Err (FileNotFoundError bin)
                end in
  read_binary bytes nChan int16le true 0.

(** [SampRate(meta)]: [imSampRate] of an imec file, else [niSampRate]
    (a non-finite rate is rejected by the model). *)
Definition samp_rate (meta : Meta) : PyResult Q :=
  let* t := meta_get meta "typeThis" in
  let* s := meta_get meta (if bool_decide (t = "imec") then "imSampRate" else "niSampRate") in
  let* f := py_float s in
  match f with
  | FFin q => Ok q
  | FNonFinite => Err (ValueError "non-finite sampling rate")
  end.

(** ** [_parse_spikeglx_metafile] *)

Record MetaParse := mk_parse {
  mp_tot : option Z;
  mp_ap : option Z;
  mp_locs : list (list Q)
}.

(** [line.split(sep)[-1]]. *)
Definition last_field (sep : ascii) (s : string) : PyResult string :=
  py_list_item (str_split sep s) (-1).

(** One [chan] of [map.split(')')[1:]] (lines 122-126). *)
Definition shank_location (x_pitch y_pitch : Q) (locations : list (list Q)) (chan : string)
    : PyResult (list (list Q)) :=
  let chan := str_from 1 chan in
  if bool_decide (0 < String.length chan)%nat then
    let fields := str_split ":"%char chan in
    let* xs := py_list_item fields 1 in
    let* x_pos := py_int xs in
    let* ys := py_list_item fields 2 in
    let* y_pos := py_int ys in
    Ok (locations ++ [[inject_Z x_pos * x_pitch; inject_Z y_pos * y_pitch]%Q])
  else Ok locations.

(** [chans = map.split(')')[1:]; for chan in chans: ...] (lines 119-126). *)
Definition shank_locations (x_pitch y_pitch : Q) (locations : list (list Q)) (m : string)
    : PyResult (list (list Q)) :=
  py_foldM (shank_location x_pitch y_pitch) locations (drop 1 (str_split ")"%char m)).

(** The body of the loop over [f.readlines()] (lines 112-126). *)
Definition parse_meta_line (x_pitch y_pitch : Q) (acc : MetaParse) (line : string)
    : PyResult MetaParse :=
  let* tot :=
    if str_contains "nSavedChans" line then
      let* v := last_field "="%char line in py_map Some (py_int v)
    else Ok (mp_tot acc) in
  let* ap :=
    if str_contains "snsApLfSy" line then
      let* v := last_field "="%char line in
      let* f0 := py_list_item (str_split ","%char v) 0 in
      py_map Some (py_int (str_strip f0))
    else Ok (mp_ap acc) in
  let* _fs :=
    if str_contains "imSampRate" line then
      let* v := last_field "="%char line in py_float v
    else Ok (FFin 0) in
  let* locations :=
    if str_contains "snsShankMap" line then
      let* m := last_field "="%char line in shank_locations x_pitch y_pitch (mp_locs acc) m
    else Ok (mp_locs acc) in
  Ok (mk_parse tot ap locations).

(** [_parse_spikeglx_metafile(metafile, x_pitch, y_pitch)]. *)
Definition parse_spikeglx_metafile (env : SgEnv) (metafile : string) (x_pitch y_pitch : option Q)
    : PyResult MetaParse :=
  let xp := default 21%Q x_pitch in
  let yp := default 20%Q y_pitch in
  let* lines := readlines env metafile in
  py_foldM (parse_meta_line xp yp) (mk_parse None None []) lines.

(** ** The extractor *)

Record SpikeGLX := mk_sg {
  sg_npxfile : string;
  sg_basepath : string;
  sg_ftype : string;
  sg_metafile : string;
  sg_timeseries : memmap;
  sg_samplerate : Q;
  sg_channels : list Z;
  sg_props : ChannelProps
}.

(** The TypeError of [a < b] when [a] or [b] is [None]. *)
Definition py_type_name (o : option Z) : string :=
  match o with Some _ => "int" | None => "NoneType" end.

Definition lt_type_error (a b : option Z) : PyError :=
  TypeError ("'<' not supported between instances of '" +:+ py_type_name a
             +:+ "' and '" +:+ py_type_name b +:+ "'").

(** [ts[0:k, :]]. *)
Definition rows_upto (ts : memmap) (k : Z) : memmap :=
  let d := py_slice (mm_data ts) 0 k in
  mk_memmap (length d) (mm_cols ts) d.

(** Lines 47-51: keep the first [ap_chan] rows when there are fewer AP
    channels than saved channels. *)
Definition sg_restrict (mp : MetaParse) (rawData : memmap) : PyResult (list Z * memmap) :=
  match mp_ap mp, mp_tot mp with
  | Some ap, Some tot =>
      if bool_decide (ap < tot) then Ok (py_range (Z.to_nat ap), rows_upto rawData ap)
      else Ok (py_range (Z.to_nat tot), rawData)
  | a, t => Err (lt_type_error a t)
  end.

(** Lines 54-56: the locations of the channels, when the shank map gave any. *)
Definition sg_locations (mp : MetaParse) (channels : list Z) : PyResult ChannelProps :=
  if bool_decide (0 < length (mp_locs mp))%nat then
    set_locations (py_list_item (mp_locs mp)) channels ∅ (py_range (length channels))
  else Ok ∅.

(** [self._npxfile.cwd().joinpath(self._npxfile.stem + '.meta')]. *)
Definition sg_metafile_of (env : SgEnv) (file_path : string) : string :=
  path_join (env_cwd env) (path_stem file_path +:+ ".meta").

(** The file type from the stem: ['nidq'], or the last two dotted parts. *)
Definition sg_ftype_of (stem : string) : PyResult string :=
  let parts := str_split "."%char stem in
  let* aux := py_list_item parts (-1) in
  if bool_decide (aux = "nidq") then Ok aux
  else
    let* a := py_list_item parts (-2) in
    Ok (a +:+ "." +:+ aux).

(** The class attributes (lines 9-19). *)
Definition sg_info : ExtractorInfo :=
  mk_class_info "SpikeGLXRecordingExtractor" true true true "file"
    [mk_gui "file_path" "file" None None "Path to file";
     mk_gui "x_pitch" "float" (Some (GFloat 21)) (Some (GFloat 21))
       "x_pitch for Neuropixels probe (default 21)";
     mk_gui "y_pitch" "float" (Some (GFloat 20)) (Some (GFloat 20))
       "y_pitch for Neuropixels probe (default 20)"]
    "".

Section Init.
(** [GainCorrectIM] and [GainCorrectNI] of readSGLX. *)
Variables gain_correct_im gain_correct_ni : memmap -> list Z -> Meta -> PyResult (list Q).

(** Lines 59-62: the gains of the file type; another [typeThis] leaves
    [gains] unassigned. *)
Definition sg_gains (meta : Meta) (timeseries : memmap) (channels : list Z) : PyResult (list Q) :=
  let* typeThis := meta_get meta "typeThis" in
  if bool_decide (typeThis = "imec") then gain_correct_im timeseries channels meta
  else if bool_decide (typeThis = "nidq") then gain_correct_ni timeseries channels meta
  else Err (NameError "gains").

(** [SpikeGLXRecordingExtractor.__init__]. *)
Definition sg_init (env : SgEnv) (file_path : string) (x_pitch y_pitch : option Q)
    : PyResult SpikeGLX :=
  let npxfile := file_path in
  let basepath := env_cwd env in
  let* ftype := sg_ftype_of (path_stem npxfile) in
  let metafile := sg_metafile_of env npxfile in
  py_assert (path_exists env metafile)
    (Exception ("'meta' file for '" +:+ ftype +:+ "' traces should be in the same folder."));;
  let* meta := read_meta env npxfile in
  let* rawData := make_memmap_raw env npxfile meta in
  let* samplerate := samp_rate meta in
  let* mp := parse_spikeglx_metafile env metafile x_pitch y_pitch in
  let* '(channels, timeseries) := sg_restrict mp rawData in
  let* props := sg_locations mp channels in
  let* gains := sg_gains meta timeseries channels in
  let* props := set_channel_gains channels props channels (map (fun g => g * 1000000)%Q gains) in
  Ok (mk_sg npxfile basepath ftype metafile timeseries samplerate channels props).
End Init.

Definition sg_get_channel_ids (st : SpikeGLX) : list Z := sg_channels st.
Definition sg_get_num_frames (st : SpikeGLX) : Z := Z.of_nat (mm_cols (sg_timeseries st)).
Definition sg_get_sampling_frequency (st : SpikeGLX) : Q := sg_samplerate st.

(** [SpikeGLXRecordingExtractor.get_traces]: no gain is applied. *)
Definition sg_get_traces (st : SpikeGLX) (sel : ChannelSel) (start_frame end_frame : option Z)
    : PyResult (ndarray Q) :=
  let start := default 0 start_frame in
  let stop := default (sg_get_num_frames st) end_frame in
  let* channel_ids :=
    match sel with
    | AllChannels => Ok (py_range (mm_rows (sg_timeseries st)))
    | OneChannel _ => Err (TypeError "'int' object is not iterable")
    | SomeChannels chs => py_map (map Z.of_nat) (py_mapM (py_index (sg_channels st)) chs)
    end in
  let* recordings := take_rows_slice (mm_data (sg_timeseries st)) channel_ids start stop in
  Ok (Arr2 (mmap inject_Z recordings)).

#[export] Instance SpikeGLXRec : Recording SpikeGLX := {
  get_channel_ids := sg_get_channel_ids;
  get_num_frames := sg_get_num_frames;
  get_sampling_frequency := sg_get_sampling_frequency;
  get_traces := sg_get_traces
}.

(** [SpikeGLXRecordingExtractor.write_recording] with an int dtype: the
    bytes written, frame-major unless [transpose]. *)
Definition sg_write_recording {R} `{Recording R} (recording : R) (dt : dtype) (transpose : bool)
    : PyResult (list Z) :=
  let* traces := get_traces recording AllChannels None None in
  Ok (block_bytes (if transpose then 1 else 0) dt traces).

(** The constructor reaches the channel restriction (line 47) with these
    values: the file type, the meta file in the working directory, the
    metadata, the raw store, the sampling rate and the parse. *)
Definition sg_opened (env : SgEnv) (file_path : string) (x_pitch y_pitch : option Q)
    (ftype : string) (meta : Meta) (rawData : memmap) (samplerate : Q) (mp : MetaParse) : Prop :=
  sg_ftype_of (path_stem file_path) = Ok ftype /\
  path_exists env (sg_metafile_of env file_path) = true /\
  read_meta env file_path = Ok meta /\
  make_memmap_raw env file_path meta = Ok rawData /\
  samp_rate meta = Ok samplerate /\
  parse_spikeglx_metafile env (sg_metafile_of env file_path) x_pitch y_pitch = Ok mp.

(** [map] of a shank map [(hdr)(e1)(e2)...]: the pieces between the
    closing parentheses, each entry [(i:x:y:u)] of ints. *)
Definition shank_entry_body (e : Z * Z * Z * Z) : string :=
  let '(i, x, y, u) := e in
  "(" +:+ str_join ":"%char [str_of_Z i; str_of_Z x; str_of_Z y; str_of_Z u].

Definition shank_map_str (hdr : string) (es : list (Z * Z * Z * Z)) : string :=
  str_join ")"%char (("(" +:+ hdr) :: map shank_entry_body es ++ [""]).

(** The location an entry [(i:x:y:u)] stands for. *)
Definition shank_loc (x_pitch y_pitch : Q) (e : Z * Z * Z * Z) : list Q :=
  let '(_, x, y, _) := e in [inject_Z x * x_pitch; inject_Z y * y_pitch]%Q.

(** The invariant: a rectangular store whose channel ids are its rows. *)
Definition sg_wf (st : SpikeGLX) : Prop :=
  wf_memmap (sg_timeseries st) /\ sg_channels st = py_range (mm_rows (sg_timeseries st)).

(** The full read: the raw int16 store as numbers. *)
Definition sg_full (st : SpikeGLX) : list (list Q) := mmap inject_Z (mm_data (sg_timeseries st)).

(** ** Example files (used by the witnesses) *)

(** A gain formula giving every channel the gain 1/2. *)
Definition ex_gain (ts : memmap) (chs : list Z) (meta : Meta) : PyResult (list Q) :=
  Ok (map (fun _ => 1 # 2)%Q chs).

Definition ex_ok {A} (d : A) (r : PyResult A) : A := match r with Ok a => a | Err _ => d end.

(** A directory /data holding [name.bin] (three int16 channels of two
    frames) and [name.meta] with the given lines. *)
Definition ex_env (cwd name : string) (lines : list string) : SgEnv :=
  mk_env cwd (<["/data/" +:+ name +:+ ".bin" := BinFile (encode_items int16le [1; 2; 3; 4; 5; 6])]>
                {[ "/data/" +:+ name +:+ ".meta" := TextFile lines ]}).

Definition ex_ap_lines : list string :=
  ["nSavedChans=3"; "snsApLfSy=2,0,1"; "imSampRate=30000"; "typeThis=imec";
   "~snsShankMap=(1,2,480)(0:0:0:1)(0:1:3:1)"].

Definition ex_ap_file : string := "/data/r_g0_t0.imec0.ap.bin".
Definition ex_ap_env : SgEnv := ex_env "/data" "r_g0_t0.imec0.ap" ex_ap_lines.

Definition ex_sg_state : SpikeGLX := Eval vm_compute in
  ex_ok (mk_sg "" "" "" "" (mk_memmap 0 0 []) 0 [] ∅)
    (sg_init ex_gain ex_gain ex_ap_env ex_ap_file None None).

(** The values the constructor reaches line 47 with. *)
Definition ex_meta (env : SgEnv) (file : string) : Meta := ex_ok ∅ (read_meta env file).
Definition ex_raw (env : SgEnv) (file : string) : memmap :=
  ex_ok (mk_memmap 0 0 []) (make_memmap_raw env file (ex_meta env file)).
Definition ex_parse (env : SgEnv) (file : string) : MetaParse :=
  ex_ok (mk_parse None None []) (parse_spikeglx_metafile env (sg_metafile_of env file) None None).

(** ** [get_traces] and the read contract *)

Lemma sg_get_traces_all st a b :
  sg_wf st ->
  sg_get_traces st AllChannels (Some a) (Some b) = Ok (Arr2 (col_slice (sg_full st) a b)).
Proof.
  intros ([Hr _] & _). unfold sg_get_traces. simpl. rewrite <- Hr.
  unfold take_rows_slice. rewrite py_take_range. simpl. unfold sg_full. by rewrite mmap_col_slice.
Qed.

Lemma sg_full_shape st :
  sg_wf st -> is_matrix (length (sg_channels st)) (Z.to_nat (sg_get_num_frames st)) (sg_full st).
Proof.
  intros (Hm & Hch). unfold sg_full, sg_get_num_frames. rewrite Nat2Z.id, Hch, length_py_range.
  by apply mmap_shape.
Qed.

Lemma sg_get_traces_full st :
  sg_wf st -> sg_get_traces st AllChannels None None = Ok (Arr2 (sg_full st)).
Proof.
  intros Hwf.
  change (sg_get_traces st AllChannels None None)
    with (sg_get_traces st AllChannels (Some 0) (Some (sg_get_num_frames st))).
  rewrite sg_get_traces_all by done. pose proof (sg_full_shape st Hwf) as Hs.
  unfold sg_get_num_frames in *. rewrite Nat2Z.id in Hs. by rewrite (col_slice_full _ _ _ Hs).
Qed.

Lemma sg_get_traces_channels st chs a b :
  sg_wf st -> Forall (fun ch => ch ∈ sg_channels st) chs ->
  exists rows, sg_get_traces st (SomeChannels chs) (Some a) (Some b) = Ok (Arr2 (col_slice rows a b)) /\
    Forall2 (fun ch row => channel_row st (sg_full st) ch = Some row) chs rows.
Proof.
  intros ([Hr _] & Hch) Hchs.
  destruct (py_index_mapM_ok _ _ Hchs) as (idxs & Hidx & Hf).
  assert (length (mm_data (sg_timeseries st)) = length (sg_channels st)) as Hlen.
  { by rewrite Hr, Hch, length_py_range. }
  destruct (py_take_in _ _ (index_rows_in _ _ _ _ Hlen Hf)) as (R & HR & HRf).
  exists (mmap inject_Z R). unfold sg_get_traces. simpl. rewrite Hidx. simpl.
  unfold take_rows_slice. rewrite HR. simpl. rewrite mmap_col_slice. split; [done|].
  exact (index_rows_select _ _ _ _ _ Hf (Forall2_lookup_mmap inject_Z _ _ _ HRf)).
Qed.

Lemma sg_get_traces_unknown st chs ch s e :
  ch ∈ chs -> ch ∉ sg_channels st ->
  exists ch', sg_get_traces st (SomeChannels chs) s e =
    Err (ValueError (str_of_Z ch' +:+ " is not in list")).
Proof.
  intros Hin Hout. destruct (py_index_mapM_unknown _ _ _ Hin Hout) as [ch' Hch'].
  exists ch'. unfold sg_get_traces. by rewrite Hch'.
Qed.

Lemma sg_full_read st full :
  sg_wf st -> full_read_law st full -> full = sg_full st.
Proof.
  intros Hwf [H _]. simpl in H. rewrite sg_get_traces_full in H by done. by injection H.
Qed.

Lemma sg_contract_full st : sg_wf st -> exists full, full_read_law st full.
Proof.
  intros Hwf. exists (sg_full st).
  split; [by apply sg_get_traces_full|by apply sg_full_shape].
Qed.

Lemma sg_contract_frames st full : sg_wf st -> full_read_law st full -> frame_range_law st full.
Proof. intros Hwf Hfull a b _ _. rewrite (sg_full_read st full) by done. by apply sg_get_traces_all. Qed.

Lemma sg_contract_channels st full : sg_wf st -> full_read_law st full -> channel_list_law st full.
Proof.
  intros Hwf Hfull chs a b Hchs _ _. rewrite (sg_full_read st full) by done.
  by apply sg_get_traces_channels.
Qed.

Lemma sg_contract_unknown st : sg_wf st -> unknown_channel_law st.
Proof.
  intros _ chs ch s e Hin Hout. simpl.
  destruct (sg_get_traces_unknown st chs ch s e Hin Hout) as [ch' ->]. eauto.
Qed.

#[export] Instance SpikeGLX_contract : ReadContract SpikeGLX sg_wf := {|
  contract_full := sg_contract_full;
  contract_frames := sg_contract_frames;
  contract_channels := sg_contract_channels;
  contract_unknown := sg_contract_unknown
|}.

(** ** The stages of the constructor *)

Lemma make_memmap_raw_wf env file meta raw :
  make_memmap_raw env file meta = Ok raw -> wf_memmap raw.
Proof.
  unfold make_memmap_raw. intros H. py_inv. by eapply read_binary_wf.
Qed.

Lemma sg_restrict_channels mp raw chs ts :
  sg_restrict mp raw = Ok (chs, ts) -> exists k, chs = py_range k.
Proof.
  unfold sg_restrict. destruct (mp_ap mp), (mp_tot mp); try discriminate.
  case_bool_decide; intros [= <- _]; eauto.
Qed.

(** With a non-empty shank map, channel [m] gets [locations[m]]. *)
Lemma sg_locations_get mp k props ch :
  mp_locs mp <> [] -> sg_locations mp (py_range k) = Ok props -> ch ∈ py_range k ->
  get_channel_property props ch "location" = PLocation <$> mp_locs mp !! Z.to_nat ch.
Proof.
  intros Hne H Hch. unfold sg_locations in H. rewrite bool_decide_true in H
    by (destruct (mp_locs mp); [done|simpl; lia]).
  rewrite length_py_range in H.
  destruct (set_locations_get _ _ _ _ _ ch (NoDup_py_range k) H Hch) as (loc & Hloc & ->).
  apply elem_of_py_range in Hch. by rewrite (py_list_item_ok_nonneg _ _ _ (proj1 Hch) Hloc).
Qed.

Lemma rows_upto_wf m k :
  wf_memmap m -> 0 <= k <= Z.of_nat (mm_rows m) ->
  wf_memmap (rows_upto m k) /\ mm_rows (rows_upto m k) = Z.to_nat k.
Proof.
  intros [Hr Hc] Hk. unfold rows_upto, wf_memmap, is_matrix. cbn [mm_rows mm_cols mm_data].
  assert (length (py_slice (mm_data m) 0 k) = Z.to_nat k) as Hl.
  { rewrite length_py_slice_in by lia. f_equal. lia. }
  rewrite Hl. split; [split; [done|]|done].
  rewrite py_slice_in by lia. by apply Forall_take, Forall_drop.
Qed.

Lemma sg_restrict_range mp raw chs ts :
  sg_restrict mp raw = Ok (chs, ts) -> exists k, chs = py_range k.
Proof.
  unfold sg_restrict. destruct (mp_ap mp), (mp_tot mp); try discriminate.
  case_bool_decide; intros [= <- _]; eauto.
Qed.

(** A parse with no [snsApLfSy] line leaves [ap_channels] at [None]. *)
Lemma parse_meta_line_no_ap xp yp acc line acc' :
  str_contains "snsApLfSy" line = false -> parse_meta_line xp yp acc line = Ok acc' ->
  mp_ap acc' = mp_ap acc.
Proof.
  intros Hc H. unfold parse_meta_line in H. rewrite Hc in H. py_inv. by subst.
Qed.

Lemma parse_no_ap env mf x y lines mp :
  readlines env mf = Ok lines -> Forall (fun l => str_contains "snsApLfSy" l = false) lines ->
  parse_spikeglx_metafile env mf x y = Ok mp -> mp_ap mp = None.
Proof.
  intros Hl Hall H. unfold parse_spikeglx_metafile in H. rewrite Hl in H. simpl in H. clear Hl.
  change None with (mp_ap (mk_parse None None [])).
  revert H. generalize (mk_parse None None []). induction Hall as [|l ls Hc _ IH]; intros acc H.
  - simpl in H. by injection H as <-.
  - simpl in H. py_inv. rewrite (IH _ H). by eapply parse_meta_line_no_ap.
Qed.

(** The locations loop over [range(len(channels))] with fewer locations
    than channels raises at the first missing one. *)
Lemma set_locations_short locs n ps j :
  (j <= length locs < n)%nat ->
  set_locations (py_list_item locs) (py_range n) ps (map Z.of_nat (seq j (n - j))) =
    Err (IndexError "list index out of range").
Proof.
  remember (length locs - j)%nat as k eqn:Hk. revert j ps Hk.
  induction k as [|k IH]; intros j ps Hk Hj.
  - replace (n - j)%nat with (S (n - S j)) by lia. simpl.
    replace j with (length locs) by lia. by rewrite py_list_item_ge.
  - replace (n - j)%nat with (S (n - S j)) by lia. simpl.
    destruct (lookup_lt_is_Some_2 locs j) as [loc Hloc]; [lia|].
    rewrite (py_list_item_in locs j loc) by (done || lia). simpl.
    unfold set_channel_property. rewrite bool_decide_true by (apply elem_of_py_range; lia).
    simpl. apply IH; lia.
Qed.

(** ** The shank map *)

Lemma str_of_Z_no_paren z : ")"%char ∉ chars (str_of_Z z).
Proof.
  apply not_elem_of_str_of_Z; [discriminate|].
  intros d Hd. do 10 (destruct d as [|d]; [discriminate|]). lia.
Qed.

Lemma str_of_Z_no_colon z : ":"%char ∉ chars (str_of_Z z).
Proof.
  apply not_elem_of_str_of_Z; [discriminate|].
  intros d Hd. do 10 (destruct d as [|d]; [discriminate|]). lia.
Qed.

Lemma chars_shank_entry_body i x y u :
  chars (shank_entry_body (i, x, y, u)) =
    "("%char :: join_chars ":"%char (map chars [str_of_Z i; str_of_Z x; str_of_Z y; str_of_Z u]).
Proof. unfold shank_entry_body, str_join. by rewrite chars_app, chars_of_chars. Qed.

Lemma shank_entry_no_paren e : ")"%char ∉ chars (shank_entry_body e).
Proof.
  destruct e as [[[i x] y] u]. rewrite chars_shank_entry_body.
  apply not_elem_of_cons. split; [discriminate|].
  apply not_elem_of_join_chars; [discriminate|].
  repeat constructor; apply str_of_Z_no_paren.
Qed.

Lemma shank_location_entry xp yp locs e :
  shank_location xp yp locs (shank_entry_body e) = Ok (locs ++ [shank_loc xp yp e]).
Proof.
  destruct e as [[[i x] y] u]. unfold shank_location, str_from.
  rewrite chars_shank_entry_body. cbn [drop]. rewrite drop_0.
  set (ws := map chars [str_of_Z i; str_of_Z x; str_of_Z y; str_of_Z u]).
  rewrite bool_decide_true.
  2:{ rewrite length_chars, chars_of_chars. unfold ws. cbn [map join_chars].
        rewrite length_app. simpl. lia. }
  unfold str_split. rewrite chars_of_chars, split_join_chars.
  2:{ discriminate. }
  2:{ repeat constructor; apply str_of_Z_no_colon. }
  unfold ws. rewrite map_of_chars_chars.
  assert (py_list_item [str_of_Z i; str_of_Z x; str_of_Z y; str_of_Z u] 1 = Ok (str_of_Z x)) as ->
    by reflexivity.
  assert (py_list_item [str_of_Z i; str_of_Z x; str_of_Z y; str_of_Z u] 2 = Ok (str_of_Z y)) as ->
    by reflexivity.
  cbn [py_bind]. by rewrite !py_int_str_of_Z.
Qed.

Lemma shank_locations_entries xp yp locs es :
  py_foldM (shank_location xp yp) locs (map shank_entry_body es) =
    Ok (locs ++ map (shank_loc xp yp) es).
Proof.
  revert locs; induction es as [|e es IH]; intros locs; simpl; [by rewrite app_nil_r|].
  rewrite shank_location_entry. simpl. rewrite IH. by rewrite <- app_assoc.
Qed.

(** SpikeGLX's writer is the shared one-shot writer with
    [time_axis = 0] unless [transpose]. *)
Lemma sg_write_shared {R} `{Recording R} (r : R) dt transpose :
  sg_write_recording r dt transpose =
    write_to_binary_dat_format r (if transpose then 1 else 0) dt None.
Proof. reflexivity. Qed.

(** ** Properties of the adapter *)

(** C22: SpikeGLX refines the read contract with the raw store as the
    full read: get_traces() returns the int16 samples unscaled, a frame
    range returns those columns, a channel list returns the requested
    rows in the requested order (not the store's order), and an unknown
    id raises ValueError. *)
Theorem sg_refines_read_contract st :
  sg_wf st ->
  full_read_law st (mmap inject_Z (mm_data (sg_timeseries st))) /\
  frame_range_law st (mmap inject_Z (mm_data (sg_timeseries st))) /\
  channel_list_law st (mmap inject_Z (mm_data (sg_timeseries st))) /\
  unknown_channel_law st.
Proof.
  intros Hwf. assert (full_read_law st (sg_full st)) as Hfull.
  { split; [by apply sg_get_traces_full|by apply sg_full_shape]. }
  split; [done|]. split; [by apply sg_contract_frames|].
  split; [by apply sg_contract_channels|by apply sg_contract_unknown].
Qed.

(** C31: the shank map parser reads back the locations of a shank map
    [(hdr)(i:x:y:u)...] followed by the line's newline: each entry gives
    [[x * x_pitch, y * y_pitch]], in order. *)
Theorem shank_locations_roundtrip xp yp locs hdr es :
  ")"%char ∉ chars hdr ->
  shank_locations xp yp locs (shank_map_str hdr es +:+ String.String "010"%char EmptyString) =
    Ok (locs ++ map (shank_loc xp yp) es).
Proof.
  intros Hhdr. unfold shank_locations, shank_map_str, str_join, str_split.
  rewrite chars_app, chars_of_chars, map_cons, map_app.
  change (map chars [""]) with [@nil ascii].
  rewrite app_comm_cons, join_chars_snoc, app_nil_l.
  rewrite split_join_chars.
  - simpl drop. rewrite drop_0, map_app, map_of_chars_chars, py_foldM_app, shank_locations_entries.
    done.
  - by destruct (map chars (map shank_entry_body es)).
  - constructor.
    + change (chars ("(" +:+ hdr)) with ("("%char :: chars hdr).
      apply not_elem_of_cons. split; [discriminate|done].
    + apply Forall_app. split.
      2:{ constructor; [|constructor]. apply not_elem_of_cons. split; [discriminate|apply not_elem_of_nil]. }
      apply Forall_map, Forall_map, Forall_forall. intros e _. apply shank_entry_no_paren.
Qed.

(** C32: SpikeGLX's write_recording with [transpose=False] writes a file
    that read_binary reads back (same channel count and dtype, frames
    first) as the recording's traces converted to the dtype. *)
Theorem sg_write_read_roundtrip {R} `{Recording R} {wf} `{!ReadContract R wf} (r : R) dt :
  wf r -> wf_dtype dt -> length (get_channel_ids r) <> 0%nat ->
  exists full bytes, full_read_law r full /\
    sg_write_recording r dt false = Ok bytes /\
    read_binary bytes (Z.of_nat (length (get_channel_ids r))) dt true 0 =
      Ok (mk_memmap (length (get_channel_ids r)) (Z.to_nat (get_num_frames r))
            (mmap (astype_int dt) full)).
Proof. intros. rewrite sg_write_shared. by apply write_read_roundtrip. Qed.

(** Split the [(channels, timeseries)] pair bound at line 47. *)
Ltac destruct_pair c t :=
  match goal with p : (list Z * memmap)%type |- _ => destruct p as [c t] end.

Section InitTheorems.
Context (gim gni : memmap -> list Z -> Meta -> PyResult (list Q)).

Lemma sg_init_opened env file x y ftype meta raw sr mp :
  sg_opened env file x y ftype meta raw sr mp ->
  sg_init gim gni env file x y =
    (let* '(channels, timeseries) := sg_restrict mp raw in
     let* props := sg_locations mp channels in
     let* gains := sg_gains gim gni meta timeseries channels in
     let* props := set_channel_gains channels props channels (map (fun g => g * 1000000)%Q gains) in
     Ok (mk_sg file (env_cwd env) ftype (sg_metafile_of env file) timeseries sr channels props)).
Proof.
  intros (H1 & H2 & H3 & H4 & H5 & H6). unfold sg_init. rewrite H1. cbn [py_bind].
  rewrite H2. cbn [py_assert py_bind]. rewrite H3. cbn [py_bind]. rewrite H4. cbn [py_bind].
  rewrite H5. cbn [py_bind]. by rewrite H6.
Qed.

(** C23: the meta file is looked up in the process's working directory,
    not next to the .bin file: when the working directory has no
    [stem.meta], construction raises, whatever the file's own folder
    holds. *)
Theorem sg_init_meta_not_in_cwd env file x y ftype :
  sg_ftype_of (path_stem file) = Ok ftype ->
  path_exists env (path_join (env_cwd env) (path_stem file +:+ ".meta")) = false ->
  sg_init gim gni env file x y =
    Err (Exception ("'meta' file for '" +:+ ftype +:+ "' traces should be in the same folder.")).
Proof. intros H1 H2. unfold sg_init. rewrite H1. cbn [py_bind]. unfold sg_metafile_of. by rewrite H2. Qed.

(** C24: a meta file with no [snsApLfSy] line (a nidq file) leaves
    [ap_chan] at None, and [ap_chan < tot_chan] raises TypeError. *)
Theorem sg_init_no_ap env file x y ftype meta raw sr mp lines :
  sg_opened env file x y ftype meta raw sr mp ->
  readlines env (sg_metafile_of env file) = Ok lines ->
  Forall (fun l => str_contains "snsApLfSy" l = false) lines ->
  sg_init gim gni env file x y = Err (lt_type_error None (mp_tot mp)).
Proof.
  intros Hop Hl Hall. rewrite (sg_init_opened _ _ _ _ _ _ _ _ _ Hop).
  destruct Hop as (_ & _ & _ & _ & _ & Hp).
  unfold sg_restrict. by rewrite (parse_no_ap _ _ _ _ _ _ Hl Hall Hp).
Qed.

(** C25: with fewer AP channels than saved channels, the extractor
    exposes exactly the [ap_chan] leading rows: its channel ids are
    [range(ap_chan)] and its store the first [ap_chan] rows. *)
Theorem sg_init_active_channels env file x y ftype meta raw sr mp ap tot st :
  sg_opened env file x y ftype meta raw sr mp ->
  mp_ap mp = Some ap -> mp_tot mp = Some tot -> 0 <= ap < tot ->
  sg_init gim gni env file x y = Ok st ->
  sg_get_channel_ids st = py_range (Z.to_nat ap) /\ sg_timeseries st = rows_upto raw ap.
Proof.
  intros Hop Hap Htot Hlt H. rewrite (sg_init_opened _ _ _ _ _ _ _ _ _ Hop) in H.
  unfold sg_restrict in H. rewrite Hap, Htot, bool_decide_true in H by lia. cbn [py_bind] in H.
  py_inv. by subst.
Qed.

(** C26: when the parsed meta file gives [nSavedChans] equal to the rows
    of the store and a non-negative AP count, the constructor
    establishes the read-contract invariant: a rectangular store whose
    channel ids are its row indices. *)
Theorem sg_init_wf env file x y ftype meta raw sr mp ap st :
  sg_opened env file x y ftype meta raw sr mp ->
  mp_tot mp = Some (Z.of_nat (mm_rows raw)) -> mp_ap mp = Some ap -> 0 <= ap ->
  sg_init gim gni env file x y = Ok st -> sg_wf st.
Proof.
  intros Hop Htot Hap Hap0 H. pose proof Hop as (_ & _ & _ & Hraw & _).
  apply make_memmap_raw_wf in Hraw.
  rewrite (sg_init_opened _ _ _ _ _ _ _ _ _ Hop) in H.
  unfold sg_restrict in H. rewrite Hap, Htot in H. case_bool_decide; cbn [py_bind] in H;
    py_inv; subst; unfold sg_wf; cbn [sg_timeseries sg_channels].
  - destruct (rows_upto_wf raw ap Hraw) as [Hw Hr]; [lia|]. split; [exact Hw|]. by rewrite Hr.
  - by rewrite Nat2Z.id.
Qed.

(** C27: the constructor stores, for each channel, [1e6] times the gain
    the file type's formula gives it, as the channel's 'gain' property. *)
Theorem sg_init_gains env file x y st :
  sg_init gim gni env file x y = Ok st ->
  exists meta gains, sg_gains gim gni meta (sg_timeseries st) (sg_channels st) = Ok gains /\
    forall i ch g, sg_channels st !! i = Some ch -> gains !! i = Some g ->
      get_channel_property (sg_props st) ch "gain" = Some (PGain (g * 1000000)%Q).
Proof.
  intros H. unfold sg_init in H. py_inv.
  match goal with p : (list Z * memmap)%type |- _ => destruct p as [chs ts] end.
  py_inv. subst. cbn [sg_timeseries sg_channels sg_props].
  match goal with
  | Hg : sg_gains _ _ ?meta _ _ = Ok ?gains, Hs : set_channel_gains _ _ _ _ = Ok _,
    Hr : sg_restrict _ _ = Ok _ |- _ =>
      exists meta, gains; split; [exact Hg|]; intros i ch g Hch Hgi;
      unfold set_channel_gains in Hs; case_decide; [|discriminate];
      destruct (sg_restrict_range _ _ _ _ Hr) as [k ->];
      eapply set_gains_list_get; [apply NoDup_py_range|exact Hs|exact Hch|];
      by rewrite list_lookup_fmap, Hgi
  end.
Qed.

(** C28: a [typeThis] other than 'imec' and 'nidq' leaves [gains]
    unassigned: construction raises NameError. *)
Theorem sg_init_unknown_type env file x y ftype meta raw sr mp chs ts props t :
  sg_opened env file x y ftype meta raw sr mp ->
  sg_restrict mp raw = Ok (chs, ts) -> sg_locations mp chs = Ok props ->
  meta_get meta "typeThis" = Ok t -> t <> "imec" -> t <> "nidq" ->
  sg_init gim gni env file x y = Err (NameError "gains").
Proof.
  intros Hop Hr Hl Ht Hi Hn. rewrite (sg_init_opened _ _ _ _ _ _ _ _ _ Hop), Hr.
  cbn [py_bind]. rewrite Hl. cbn [py_bind]. unfold sg_gains. rewrite Ht. cbn [py_bind].
  by rewrite !bool_decide_false.
Qed.

(** C29: a shank map with fewer locations than channels makes the
    locations loop raise IndexError. *)
Theorem sg_init_locations_short env file x y ftype meta raw sr mp chs ts :
  sg_opened env file x y ftype meta raw sr mp ->
  sg_restrict mp raw = Ok (chs, ts) -> (0 < length (mp_locs mp) < length chs)%nat ->
  sg_init gim gni env file x y = Err (IndexError "list index out of range").
Proof.
  intros Hop Hr Hlen. rewrite (sg_init_opened _ _ _ _ _ _ _ _ _ Hop), Hr. cbn [py_bind].
  unfold sg_locations. rewrite bool_decide_true by lia.
  destruct (sg_restrict_range _ _ _ _ Hr) as [k ->]. rewrite length_py_range in *.
  unfold py_range at 2. replace (seq 0 k) with (seq 0 (k - 0)) by (f_equal; lia).
  by rewrite set_locations_short by lia.
Qed.

(** C30: a file whose stem has no '.' and is not 'nidq' makes the file
    type [stem.split('.')[-2]] raise IndexError. *)
Theorem sg_init_stem_no_dot env file x y :
  "."%char ∉ chars (path_stem file) -> path_stem file <> "nidq" ->
  sg_init gim gni env file x y = Err (IndexError "list index out of range").
Proof.
  intros Hd Hn. unfold sg_init, sg_ftype_of, str_split.
  rewrite split_chars_no_sep by done. cbn [map]. rewrite of_chars_chars.
  assert (py_list_item [path_stem file] (-1) = Ok (path_stem file)) as -> by reflexivity.
  cbn [py_bind]. by rewrite bool_decide_false.
Qed.
(** C36: SpikeGLX's class attributes describe it: it has default
    locations, and an extractor built from a meta file with a shank map
    gives each channel [m] the location [locations[m]] of the map (the
    gains set afterwards keep them); and the x/y pitch defaults the GUI
    offers (21.0 and 20.0) build the same extractor as the constructor's
    [None] defaults. *)
Theorem sg_class_attrs env file x y ftype meta raw sr mp st :
  sg_opened env file x y ftype meta raw sr mp -> mp_locs mp <> [] ->
  sg_init gim gni env file x y = Ok st ->
  ci_has_default_locations sg_info = true /\
  (forall ch, ch ∈ sg_get_channel_ids st ->
     get_channel_property (sg_props st) ch "location" = PLocation <$> mp_locs mp !! Z.to_nat ch) /\
  sg_init gim gni env file None None =
    sg_init gim gni env file (gui_default sg_info "x_pitch") (gui_default sg_info "y_pitch").
Proof.
  intros Hop Hne H. split; [done|]. split.
  - rewrite (sg_init_opened _ _ _ _ _ _ _ _ _ Hop) in H. py_inv. destruct_pair chs ts. py_inv.
    subst st. unfold sg_get_channel_ids. simpl. intros ch Hch.
    unfold set_channel_gains in *. case_decide; [|discriminate].
    erewrite set_gains_list_location by eassumption.
    destruct (sg_restrict_channels _ _ _ _ ltac:(eassumption)) as [k ->].
    eapply sg_locations_get; [exact Hne|eassumption|exact Hch].
  - reflexivity.
Qed.

End InitTheorems.

(** C38: SpikeGLX's get_traces is well typed: on a state satisfying the
    invariant, a successful read is a 2-D array with one row per
    requested channel (all of them when none is given) and as many
    frames as Python's slice [start_frame:end_frame] of the recording
    has, for any bounds; an int channel id never succeeds. *)
Theorem sg_traces_type st : sg_wf st -> traces_type_law st.
Proof.
  intros [Hm Hch] sel s e t H. simpl in H |- *. unfold sg_get_traces in H.
  unfold slice_len, sg_get_num_frames.
  destruct sel as [|ch|chs]; simpl in H; [| discriminate |].
  - py_inv. subst t. unfold sg_get_channel_ids. rewrite Hch. apply mmap_shape.
    match goal with Ht : take_rows_slice _ _ _ _ = Ok _ |- _ =>
      exact (take_rows_slice_shape_any _ _ _ _ _ _ _ Hm Ht) end.
  - destruct (py_mapM _ chs) as [idx|] eqn:E; simpl in H; [|discriminate].
    py_inv. subst t. apply mmap_shape. apply py_mapM_ok_length in E.
    rewrite <- E, <- (length_map Z.of_nat idx).
    match goal with Ht : take_rows_slice _ _ _ _ = Ok _ |- _ =>
      exact (take_rows_slice_shape_any _ _ _ _ _ _ _ Hm Ht) end.
Qed.

(** ** Witnesses *)

Ltac opened := repeat split; vm_compute; reflexivity.

Lemma ex_sg_state_wf : sg_wf ex_sg_state.
Proof. split; [split; [reflexivity|repeat constructor]|reflexivity]. Qed.

Lemma sg_refines_read_contract_witness :
  full_read_law ex_sg_state (mmap inject_Z (mm_data (sg_timeseries ex_sg_state))) /\
  frame_range_law ex_sg_state (mmap inject_Z (mm_data (sg_timeseries ex_sg_state))) /\
  channel_list_law ex_sg_state (mmap inject_Z (mm_data (sg_timeseries ex_sg_state))) /\
  unknown_channel_law ex_sg_state.
Proof. apply sg_refines_read_contract. exact ex_sg_state_wf. Defined.

Lemma shank_locations_roundtrip_witness :
  shank_locations 21 20 [] (shank_map_str "1,2,480" [(0, 0, 0, 1); (0, 1, 3, 1)]
                             +:+ String.String "010"%char EmptyString) =
    Ok ([] ++ map (shank_loc 21 20) [(0, 0, 0, 1); (0, 1, 3, 1)]).
Proof. apply shank_locations_roundtrip. decide_goal. Defined.

Lemma sg_write_read_roundtrip_witness :
  exists full bytes, full_read_law ex_sg_state full /\
    sg_write_recording ex_sg_state int16le false = Ok bytes /\
    read_binary bytes (Z.of_nat (length (get_channel_ids ex_sg_state))) int16le true 0 =
      Ok (mk_memmap (length (get_channel_ids ex_sg_state)) (Z.to_nat (get_num_frames ex_sg_state))
            (mmap (astype_int int16le) full)).
Proof.
  apply (sg_write_read_roundtrip (wf := sg_wf) ex_sg_state int16le);
    [exact ex_sg_state_wf|decide_goal|vm_compute; discriminate].
Defined.

Lemma sg_init_meta_not_in_cwd_witness :
  path_exists (ex_env "/home" "r_g0_t0.imec0.ap" ex_ap_lines) "/data/r_g0_t0.imec0.ap.meta" = true /\
  sg_init ex_gain ex_gain (ex_env "/home" "r_g0_t0.imec0.ap" ex_ap_lines) ex_ap_file None None =
    Err (Exception ("'meta' file for '" +:+ "imec0.ap" +:+ "' traces should be in the same folder.")).
Proof. split; [vm_compute; reflexivity|]. apply sg_init_meta_not_in_cwd; vm_compute; reflexivity. Defined.

Lemma sg_init_no_ap_witness :
  sg_init ex_gain ex_gain
    (ex_env "/data" "r_g0_t0.nidq" ["nSavedChans=3"; "niSampRate=25000"; "typeThis=nidq"])
    "/data/r_g0_t0.nidq.bin" None None =
  Err (lt_type_error None
         (mp_tot (ex_parse (ex_env "/data" "r_g0_t0.nidq" ["nSavedChans=3"; "niSampRate=25000"; "typeThis=nidq"])
                   "/data/r_g0_t0.nidq.bin"))).
Proof.
  set (E := ex_env "/data" "r_g0_t0.nidq" ["nSavedChans=3"; "niSampRate=25000"; "typeThis=nidq"]).
  set (F := "/data/r_g0_t0.nidq.bin").
  apply (sg_init_no_ap ex_gain ex_gain E F None None "nidq" (ex_meta E F) (ex_raw E F)
           (ex_ok 0%Q (samp_rate (ex_meta E F))) (ex_parse E F)
           (ex_ok [] (readlines E (sg_metafile_of E F)))); [opened|vm_compute; reflexivity|].
  vm_compute. repeat constructor.
Defined.

Lemma sg_init_active_channels_witness :
  sg_get_channel_ids ex_sg_state = py_range (Z.to_nat 2) /\
  sg_timeseries ex_sg_state = rows_upto (ex_raw ex_ap_env ex_ap_file) 2.
Proof.
  apply (sg_init_active_channels ex_gain ex_gain ex_ap_env ex_ap_file None None "imec0.ap"
           (ex_meta ex_ap_env ex_ap_file) (ex_raw ex_ap_env ex_ap_file)
           (ex_ok 0%Q (samp_rate (ex_meta ex_ap_env ex_ap_file))) (ex_parse ex_ap_env ex_ap_file) 2 3);
    [opened|vm_compute; reflexivity|vm_compute; reflexivity|lia|vm_compute; reflexivity].
Defined.

Lemma sg_init_wf_witness : sg_wf ex_sg_state.
Proof.
  apply (sg_init_wf ex_gain ex_gain ex_ap_env ex_ap_file None None "imec0.ap"
           (ex_meta ex_ap_env ex_ap_file) (ex_raw ex_ap_env ex_ap_file)
           (ex_ok 0%Q (samp_rate (ex_meta ex_ap_env ex_ap_file))) (ex_parse ex_ap_env ex_ap_file) 2);
    [opened|vm_compute; reflexivity|vm_compute; reflexivity|lia|vm_compute; reflexivity].
Defined.

Lemma sg_init_gains_witness :
  exists meta gains, sg_gains ex_gain ex_gain meta (sg_timeseries ex_sg_state) (sg_channels ex_sg_state) = Ok gains /\
    forall i ch g, sg_channels ex_sg_state !! i = Some ch -> gains !! i = Some g ->
      get_channel_property (sg_props ex_sg_state) ch "gain" = Some (PGain (g * 1000000)%Q).
Proof.
  apply (sg_init_gains ex_gain ex_gain ex_ap_env ex_ap_file None None). vm_compute. reflexivity.
Defined.

Lemma sg_init_unknown_type_witness :
  sg_init ex_gain ex_gain
    (ex_env "/data" "r_g0_t0.imec0.ap" ["nSavedChans=3"; "snsApLfSy=2,0,1"; "niSampRate=25000"; "typeThis=foo"])
    ex_ap_file None None = Err (NameError "gains").
Proof.
  set (E := ex_env "/data" "r_g0_t0.imec0.ap"
              ["nSavedChans=3"; "snsApLfSy=2,0,1"; "niSampRate=25000"; "typeThis=foo"]).
  apply (sg_init_unknown_type ex_gain ex_gain E ex_ap_file None None "imec0.ap"
           (ex_meta E ex_ap_file) (ex_raw E ex_ap_file) (ex_ok 0%Q (samp_rate (ex_meta E ex_ap_file)))
           (ex_parse E ex_ap_file) [0; 1] (rows_upto (ex_raw E ex_ap_file) 2) ∅ "foo");
    [opened|vm_compute; reflexivity|vm_compute; reflexivity|vm_compute; reflexivity
    |discriminate|discriminate].
Defined.

Lemma sg_init_locations_short_witness :
  sg_init ex_gain ex_gain
    (ex_env "/data" "r_g0_t0.imec0.ap"
       ["nSavedChans=3"; "snsApLfSy=2,0,1"; "imSampRate=30000"; "typeThis=imec";
        "~snsShankMap=(1,2,480)(0:0:0:1)"])
    ex_ap_file None None = Err (IndexError "list index out of range").
Proof.
  set (E := ex_env "/data" "r_g0_t0.imec0.ap"
              ["nSavedChans=3"; "snsApLfSy=2,0,1"; "imSampRate=30000"; "typeThis=imec";
               "~snsShankMap=(1,2,480)(0:0:0:1)"]).
  apply (sg_init_locations_short ex_gain ex_gain E ex_ap_file None None "imec0.ap"
           (ex_meta E ex_ap_file) (ex_raw E ex_ap_file) (ex_ok 0%Q (samp_rate (ex_meta E ex_ap_file)))
           (ex_parse E ex_ap_file) [0; 1] (rows_upto (ex_raw E ex_ap_file) 2));
    [opened|vm_compute; reflexivity|vm_compute; lia].
Defined.

Lemma sg_init_stem_no_dot_witness :
  sg_init ex_gain ex_gain (ex_env "/data" "run" ex_ap_lines) "/data/run.bin" None None =
    Err (IndexError "list index out of range").
Proof. apply sg_init_stem_no_dot; [decide_goal|vm_compute; discriminate]. Defined.

Lemma sg_class_attrs_witness :
  ci_has_default_locations sg_info = true /\
  (forall ch, ch ∈ sg_get_channel_ids ex_sg_state ->
     get_channel_property (sg_props ex_sg_state) ch "location" =
       PLocation <$> mp_locs (ex_parse ex_ap_env ex_ap_file) !! Z.to_nat ch) /\
  sg_init ex_gain ex_gain ex_ap_env ex_ap_file None None =
    sg_init ex_gain ex_gain ex_ap_env ex_ap_file (gui_default sg_info "x_pitch") (gui_default sg_info "y_pitch").
Proof.
  apply (sg_class_attrs ex_gain ex_gain ex_ap_env ex_ap_file None None "imec0.ap"
           (ex_meta ex_ap_env ex_ap_file) (ex_raw ex_ap_env ex_ap_file)
           (ex_ok 0%Q (samp_rate (ex_meta ex_ap_env ex_ap_file))) (ex_parse ex_ap_env ex_ap_file));
    [opened|vm_compute; discriminate|vm_compute; reflexivity].
Defined.

Lemma sg_traces_type_witness : traces_type_law ex_sg_state.
Proof. apply sg_traces_type. exact ex_sg_state_wf. Defined.
