(* ===== verification/RoundTrip.v ===== *)
(** * Writing with write_recording and reading back with BinDat

    [BinDat_contract] is BinDatRecordingExtractor's instance of the read
    contract (from the field lemmas of [BinDat]).  The theorems compose
    the writer of [BinaryIO] with the BinDat constructor and
    [get_traces]: for any recording that meets the read contract and
    whose traces are integers in the range of a signed dtype, writing it
    with [write_recording(recording, path, time_axis=0, dtype)] and
    opening the file with [BinDatRecordingExtractor(path, samplerate,
    numchan, dtype)] reads back exactly the original traces (spec,
    section 8).  With an unsigned little-endian dtype the values come
    back shifted by [-(2^(bits-1) + 1)]: the reader re-centres what the
    writer stored unshifted. *)

From S2P Require Import Prelude PyString PyList NdArray Dtype Contract BinaryIO Properties BinDat.

#[export] Instance BinDat_contract : ReadContract BinDat bd_wf := {|
  contract_full := bd_contract_full;
  contract_frames := bd_contract_frames;
  contract_channels := bd_contract_channels;
  contract_unknown := bd_contract_unknown
|}.

(** The file system holding one file. *)
Definition fs_with (path : string) (bytes : list Z) : FileSys :=
  fun p => if decide (p = path) then Some bytes else None.

(** Traces that are ints within the range of [dt]. *)
Definition ints_in_range (dt : dtype) (full : list (list Q)) : Prop :=
  Forall (Forall (fun q => exists z, q = inject_Z z /\ dt_min dt <= z <= dt_max dt)) full.

Lemma full_read_law_unique {R} `{Recording R} (r : R) f1 f2 :
  full_read_law r f1 -> full_read_law r f2 -> f1 = f2.
Proof. intros [H1 _] [H2 _]. rewrite H1 in H2. by injection H2. Qed.

Lemma astype_int_inject dt z :
  (1 <= dt_bytes dt)%nat -> dt_min dt <= z <= dt_max dt -> astype_int dt (inject_Z z) = z.
Proof.
  intros. unfold astype_int, q_trunc. simpl. rewrite Z.quot_1_r. by apply wrap_in_range.
Qed.

Lemma mmap_astype_ints dt full :
  (1 <= dt_bytes dt)%nat -> ints_in_range dt full ->
  mmap inject_Z (mmap (astype_int dt) full) = full.
Proof.
  intros Hw Hall. rewrite mmap_compose. unfold mmap. rewrite <- (map_id full) at 2.
  apply map_ext_Forall. eapply Forall_impl; [exact Hall|]. intros row Hrow.
  rewrite <- (map_id row) at 2. apply map_ext_Forall. eapply Forall_impl; [exact Hrow|].
  intros q (z & -> & Hz). simpl. by rewrite astype_int_inject.
Qed.

(** The state BinDat builds on the written file, opened with any
    dtype argument numpy reads as [dt]. *)
Lemma bd_init_written {R} `{Recording R} {wf} `{!ReadContract R wf} (r : R) dt a path sr :
  wf r -> wf_dtype dt -> np_dtype a = Ok dt -> length (get_channel_ids r) <> 0%nat ->
  exists full bytes st, full_read_law r full /\
    write_to_binary_dat_format r 0 dt None = Ok bytes /\
    bd_init (fs_with path bytes) path sr (Z.of_nat (length (get_channel_ids r))) a
      None true None 0 None = Ok st /\
    bd_wf st /\ bd_dtype st = dtype_arg_str a /\ bd_gain st = None /\
    bd_channels st = py_range (length (get_channel_ids r)) /\
    mm_data (bd_timeseries st) = mmap (astype_int dt) full.
Proof.
  intros Hwf Hdt Ha Hnch.
  destruct (write_read_roundtrip r dt Hwf Hdt Hnch) as (full & bytes & Hfull & Hw & Hread).
  set (m := mk_memmap _ _ _) in Hread.
  set (st := mk_bindat path true (dtype_arg_str a) m sr None None
               (py_range (mm_rows m)) ∅).
  assert (bd_init (fs_with path bytes) path sr (Z.of_nat (length (get_channel_ids r))) a
            None true None 0 None = Ok st) as Hinit.
  { unfold bd_init, fs_with. rewrite decide_True by done. simpl. rewrite Ha. simpl. by rewrite Hread. }
  exists full, bytes, st. do 3 (split; [done|]).
  split; [by eapply bd_init_wf|]. done.
Qed.

Lemma wf_dtype_int16 : wf_dtype (mk_dtype true 2 false).
Proof. unfold wf_dtype. simpl. apply list_elem_of_In. simpl. tauto. Qed.

(** C2: BinDat reads back what write_recording wrote: for a recording
    meeting the read contract whose traces are ints within a signed
    dtype's range, the extractor opened on the written file (same
    channel count and dtype, frames first) has channels 0..n-1 and
    [get_traces()] returns the original traces. *)
Theorem bd_write_read_roundtrip {R} `{Recording R} {wf} `{!ReadContract R wf}
    (r : R) dt path sr full :
  wf r -> wf_dtype dt -> dt_signed dt = true -> length (get_channel_ids r) <> 0%nat ->
  full_read_law r full -> ints_in_range dt full ->
  exists bytes st,
    bd_write_recording r 0 dt None = Ok bytes /\
    bd_init (fs_with path bytes) path sr (Z.of_nat (length (get_channel_ids r))) (DtObj dt)
      None true None 0 None = Ok st /\
    bd_get_channel_ids st = py_range (length (get_channel_ids r)) /\
    bd_get_traces st AllChannels None None = Ok (Arr2 full).
Proof.
  intros Hwf Hdt Hs Hnch Hfull Hints.
  destruct (bd_init_written r dt (DtObj dt) path sr Hwf Hdt eq_refl Hnch)
    as (full' & bytes & st & Hfull' & Hw & Hinit & Hbwf & Hd & Hg & Hch & Hdata).
  rewrite <- (full_read_law_unique r full full') in Hdata by done.
  exists bytes, st. do 3 (split; [done|]).
  rewrite (bd_get_traces_full st None Hbwf).
  - unfold bd_full, bd_calibrate. rewrite Hg, Hdata. f_equal. f_equal.
    apply mmap_astype_ints; [by apply wf_dtype_pos|done].
  - rewrite Hd. apply uint_offset_not_uint. unfold dtype_arg_str, dtype_str. rewrite Hs.
    by destruct (dt_big dt).
Qed.

(** C5: with an unsigned little-endian dtype the round trip shifts every
    value by [-(2^(bits-1) + 1)]: write_recording stores the ints as
    they are and BinDat's get_traces re-centres them. *)
Theorem bd_write_read_uint_shift {R} `{Recording R} {wf} `{!ReadContract R wf}
    (r : R) dt path sr full :
  wf r -> wf_dtype dt -> dt_signed dt = false -> dt_big dt = false ->
  length (get_channel_ids r) <> 0%nat ->
  full_read_law r full -> ints_in_range dt full ->
  exists bytes st,
    bd_write_recording r 0 dt None = Ok bytes /\
    bd_init (fs_with path bytes) path sr (Z.of_nat (length (get_channel_ids r))) (DtObj dt)
      None true None 0 None = Ok st /\
    bd_get_traces st AllChannels None None =
      Ok (Arr2 (mmap (fun q => q - (Qpower 2 (bits dt - 1) + 1))%Q full)).
Proof.
  intros Hwf Hdt Hs Hb Hnch Hfull Hints.
  destruct (bd_init_written r dt (DtObj dt) path sr Hwf Hdt eq_refl Hnch)
    as (full' & bytes & st & Hfull' & Hw & Hinit & Hbwf & Hd & Hg & Hch & Hdata).
  rewrite <- (full_read_law_unique r full full') in Hdata by done.
  exists bytes, st. split; [done|]. split; [done|].
  assert (uint_offset (bd_dtype st) = Ok (Some (uint_centre (bits dt)))) as Hoff.
  { rewrite Hd. unfold dtype_arg_str, dtype_str. rewrite Hs, Hb. rewrite uint_offset_uint, py_int_str_of_Z.
    done. }
  rewrite (bd_get_traces_full st _ Hbwf Hoff). unfold bd_full, bd_calibrate.
  rewrite Hg, Hdata, (mmap_astype_ints dt full) by (by apply wf_dtype_pos || done). done.
Qed.

(** ** Witnesses, with the two-channel int16 recording of [BinDat] *)

Lemma ex_i16_full_law : full_read_law ex_i16_state [[1; 2; 3]; [-1; -2; -3]]%Q.
Proof. split; [vm_compute; reflexivity|split; [reflexivity|repeat constructor]]. Qed.

Lemma bd_write_read_roundtrip_witness :
  exists bytes st,
    bd_write_recording ex_i16_state 0 (mk_dtype true 2 false) None = Ok bytes /\
    bd_init (fs_with "b.dat" bytes) "b.dat" 30000 (Z.of_nat (length (get_channel_ids ex_i16_state)))
      (DtObj (mk_dtype true 2 false)) None true None 0 None = Ok st /\
    bd_get_channel_ids st = py_range (length (get_channel_ids ex_i16_state)) /\
    bd_get_traces st AllChannels None None = Ok (Arr2 [[1; 2; 3]; [-1; -2; -3]]%Q).
Proof.
  apply (bd_write_read_roundtrip (wf := bd_wf) ex_i16_state (mk_dtype true 2 false) "b.dat" 30000);
    [exact ex_i16_state_wf|exact wf_dtype_int16|reflexivity|vm_compute; discriminate
    |exact ex_i16_full_law|].
  repeat constructor; eexists; (split; [reflexivity|vm_compute; split; discriminate]).
Defined.

Lemma ex_pos_state_wf : bd_wf ex_pos_state.
Proof.
  apply (bd_init_wf ex_pos_fs "p.dat" 30000 1 (DtName "int16") None true None 0 None).
  vm_compute. reflexivity.
Qed.

Lemma ex_pos_full_law : full_read_law ex_pos_state [[5; 7]]%Q.
Proof. split; [vm_compute; reflexivity|split; [reflexivity|repeat constructor]]. Qed.

Lemma wf_dtype_uint16 : wf_dtype (mk_dtype false 2 false).
Proof. unfold wf_dtype. simpl. apply list_elem_of_In. simpl. tauto. Qed.

Lemma bd_write_read_uint_shift_witness :
  exists bytes st,
    bd_write_recording ex_pos_state 0 (mk_dtype false 2 false) None = Ok bytes /\
    bd_init (fs_with "c.dat" bytes) "c.dat" 30000 (Z.of_nat (length (get_channel_ids ex_pos_state)))
      (DtObj (mk_dtype false 2 false)) None true None 0 None = Ok st /\
    bd_get_traces st AllChannels None None =
      Ok (Arr2 (mmap (fun q => q - (Qpower 2 (bits (mk_dtype false 2 false) - 1) + 1))%Q [[5; 7]]%Q)).
Proof.
  apply (bd_write_read_uint_shift (wf := bd_wf) ex_pos_state (mk_dtype false 2 false) "c.dat" 30000);
    [exact ex_pos_state_wf|exact wf_dtype_uint16|reflexivity|reflexivity|vm_compute; discriminate
    |exact ex_pos_full_law|].
  repeat constructor; eexists; (split; [reflexivity|vm_compute; split; discriminate]).
Defined.
